(** * Indicator library, feature assembler and metrics evaluator

    A shallow embedding of [scripts/ml_training/feature_engineering.py], of
    [calculate_trading_metrics] and [prepare_data] in
    [scripts/ml_training/train_models.py], and of the score and the decision
    of [scripts/ml_training/compare_models.py].

    The source computes on NumPy arrays and pandas Series of [float64].  The
    embedding is written once, over an interface [Num] of the arithmetic the
    source uses, and is read at two instances:

    - [float], Rocq's primitive binary64 numbers: the arithmetic the Python
      code runs on.  What the Python code returns on a concrete input is
      evaluated at this instance.
    - [xq], exact rational arithmetic extended with NaN and the infinities:
      the same formulas with neither rounding nor overflow.  It is used only
      where a statement is explicitly about exact arithmetic. *)

From Stdlib Require Import ZArith Bool String DecimalString Lia QArith Qabs Lqa.
From Stdlib Require Import Uint63 Floats.
From Stdlib Require Import List FinFun Permutation Sorted.
Import ListNotations.
Close Scope Q_scope.

Set Implicit Arguments.
Set Warnings "-inexact-float".

(** ** The arithmetic interface *)

Class Num (F : Type) : Type := {
  f_of_Z : Z -> F;          (* conversion of an integer *)
  fnan : F;                 (* np.nan *)
  finf : F;                 (* np.inf *)
  fmax : F;                 (* np.finfo(np.float64).max *)
  fadd : F -> F -> F;
  fsub : F -> F -> F;
  fmul : F -> F -> F;
  fdiv : F -> F -> F;
  fopp : F -> F;
  fabs : F -> F;
  feqb : F -> F -> bool;    (* == *)
  fltb : F -> F -> bool;    (* <  *)
  fleb : F -> F -> bool     (* <= *)
}.

Declare Scope num_scope.
Delimit Scope num_scope with num.
Infix "+" := fadd : num_scope.
Infix "-" := fsub : num_scope.
Infix "*" := fmul : num_scope.
Infix "/" := fdiv : num_scope.
Notation "- x" := (fopp x) : num_scope.
Infix "==" := feqb (at level 70, no associativity) : num_scope.
Infix "<?" := fltb : num_scope.
Infix "<=?" := fleb : num_scope.
Notation "x >? y" := (fltb y x) (at level 70, no associativity) : num_scope.
Notation "x >=? y" := (fleb y x) (at level 70, no associativity) : num_scope.

Section NumBasics.
Context {F : Type} `{Num F}.
Local Open Scope num_scope.

Definition f0 : F := f_of_Z 0.
Definition f1 : F := f_of_Z 1.

(** The literals [1e-10], [1e-6] and [0.001] of the source. *)
Definition lit_1e_10 : F := f1 / f_of_Z 10000000000.
Definition lit_1e_6 : F := f1 / f_of_Z 1000000.
Definition lit_0_001 : F := f1 / f_of_Z 1000.

(** [x != x] holds of NaN only. *)
Definition isnan (x : F) : bool := negb (x == x).
Definition isinf (x : F) : bool := fabs x == finf.
(** [np.isfinite]. *)
Definition isfinite (x : F) : bool := negb (isnan x || isinf x).
End NumBasics.

(** ** Instance: binary64 *)

Definition float_of_Z (z : Z) : float :=
  if (z <? 0)%Z then PrimFloat.opp (PrimFloat.of_uint63 (Uint63.of_Z (- z)))
  else PrimFloat.of_uint63 (Uint63.of_Z z).

#[export] Instance float_Num : Num float := {|
  f_of_Z := float_of_Z;
  fnan := PrimFloat.nan;
  finf := PrimFloat.infinity;
  fmax := 0x1.fffffffffffffp+1023%float;
  fadd := PrimFloat.add;
  fsub := PrimFloat.sub;
  fmul := PrimFloat.mul;
  fdiv := PrimFloat.div;
  fopp := PrimFloat.opp;
  fabs := PrimFloat.abs;
  feqb := PrimFloat.eqb;
  fltb := PrimFloat.ltb;
  fleb := PrimFloat.leb
|}.

(** ** Instance: exact arithmetic

    Rationals with NaN and the two infinities.  The special values follow the
    IEEE rules ([inf - inf], [0 * inf], [0 / 0] and [inf / inf] are NaN, a
    non-zero number over zero is an infinity); finite values are computed
    exactly. *)

Inductive xq : Type :=
| XNaN
| XInf (neg : bool)
| XFin (q : Q).

Definition Qltb (a b : Q) : bool := negb (Qle_bool b a).
Definition Qneg (a : Q) : bool := Qltb a 0%Q.

Definition xopp (x : xq) : xq :=
  match x with
  | XNaN => XNaN
  | XInf s => XInf (negb s)
  | XFin q => XFin (- q)%Q
  end.

Definition xabs (x : xq) : xq :=
  match x with
  | XNaN => XNaN
  | XInf _ => XInf false
  | XFin q => XFin (Qabs q)
  end.

Definition xadd (x y : xq) : xq :=
  match x, y with
  | XNaN, _ | _, XNaN => XNaN
  | XInf s, XInf t => if Bool.eqb s t then XInf s else XNaN
  | XInf s, XFin _ => XInf s
  | XFin _, XInf t => XInf t
  | XFin a, XFin b => XFin (a + b)%Q
  end.

Definition xsub (x y : xq) : xq := xadd x (xopp y).

Definition xmul (x y : xq) : xq :=
  match x, y with
  | XNaN, _ | _, XNaN => XNaN
  | XInf s, XInf t => XInf (xorb s t)
  | XInf s, XFin b => if Qeq_bool b 0%Q then XNaN else XInf (xorb s (Qneg b))
  | XFin a, XInf t => if Qeq_bool a 0%Q then XNaN else XInf (xorb (Qneg a) t)
  | XFin a, XFin b => XFin (a * b)%Q
  end.

Definition xdiv (x y : xq) : xq :=
  match x, y with
  | XNaN, _ | _, XNaN => XNaN
  | XInf _, XInf _ => XNaN
  | XInf s, XFin b => XInf (xorb s (Qneg b))
  | XFin _, XInf _ => XFin 0%Q
  | XFin a, XFin b =>
      if Qeq_bool b 0%Q then (if Qeq_bool a 0%Q then XNaN else XInf (Qneg a))
      else XFin (a / b)%Q
  end.

Definition xcompare (x y : xq) : option comparison :=
  match x, y with
  | XNaN, _ | _, XNaN => None
  | XInf s, XInf t =>
      Some (match s, t with
            | true, false => Lt
            | false, true => Gt
            | _, _ => Eq
            end)
  | XInf s, XFin _ => Some (if s then Lt else Gt)
  | XFin _, XInf t => Some (if t then Gt else Lt)
  | XFin a, XFin b => Some (a ?= b)%Q
  end.

Definition xeqb (x y : xq) : bool :=
  match xcompare x y with Some Eq => true | _ => false end.
Definition xltb (x y : xq) : bool :=
  match xcompare x y with Some Lt => true | _ => false end.
Definition xleb (x y : xq) : bool :=
  match xcompare x y with Some (Lt | Eq) => true | _ => false end.

#[export] Instance xq_Num : Num xq := {|
  f_of_Z := fun z => XFin (inject_Z z);
  fnan := XNaN;
  finf := XInf false;
  fmax := XFin (inject_Z (2 ^ 1024 - 2 ^ 971));
  fadd := xadd;
  fsub := xsub;
  fmul := xmul;
  fdiv := xdiv;
  fopp := xopp;
  fabs := xabs;
  feqb := xeqb;
  fltb := xltb;
  fleb := xleb
|}.

(** [Python]'s [math.sqrt] / [np.sqrt]; it has no exact counterpart on the
    rationals, so it is an interface of its own. *)
Class Sqrt (F : Type) : Type := { fsqrt : F -> F }.

#[export] Instance float_Sqrt : Sqrt float := {| fsqrt := PrimFloat.sqrt |}.

(** ** NumPy arrays and Python scalars *)

Fixpoint map2 {A B C : Type} (f : A -> B -> C) (xs : list A) (ys : list B) : list C :=
  match xs, ys with
  | x :: xs', y :: ys' => f x y :: map2 f xs' ys'
  | _, _ => []
  end.

(** An elementwise operation on two one-dimensional arrays.  NumPy accepts
    equal lengths, or an operand of length 1 (which it broadcasts); any other
    pair of shapes raises [ValueError], modelled by [None]. *)
Definition broadcast2 {A B C : Type} (f : A -> B -> C) (xs : list A) (ys : list B)
  : option (list C) :=
  if (length xs =? length ys)%nat then Some (map2 f xs ys)
  else match xs, ys with
       | [x], _ => Some (map (f x) ys)
       | _, [y] => Some (map (fun x => f x y) xs)
       | _, _ => None
       end.

(** [xs[mask]] *)
Definition boolean_index {A : Type} (xs : list A) (mask : list bool) : list A :=
  map fst (filter snd (combine xs mask)).

(** [np.sum(mask)] of a boolean array *)
Definition count_true (mask : list bool) : Z :=
  Z.of_nat (length (filter (fun b => b) mask)).

(** [np.cumprod], [np.cumsum], [np.maximum.accumulate]: [out[0] = a[0]],
    [out[i] = op(out[i-1], a[i])] *)
Fixpoint accumulate_from {A : Type} (op : A -> A -> A) (acc : A) (xs : list A) : list A :=
  match xs with
  | [] => []
  | x :: xs' => let acc' := op acc x in acc' :: accumulate_from op acc' xs'
  end.

Definition accumulate {A : Type} (op : A -> A -> A) (xs : list A) : list A :=
  match xs with
  | [] => []
  | x :: xs' => x :: accumulate_from op x xs'
  end.

Section NumPy.
Context {F : Type} `{Num F}.
Local Open Scope num_scope.

(** [np.nan_to_num(x, copy, nan=0.0, posinf=None, neginf=None)]: NaN becomes
    [nan]; an infinity whose replacement is [None] becomes the largest
    finite number of the type, with its sign. *)
Definition np_nan_to_num (nan : F) (x : F) : F :=
  if isnan x then nan
  else if x == finf then fmax
  else if x == - finf then - fmax
  else x.

(** [np.maximum] and [np.minimum] propagate NaN. *)
Definition np_maximum (a b : F) : F := if (a >=? b) || isnan a then a else b.
Definition np_minimum (a b : F) : F := if (a <=? b) || isnan a then a else b.

Definition np_clip (x lo hi : F) : F := np_minimum (np_maximum x lo) hi.

(** [np.sum] of a float array; the empty sum is [0.0]. *)
Definition np_sum (xs : list F) : F :=
  match xs with
  | [] => f0
  | x :: xs' => fold_left fadd xs' x
  end.

Definition np_mean (xs : list F) : F := np_sum xs / f_of_Z (Z.of_nat (length xs)).

(** [np.std] (population standard deviation, [ddof = 0]) *)
Definition np_std `{Sqrt F} (xs : list F) : F :=
  let m := np_mean xs in
  fsqrt (np_mean (map (fun x => (x - m) * (x - m)) xs)).

Definition np_cumprod : list F -> list F := accumulate fmul.
Definition np_cumsum : list F -> list F := accumulate fadd.
Definition np_maximum_accumulate : list F -> list F := accumulate np_maximum.

(** [np.min]; it raises [ValueError] on an empty array. *)
Definition np_min (xs : list F) : option F :=
  match xs with
  | [] => None
  | x :: xs' => Some (fold_left np_minimum xs' x)
  end.

(** Python's built-in [max(a, b)] and [min(a, b)]: the first argument
    unless the second compares strictly beyond it. *)
Definition py_max (a b : F) : F := if b >? a then b else a.
Definition py_min (a b : F) : F := if b <? a then b else a.
End NumPy.

(** ** Metrics evaluator: [train_models.py] *)

(** A value stored in the report: a Python [int] or a [float]. *)
Inductive pyval (F : Type) : Type :=
| PyInt (z : Z)
| PyFloat (x : F).
Arguments PyInt {F} z.
Arguments PyFloat {F} x.

Definition MetricsReport (F : Type) : Type := list (string * pyval F).

Fixpoint lookup {V : Type} (k : string) (d : list (string * V)) : option V :=
  match d with
  | [] => None
  | (k', v) :: d' => if String.eqb k k' then Some v else lookup k d'
  end.

(** The number a report entry stands for. *)
Definition pyval_num {F : Type} `{Num F} (v : pyval F) : F :=
  match v with
  | PyInt z => f_of_Z z
  | PyFloat x => x
  end.

Record PredictionSet (F : Type) : Type := {
  y_true : list Z;
  y_pred : list Z;
  y_proba : list F;
  returns : list F
}.

Section Metrics.
Context {F : Type} `{Num F} `{Sqrt F}.
Local Open Scope string_scope.
Local Open Scope num_scope.

(** The report returned when no strategy return is left (lines 156-167). *)
Definition default_report : MetricsReport F :=
  [ ("sharpe_ratio", PyInt 0);
    ("max_drawdown", PyInt 0);
    ("win_rate", PyInt 0);
    ("profit_factor", PyInt 1);
    ("total_trades", PyInt 0);
    ("avg_return", PyInt 0);
    ("volatility", PyInt 0);
    ("calmar_ratio", PyInt 0);
    ("sortino_ratio", PyInt 0) ].

(** [positions = 2 * y_pred - 1] *)
Definition positions (y_pred : list Z) : list Z :=
  map (fun y => 2 * y - 1)%Z y_pred.

(** Lines 146-154: the strategy returns that feed every statistic.
    [np.nan_to_num(strategy_returns, 0)] passes [0] as the second positional
    parameter, which is [copy]; [nan], [posinf] and [neginf] keep their
    defaults [0.0], [None], [None]. *)
Definition strategy_returns (ps : PredictionSet F) : option (list F) :=
  match broadcast2 (fun p r => f_of_Z p * r) (positions (y_pred ps)) (returns ps) with
  | None => None
  | Some strategy_returns =>
      let strategy_returns := map (np_nan_to_num f0) strategy_returns in
      let valid_mask := map isfinite strategy_returns in
      Some (boolean_index strategy_returns valid_mask)
  end.

(** Lines 174-178 *)
Definition drawdown (strategy_returns : list F) : list F :=
  let cumulative := np_cumprod (map (fun r => f1 + r) strategy_returns) in
  let running_max := np_maximum_accumulate cumulative in
  map2 (fun c m => (c - m) / (m + lit_1e_10)) cumulative running_max.

Definition max_drawdown (strategy_returns : list F) : option F :=
  np_min (drawdown strategy_returns).

(** Lines 180-183 *)
Definition wins (strategy_returns : list F) : Z :=
  count_true (map (fun r => r >? f0) strategy_returns).

Definition total_trades (strategy_returns : list F) : Z :=
  count_true (map (fun r => fabs r >? lit_1e_6) strategy_returns).

Definition win_rate (strategy_returns : list F) : F :=
  f_of_Z (wins strategy_returns) / f_of_Z (Z.max (total_trades strategy_returns) 1).

(** Lines 185-188 *)
Definition profit_factor (strategy_returns : list F) : F :=
  let gross_profit :=
    np_sum (boolean_index strategy_returns (map (fun r => r >? f0) strategy_returns)) in
  let gross_loss :=
    fabs (np_sum (boolean_index strategy_returns (map (fun r => r <? f0) strategy_returns))) in
  gross_profit / py_max gross_loss lit_1e_10.

(** Lines 197-200 *)
Definition sortino_ratio (strategy_returns : list F) : F :=
  let mean_return := np_mean strategy_returns in
  let downside_returns :=
    boolean_index strategy_returns (map (fun r => r <? f0) strategy_returns) in
  let downside_std :=
    if (0 <? length downside_returns)%nat then np_std downside_returns else lit_1e_10 in
  (mean_return / (downside_std + lit_1e_10)) * fsqrt (f_of_Z 252).

Definition calculate_trading_metrics (ps : PredictionSet F) : option (MetricsReport F) :=
  match strategy_returns ps with
  | None => None
  | Some strategy_returns =>
      if (length strategy_returns =? 0)%nat then Some default_report
      else
        let mean_return := np_mean strategy_returns in
        let std_return := np_std strategy_returns in
        let sharpe_ratio := (mean_return / (std_return + lit_1e_10)) * fsqrt (f_of_Z 252) in
        match max_drawdown strategy_returns with
        | None => None
        | Some max_drawdown =>
            let volatility := std_return * fsqrt (f_of_Z 252) in
            let annual_return := mean_return * f_of_Z 252 in
            let calmar_ratio := annual_return / fabs (py_min max_drawdown (- lit_0_001)) in
            Some
              [ ("sharpe_ratio", PyFloat (np_clip sharpe_ratio (f_of_Z (-10)) (f_of_Z 10)));
                ("max_drawdown", PyFloat max_drawdown);
                ("win_rate", PyFloat (win_rate strategy_returns));
                ("profit_factor",
                  PyFloat (np_clip (profit_factor strategy_returns) (f_of_Z 0) (f_of_Z 10)));
                ("total_trades", PyInt (total_trades strategy_returns));
                ("avg_return", PyFloat mean_return);
                ("volatility", PyFloat volatility);
                ("calmar_ratio", PyFloat (np_clip calmar_ratio (f_of_Z (-10)) (f_of_Z 10)));
                ("sortino_ratio",
                  PyFloat (np_clip (sortino_ratio strategy_returns) (f_of_Z (-10)) (f_of_Z 10))) ]
        end
  end.
End Metrics.

(** ** pandas Series: [feature_engineering.py]

    A Series is the list of its values; a missing value is NaN.  Every Series
    below carries the default index [0 .. n-1] ([engineer_features] resets the
    index first), so the index is left implicit.

    The rolling mean and the exponentially weighted mean follow the
    routines of pandas 2 that compute them ([BaseWindow._prep_values], and
    [roll_mean] and [ewm] of [pandas/_libs/window/aggregations.pyx]): an
    infinity counts as a missing value, and the rolling sum is kept online,
    with Kahan compensation. *)

(** The error monad of the functions that validate their arguments. *)
Notation "x <- e ;; k" :=
  (match e with Some x => k | None => None end)
    (at level 61, e at next level, right associativity).

Section Pandas.
Context {F : Type} `{Num F}.
Local Open Scope num_scope.

(** [Series.shift(periods)] *)
Definition shift (periods : Z) (xs : list F) : list F :=
  let n := length xs in
  if (0 <=? periods)%Z then
    let k := Nat.min (Z.to_nat periods) n in
    repeat fnan k ++ firstn (n - k) xs
  else
    let k := Nat.min (Z.to_nat (- periods)) n in
    skipn k xs ++ repeat fnan k.

(** [Series.diff()] *)
Definition diff (xs : list F) : list F := map2 fsub xs (shift 1 xs).

(** [Series.pct_change(periods)]: [data / data.shift(periods) - 1] *)
Definition pct_change (periods : Z) (xs : list F) : list F :=
  map (fun q => q - f1) (map2 fdiv xs (shift periods xs)).

(** The values of the window that ends at position [i], at the positions
    [i - window + 1 .. i], and those of a list that are not NaN. *)
Definition window_at (window : nat) (xs : list F) (i : nat) : list F :=
  skipn (S i - window) (firstn (S i) xs).

Definition observations (xs : list F) : list F :=
  filter (fun x => negb (isnan x)) xs.

(** [BaseWindow._prep_values]: the window and smoothing routines of pandas
    receive the values with every infinity replaced by NaN. *)
Definition prep_values (xs : list F) : list F :=
  map (fun x => if isinf x then fnan else x) xs.

(** C's [signbit]: set for negative numbers and for the negative zero. *)
Definition signbit (x : F) : bool :=
  (x <? f0) || ((x == f0) && (f1 / x <? f0)).

(** The state of [roll_mean] (pandas/_libs/window/aggregations.pyx): the
    number of observations in the window, their running sum with the two
    Kahan compensations, the number of negative observations, and the length
    of the run of equal values that ends at the last observation. *)
Record MeanState : Type := {
  nobs : Z;
  sum_x : F;
  neg_ct : Z;
  compensation_add : F;
  compensation_remove : F;
  num_consecutive_same_value : Z;
  prev_value : F
}.

Definition mean_setup (prev : F) : MeanState :=
  {| nobs := 0; sum_x := f0; neg_ct := 0;
     compensation_add := f0; compensation_remove := f0;
     num_consecutive_same_value := 0; prev_value := prev |}.

(** [add_mean]: a value that is not NaN enters the window. *)
Definition add_mean (st : MeanState) (val : F) : MeanState :=
  if val == val then
    let y := val - compensation_add st in
    let t := sum_x st + y in
    {| nobs := nobs st + 1;
       sum_x := t;
       neg_ct := if signbit val then neg_ct st + 1 else neg_ct st;
       compensation_add := t - sum_x st - y;
       compensation_remove := compensation_remove st;
       num_consecutive_same_value :=
         if val == prev_value st then num_consecutive_same_value st + 1 else 1;
       prev_value := val |}
  else st.

(** [remove_mean]: a value that is not NaN leaves the window. *)
Definition remove_mean (st : MeanState) (val : F) : MeanState :=
  if val == val then
    let y := - val - compensation_remove st in
    let t := sum_x st + y in
    {| nobs := nobs st - 1;
       sum_x := t;
       neg_ct := if signbit val then neg_ct st - 1 else neg_ct st;
       compensation_add := compensation_add st;
       compensation_remove := t - sum_x st - y;
       num_consecutive_same_value := num_consecutive_same_value st;
       prev_value := prev_value st |}
  else st.

(** [calc_mean] *)
Definition calc_mean (minp : Z) (st : MeanState) : F :=
  if (minp <=? nobs st)%Z && (0 <? nobs st)%Z then
    let result := sum_x st / f_of_Z (nobs st) in
    if (nobs st <=? num_consecutive_same_value st)%Z then prev_value st
    else if (neg_ct st =? 0)%Z && (result <? f0) then f0
    else if (neg_ct st =? nobs st)%Z && (result >? f0) then f0
    else result
  else fnan.

(** [values[a:b]] for [a <= b] *)
Definition slice (xs : list F) (a b : nat) : list F := firstn (b - a) (skipn a xs).

(** The bounds of the window that ends at position [i]
    ([FixedWindowIndexer]): [start[i] = max(0, i + 1 - window)],
    [end[i] = i + 1]. *)
Definition window_start (window i : nat) : nat := S i - window.
Definition window_end (i : nat) : nat := S i.

(** One turn of the loop of [roll_mean]: the state is set up afresh at the
    first position and whenever the window does not overlap the previous
    one; otherwise the values that left the window are removed and those
    that entered are added. *)
Definition roll_mean_step (values : list F) (window : nat) (st : MeanState) (i : nat)
  : MeanState :=
  let s := window_start window i in
  let e := window_end i in
  if (i =? 0)%nat || (window_end (i - 1) <=? s)%nat then
    fold_left add_mean (slice values s e) (mean_setup (nth s values fnan))
  else
    let st := fold_left remove_mean (slice values (window_start window (i - 1)) s) st in
    fold_left add_mean (slice values (window_end (i - 1)) e) st.

Fixpoint roll_mean_loop (values : list F) (window : nat) (minp : Z)
  (st : MeanState) (positions : list nat) : list F :=
  match positions with
  | [] => []
  | i :: rest =>
      let st := roll_mean_step values window st i in
      calc_mean minp st :: roll_mean_loop values window minp st rest
  end.

Definition roll_mean (values : list F) (window : nat) (minp : Z) : list F :=
  roll_mean_loop values window minp (mean_setup fnan) (seq 0 (length values)).

(** [Series.rolling(window, min_periods).mean()].  [min_periods = None] means
    [window].  A negative window, a negative [min_periods] and
    [min_periods > window] raise [ValueError]. *)
Definition rolling_mean (window : Z) (min_periods : option Z) (xs : list F)
  : option (list F) :=
  let minp := match min_periods with Some m => m | None => window end in
  if (window <? 0)%Z || (minp <? 0)%Z || (window <? minp)%Z then None
  else Some (roll_mean (prep_values xs) (Z.to_nat window) minp).

(** One step of the exponentially weighted mean ([ignore_na = False]). *)
Definition ewm_step (old_wt_factor new_wt : F) (adjust : bool)
  (state : F * F) (cur : F) : F * F :=
  let '(weighted, old_wt) := state in
  let is_observation := negb (isnan cur) in
  if negb (isnan weighted) then
    let old_wt := old_wt * old_wt_factor in
    if is_observation then
      let weighted :=
        if negb (weighted == cur)
        then (old_wt * weighted + new_wt * cur) / (old_wt + new_wt)
        else weighted in
      (weighted, if adjust then old_wt + new_wt else f1)
    else (weighted, old_wt)
  else if is_observation then (cur, old_wt)
  else (weighted, old_wt).

Fixpoint ewm_loop (old_wt_factor new_wt : F) (adjust : bool) (minp : nat)
  (state : F * F) (nobs : nat) (xs : list F) : list F :=
  match xs with
  | [] => []
  | cur :: rest =>
      let nobs := if isnan cur then nobs else S nobs in
      let state := ewm_step old_wt_factor new_wt adjust state cur in
      (if (minp <=? nobs)%nat then fst state else fnan)
        :: ewm_loop old_wt_factor new_wt adjust minp state nobs rest
  end.

(** [ewm] of [aggregations.pyx], for the centre of mass [com], on the
    prepared values. *)
Definition ewm_mean (com : F) (adjust : bool) (min_periods : Z) (xs : list F) : list F :=
  let minp := Z.to_nat (Z.max min_periods 1) in
  let alpha := f1 / (f1 + com) in
  let old_wt_factor := f1 - alpha in
  let new_wt := if adjust then f1 else alpha in
  match xs with
  | [] => []
  | x :: rest =>
      let nobs := if isnan x then 0%nat else 1%nat in
      (if (minp <=? nobs)%nat then x else fnan)
        :: ewm_loop old_wt_factor new_wt adjust minp (x, f1) nobs rest
  end.

(** [Series.ewm(span=span, adjust=adjust, min_periods=min_periods).mean()]:
    [span < 1] raises [ValueError]. *)
Definition ewm_span (span : Z) (adjust : bool) (min_periods : Z) (xs : list F)
  : option (list F) :=
  if (span <? 1)%Z then None
  else Some (ewm_mean (f_of_Z (span - 1) / f_of_Z 2) adjust min_periods (prep_values xs)).

(** [Series.ewm(alpha=alpha, adjust=adjust, min_periods=min_periods).mean()]:
    [alpha <= 0] and [alpha > 1] raise [ValueError]. *)
Definition ewm_alpha (alpha : F) (adjust : bool) (min_periods : Z) (xs : list F)
  : option (list F) :=
  if (alpha <=? f0) || (alpha >? f1) then None
  else Some (ewm_mean ((f1 - alpha) / alpha) adjust min_periods (prep_values xs)).

(** [np.sign] *)
Definition np_sign (x : F) : F :=
  if isnan x then x
  else if x >? f0 then f1
  else if x <? f0 then f_of_Z (-1)
  else f0.

(** [Series.cumsum()] ([skipna = True]): NaN counts as 0 in the running sum
    and stays NaN in the result. *)
Definition cumsum (xs : list F) : list F :=
  map2 (fun x c => if isnan x then fnan else c) xs
    (np_cumsum (map (fun x => if isnan x then f0 else x) xs)).

(** [pd.concat(cols, axis=1).max(axis=1)] and [.min(axis=1)] over one row:
    the extremum of the values that are not NaN, NaN if there is none. *)
Definition row_max (row : list F) : F :=
  match observations row with
  | [] => fnan
  | x :: rest => fold_left (fun a b => if b >? a then b else a) rest x
  end.

Definition row_min (row : list F) : F :=
  match observations row with
  | [] => fnan
  | x :: rest => fold_left (fun a b => if b <? a then b else a) rest x
  end.

(** [(a > b)] on two Series, and [.astype(int)] *)
Definition gt_series (xs ys : list F) : list bool := map2 (fun x y => x >? y) xs ys.
Definition lt_series (xs ys : list F) : list bool := map2 (fun x y => x <? y) xs ys.
Definition astype_int (bs : list bool) : list Z := map (fun b : bool => if b then 1%Z else 0%Z) bs.

(** *** The indicators *)

Definition sma (series : list F) (period : Z) : option (list F) :=
  rolling_mean period (Some 1%Z) series.

Definition ema (series : list F) (period : Z) : option (list F) :=
  ewm_span period false 1 series.

Definition rsi (series : list F) (period : Z) : option (list F) :=
  let delta := diff series in
  let gain := map (fun d => if d >? f0 then d else f0) delta in
  let loss := map (fun d => if d <? f0 then - d else f0) delta in
  if (period =? 0)%Z then None  (* 1/period: ZeroDivisionError *)
  else
    let alpha := f1 / f_of_Z period in
    avg_gain <- ewm_alpha alpha true period gain ;;
    avg_loss <- ewm_alpha alpha true period loss ;;
    let rs := map2 (fun g l => g / (l + lit_1e_10)) avg_gain avg_loss in
    Some (map (fun rs => f_of_Z 100 - (f_of_Z 100 / (f1 + rs))) rs).

Definition macd (series : list F) (fast slow signal : Z)
  : option (list F * list F * list F) :=
  ema_fast <- ema series fast ;;
  ema_slow <- ema series slow ;;
  let macd_line := map2 fsub ema_fast ema_slow in
  signal_line <- ema macd_line signal ;;
  let histogram := map2 fsub macd_line signal_line in
  Some (macd_line, signal_line, histogram).

Definition atr (high low close : list F) (period : Z) : option (list F) :=
  let tr1 := map2 fsub high low in
  let tr2 := map fabs (map2 fsub high (shift 1 close)) in
  let tr3 := map fabs (map2 fsub low (shift 1 close)) in
  let tr := map2 (fun a bc => row_max [a; fst bc; snd bc]) tr1 (combine tr2 tr3) in
  rolling_mean period None tr.

Definition adx (high low close : list F) (period : Z) : option (list F) :=
  let plus_dm := diff high in
  let minus_dm := map fopp (diff low) in
  let plus_dm :=
    map2 (fun p m => if (p >? m) && (p >? f0) then p else f0) plus_dm minus_dm in
  let minus_dm :=
    map2 (fun m p => if (m >? p) && (m >? f0) then m else f0) minus_dm plus_dm in
  tr <- atr high low close 1 ;;
  ema_plus <- ema plus_dm period ;;
  ema_tr <- ema tr period ;;
  ema_minus <- ema minus_dm period ;;
  let plus_di := map2 (fun a t => f_of_Z 100 * a / (t + lit_1e_10)) ema_plus ema_tr in
  let minus_di := map2 (fun a t => f_of_Z 100 * a / (t + lit_1e_10)) ema_minus ema_tr in
  let dx :=
    map2 (fun p m => f_of_Z 100 * fabs (p - m) / (p + m + lit_1e_10)) plus_di minus_di in
  ema dx period.

Definition obv (close volume : list F) : list F :=
  let direction := map np_sign (diff close) in
  cumsum (map2 fmul volume direction).

End Pandas.

(** ** DataFrames and the feature assembler *)

(** A cell of a DataFrame: a float, an integer, or an object (a date is kept
    as its day number). *)
Inductive cell (F : Type) : Type :=
| CFloat (x : F)
| CInt (z : Z)
| CStr (s : string).
Arguments CFloat {F} x.
Arguments CInt {F} z.
Arguments CStr {F} s.

(** A DataFrame: the index labels and the named columns, in order. *)
Record DataFrame (F : Type) : Type := {
  df_index : list Z;
  df_columns : list (string * list (cell F))
}.

(** One row of the raw input: a daily bar. *)
Record Bar (F : Type) : Type := {
  date : Z;
  open : F;
  high : F;
  low : F;
  close : F;
  volume : F;
  symbol : string;
  asset_class : string
}.

(** The library routines the assembler calls that are not arithmetic on
    single values: [np.log], and the rolling standard deviation, skewness and
    kurtosis of pandas ([rolling(window).std()], [.skew()], [.kurt()]).
    They are parameters: no result below depends on what they return. *)
Class PandasLib (F : Type) : Type := {
  np_log : F -> F;
  rolling_std : Z -> list F -> list F;
  rolling_skew : Z -> list F -> list F;
  rolling_kurt : Z -> list F -> list F
}.

Definition str_of_Z (z : Z) : string := NilZero.string_of_int (Z.to_int z).

(** [df.sort_values('date')]: a stable sort by date. *)
Fixpoint insert_by_date {F : Type} (b : Bar F) (bs : list (Bar F)) : list (Bar F) :=
  match bs with
  | [] => [b]
  | b' :: bs' => if (date b' <=? date b)%Z then b' :: insert_by_date b bs' else b :: bs
  end.

Definition sort_values_date {F : Type} (bs : list (Bar F)) : list (Bar F) :=
  fold_left (fun acc b => insert_by_date b acc) bs [].

(** [df['symbol'].unique()]: the symbols in order of first appearance. *)
Fixpoint unique (xs : list string) : list string :=
  match xs with
  | [] => []
  | x :: xs' => x :: filter (fun y => negb (String.eqb x y)) (unique xs')
  end.

Section Frames.
Context {F : Type} `{Num F}.
Local Open Scope string_scope.
Local Open Scope num_scope.

(** [pd.isna] of a cell *)
Definition isna (c : cell F) : bool :=
  match c with
  | CFloat x => isnan x
  | _ => false
  end.

Definition nrows (df : DataFrame F) : nat := length (df_index df).

(** Row [i] has no missing value in any column. *)
Definition row_notna (columns : list (string * list (cell F))) (i : nat) : bool :=
  forallb (fun col => match nth_error (snd col) i with
                      | Some c => negb (isna c)
                      | None => false
                      end) columns.

(** [DataFrame.dropna()]: drop every row that has a missing value; the rows
    kept retain their index labels. *)
Definition dropna (df : DataFrame F) : DataFrame F :=
  let keep := map (row_notna (df_columns df)) (seq 0 (nrows df)) in
  {| df_index := boolean_index (df_index df) keep;
     df_columns := map (fun col => (fst col, boolean_index (snd col) keep)) (df_columns df) |}.

(** [pd.concat(frames, ignore_index=True)] of frames with the columns of the
    first one; a frame that lacks a column contributes NaN.  An empty list
    of frames raises [ValueError]. *)
Definition concat (frames : list (DataFrame F)) : option (DataFrame F) :=
  match frames with
  | [] => None
  | first :: _ =>
      let total := fold_right (fun df n => (nrows df + n)%nat) 0%nat frames in
      Some
        {| df_index := map Z.of_nat (seq 0 total);
           df_columns :=
             map (fun col =>
                    (fst col,
                     flat_map (fun df => match lookup (fst col) (df_columns df) with
                                         | Some c => c
                                         | None => repeat (CFloat fnan) (nrows df)
                                         end) frames))
               (df_columns first) |}
  end.

Definition floats (xs : list F) : list (cell F) := map CFloat xs.
Definition ints (xs : list Z) : list (cell F) := map CInt xs.

Context `{Sqrt F} `{PandasLib F}.

Definition calculate_returns (close : list F) (periods : list Z)
  : list (string * list (cell F)) :=
  flat_map (fun p =>
    [ ("returns_" ++ str_of_Z p ++ "d", floats (pct_change p close));
      ("log_returns_" ++ str_of_Z p ++ "d",
        floats (map np_log (map2 fdiv close (shift p close)))) ]) periods.

Definition calculate_momentum (close : list F) (periods : list Z)
  : list (string * list (cell F)) :=
  flat_map (fun p =>
    [ ("momentum_" ++ str_of_Z p ++ "d", floats (map2 fsub close (shift p close)));
      ("roc_" ++ str_of_Z p ++ "d",
        floats (map2 (fun c s => (c - s) / (s + lit_1e_10) * f_of_Z 100)
                  close (shift p close))) ]) periods.

Definition calculate_volatility (returns : list F) (periods : list Z)
  : list (string * list (cell F)) :=
  map (fun p =>
    ("volatility_" ++ str_of_Z p ++ "d",
      floats (map (fun s => s * fsqrt (f_of_Z 252)) (rolling_std p returns)))) periods.

Definition bollinger_bands (series : list F) (period : Z) (std_dev : F)
  : option (list F * list F * list F) :=
  middle <- sma series period ;;
  let std := rolling_std period series in
  let upper := map2 (fun m s => m + std_dev * s) middle std in
  let lower := map2 (fun m s => m - std_dev * s) middle std in
  Some (upper, middle, lower).

Definition calculate_statistical_features (returns : list F) (window : Z)
  : option (list (string * list (cell F))) :=
  mean <- rolling_mean window None returns ;;
  Some
    [ ("skewness", floats (rolling_skew window returns));
      ("kurtosis", floats (rolling_kurt window returns));
      ("zscore",
        floats (map2 (fun num s => num / (s + lit_1e_10))
                  (map2 fsub returns mean) (rolling_std window returns))) ].

(** [target_return]: [close.pct_change(-1) * -1] (line 313) *)
Definition target_return (close : list F) : list F :=
  map (fun x => x * f_of_Z (-1)) (pct_change (-1) close).

(** [target]: [(close.shift(-1) > close).astype(int)] (line 312) *)
Definition target (close : list F) : list Z :=
  astype_int (gt_series (shift (-1) close) close).

Definition engineer_features (df : list (Bar F)) : option (DataFrame F) :=
  let df := sort_values_date df in
  let close := map (@close F) df in
  let high := map (@high F) df in
  let low := map (@low F) df in
  let volume := map (@volume F) df in
  let open_price := map (@open F) df in
  let ratio := map2 (fun a b => a / (b + lit_1e_10)) in
  let daily_returns := pct_change 1 close in
  sma_5 <- sma close 5 ;;
  ema_5 <- ema close 5 ;;
  sma_10 <- sma close 10 ;;
  ema_10 <- ema close 10 ;;
  sma_20 <- sma close 20 ;;
  ema_20 <- ema close 20 ;;
  sma_50 <- sma close 50 ;;
  ema_50 <- ema close 50 ;;
  rsi_7 <- rsi close 7 ;;
  rsi_14 <- rsi close 14 ;;
  rsi_21 <- rsi close 21 ;;
  m <- macd close 12 26 9 ;;
  let '(macd_line, signal_line, histogram) := m in
  atr_5 <- atr high low close 5 ;;
  atr_10 <- atr high low close 10 ;;
  atr_14 <- atr high low close 14 ;;
  bb <- bollinger_bands close 20 (f_of_Z 2) ;;
  let '(bb_upper, bb_middle, bb_lower) := bb in
  adx_14 <- adx high low close 14 ;;
  let above sma_p := astype_int (gt_series close sma_p) in
  volume_sma_5 <- sma volume 5 ;;
  volume_sma_10 <- sma volume 10 ;;
  let obv_values := obv close volume in
  let body := map2 fsub close open_price in
  let range_hl := map2 (fun h l => h - l + lit_1e_10) high low in
  stats_df <- calculate_statistical_features daily_returns 20 ;;
  Some
    {| df_index := map Z.of_nat (seq 0 (length df));
       df_columns :=
         [ ("date", ints (map (@date F) df));
           ("symbol", map (fun b => CStr (symbol b)) df);
           ("asset_class", map (fun b => CStr (asset_class b)) df);
           ("close", floats close) ]
         ++ calculate_returns close [1; 2; 3; 5; 10; 20]%Z
         ++ [ ("sma_5", floats sma_5); ("ema_5", floats ema_5);
              ("sma_10", floats sma_10); ("ema_10", floats ema_10);
              ("sma_20", floats sma_20); ("ema_20", floats ema_20);
              ("sma_50", floats sma_50); ("ema_50", floats ema_50);
              ("price_to_sma5", floats (ratio close sma_5));
              ("price_to_sma10", floats (ratio close sma_10));
              ("price_to_sma20", floats (ratio close sma_20));
              ("price_to_sma50", floats (ratio close sma_50));
              ("sma_5_10_cross", floats (ratio sma_5 sma_10));
              ("sma_10_20_cross", floats (ratio sma_10 sma_20));
              ("sma_20_50_cross", floats (ratio sma_20 sma_50));
              ("rsi_7", floats rsi_7);
              ("rsi_14", floats rsi_14);
              ("rsi_21", floats rsi_21) ]
         ++ calculate_momentum close [5; 10; 20]%Z
         ++ [ ("macd", floats macd_line);
              ("macd_signal", floats signal_line);
              ("macd_histogram", floats histogram);
              ("macd_cross", floats (map2 fsub macd_line signal_line)) ]
         ++ calculate_volatility daily_returns [5; 10; 20]%Z
         ++ [ ("atr_5", floats atr_5);
              ("atr_10", floats atr_10);
              ("atr_14", floats atr_14);
              ("atr_pct_5", floats (ratio atr_5 close));
              ("atr_pct_14", floats (ratio atr_14 close));
              ("bb_position",
                floats (map2 fdiv (map2 fsub close bb_lower)
                          (map2 (fun u l => u - l + lit_1e_10) bb_upper bb_lower)));
              ("bb_width", floats (ratio (map2 fsub bb_upper bb_lower) bb_middle));
              ("adx_14", floats adx_14);
              ("trend_strength",
                floats (map (fun k => f_of_Z k / f_of_Z 4)
                          (map2 Z.add
                             (map2 Z.add (map2 Z.add (above sma_5) (above sma_10))
                                (above sma_20))
                             (above sma_50))));
              ("volume_sma_5", floats volume_sma_5);
              ("volume_sma_10", floats volume_sma_10);
              ("volume_ratio", floats (ratio volume volume_sma_10));
              ("obv", floats obv_values);
              ("obv_change", floats (pct_change 5 obv_values));
              ("body_ratio", floats (map2 fdiv body range_hl));
              ("upper_shadow",
                floats (map2 fdiv
                          (map2 fsub high (map2 (fun c o => row_max [c; o]) close open_price))
                          range_hl));
              ("lower_shadow",
                floats (map2 fdiv
                          (map2 fsub (map2 (fun c o => row_min [c; o]) close open_price) low)
                          range_hl));
              ("higher_high", ints (astype_int (gt_series high (shift 1 high))));
              ("lower_low", ints (astype_int (lt_series low (shift 1 low))));
              ("higher_close", ints (astype_int (gt_series close (shift 1 close)))) ]
         ++ stats_df
         ++ [ ("target", ints (target close));
              ("target_return", floats (target_return close)) ] |}.

(** [process_all_symbols], up to the table it returns: the per-symbol
    feature tables, concatenated, without the rows that have a NaN
    (lines 334-348).  Writing the table and its metadata to disk is left
    out. *)
Definition process_all_symbols (df : list (Bar F)) : option (DataFrame F) :=
  let symbols := unique (map (@symbol F) df) in
  all_features <-
    fold_right (fun sym acc =>
                  features <- engineer_features
                                (filter (fun b => String.eqb (symbol b) sym) df) ;;
                  rest <- acc ;;
                  Some (features :: rest))
      (Some []) symbols ;;
  combined <- concat all_features ;;
  Some (dropna combined).

End Frames.

(** ** Definitions used to state the results *)

(** *** Reference definitions, worded as the specification words them *)

Section Reference.
Context {F : Type} `{Num F}.
Local Open Scope num_scope.

(** The [k] values of a series up to and including position [i]. *)
Definition trailing_values (series : list F) (i k : nat) : list F :=
  map (fun j => nth j series fnan) (seq (S i - k) k).

(** The terms [sign(close[i] - close[i-1]) * volume[i]], from the second bar
    on; [prev] is the close before. *)
Fixpoint signed_volumes (prev : F) (close volume : list F) : list F :=
  match close, volume with
  | c :: cs, v :: vs => np_sign (c - prev) * v :: signed_volumes c cs vs
  | _, _ => []
  end.

(** Their cumulative sum, with a first term of 0. *)
Definition obv_cumulative (close volume : list F) : list F :=
  match close, volume with
  | c0 :: cs, v0 :: vs => np_cumsum (f0 :: signed_volumes c0 cs vs)
  | _, _ => []
  end.

(** The consecutive differences that [diff] computes behind its first
    position. *)
Fixpoint deltas (prev : F) (xs : list F) : list F :=
  match xs with
  | [] => []
  | x :: xs' => (x - prev) :: deltas x xs'
  end.

End Reference.

(** *** Predicates and inputs *)

(** A number: a zero or a finite non-zero value. *)
Definition SFfin (x : spec_float) : Prop :=
  match x with
  | S754_zero _ | S754_finite _ _ _ => True
  | _ => False
  end.

Section Predicates.
Local Open Scope num_scope.

(** A value that is NaN or not above zero. *)
Definition nonpos_or_nan (v : float) : Prop :=
  isnan v = true \/ (v <=? f0) = true.

(** What the specification asks of an entry: zero if it is not finite. *)
Definition zero_if_not_finite (x : float) : float := if isfinite x then x else f0.




End Predicates.

(** Every numeric field of every bar is a finite number. *)
Definition all_finite (bars : list (Bar float)) : bool :=
  forallb (fun b => isfinite (open b) && isfinite (high b) && isfinite (low b)
                    && isfinite (close b) && isfinite (volume b)) bars.

(** Two hundred bars of one symbol whose prices never move. *)
Definition flat_bars : list (Bar float) :=
  map (fun i => {| date := Z.of_nat i; open := 100%float; high := 100%float;
                   low := 100%float; close := 100%float; volume := 1000%float;
                   symbol := "FLAT"; asset_class := "equity" |}) (seq 0 200).

(** An instance of the library parameters to apply the results at.  Any
    instance does: no result depends on it. *)
Definition identity_lib : PandasLib float :=
  {| np_log := fun x => x;
     rolling_std := fun _ xs => xs;
     rolling_skew := fun _ xs => xs;
     rolling_kurt := fun _ xs => xs |}.

(** Three bars of one symbol. *)
Definition three_bars : list (Bar float) :=
  [ {| date := 1; open := 100%float; high := 101%float; low := 99%float;
       close := 100%float; volume := 1000%float; symbol := "ABC";
       asset_class := "equity" |};
    {| date := 2; open := 100%float; high := 111%float; low := 99%float;
       close := 110%float; volume := 1200%float; symbol := "ABC";
       asset_class := "equity" |};
    {| date := 3; open := 110%float; high := 112%float; low := 104%float;
       close := 105%float; volume := 900%float; symbol := "ABC";
       asset_class := "equity" |} ].

(** Two hundred bars of one symbol whose close rises by 1 a day. *)
Definition rising_bars : list (Bar float) :=
  map (fun i => let c := float_of_Z (100 + Z.of_nat i) in
                {| date := Z.of_nat i; open := c; high := (c + 1)%float;
                   low := (c - 1)%float; close := c; volume := 1000%float;
                   symbol := "UP"; asset_class := "equity" |}) (seq 0 200).


(** *** How NaN travels through the arithmetic

    The properties of NaN that the structural results need.  Both instances
    have them. *)

Class NanLaws (F : Type) `{Num F} : Prop := {
  isnan_fnan : isnan fnan = true;
  isnan_of_Z : forall z, isnan (f_of_Z z) = false;
  isnan_add_l : forall a b, isnan a = true -> isnan (fadd a b) = true;
  isnan_add_r : forall a b, isnan b = true -> isnan (fadd a b) = true;
  isnan_sub_l : forall a b, isnan a = true -> isnan (fsub a b) = true;
  isnan_sub_r : forall a b, isnan b = true -> isnan (fsub a b) = true;
  isnan_mul_l : forall a b, isnan a = true -> isnan (fmul a b) = true;
  isnan_mul_r : forall a b, isnan b = true -> isnan (fmul a b) = true;
  isnan_div_l : forall a b, isnan a = true -> isnan (fdiv a b) = true;
  isnan_div_r : forall a b, isnan b = true -> isnan (fdiv a b) = true;
  isnan_opp : forall a, isnan (fopp a) = isnan a;
  ltb_nan_l : forall a b, isnan a = true -> fltb a b = false;
  ltb_nan_r : forall a b, isnan b = true -> fltb a b = false
}.
Arguments NanLaws F {_}.

(** *** Further predicates *)

(** A value that is NaN or lies between the integers [lo] and [hi]. *)
Definition in_range_or_nan (lo hi : Z) (v : float) : Prop :=
  isnan v = true \/ (fleb (f_of_Z lo) v = true /\ fleb v (f_of_Z hi) = true).

(** The recurrence the specification gives for the exponential moving
    average: [EMA[0] = series[0]] and
    [EMA[i] = alpha * series[i] + (1 - alpha) * EMA[i-1]] with
    [alpha = 2 / (period + 1)], on exact rationals. *)
Fixpoint ema_recurrence (alpha prev : Q) (xs : list Q) : list Q :=
  match xs with
  | [] => []
  | x :: xs' =>
      let e := (alpha * x + (1 - alpha) * prev)%Q in
      e :: ema_recurrence alpha e xs'
  end.

Definition ema_reference (period : Z) (xs : list Q) : list Q :=
  match xs with
  | [] => []
  | x :: xs' => x :: ema_recurrence (2 / (inject_Z period + 1))%Q x xs'
  end.

(** *** The metadata of [process_all_symbols]

    The second component of what [process_all_symbols] returns (lines
    350-366), without the two entries that are read off the clock and off the
    date column ([timestamp], [date_range]). *)

(** [exclude_cols] (line 352) *)
Definition exclude_cols : list string :=
  [ "date"; "symbol"; "asset_class"; "close"; "target"; "target_return" ]%string.

(** [c not in names] *)
Definition not_in (names : list string) (c : string) : bool :=
  negb (existsb (String.eqb c) names).

Record FeatureMetadata : Type := {
  total_samples : nat;
  symbols : nat;
  feature_count : nat;
  features : list string;
  dropped_nan_rows : Z
}.

Section FramesMetadata.
Context {F : Type} `{Num F} `{Sqrt F} `{PandasLib F}.

Definition process_all_symbols_metadata (df : list (Bar F)) : option FeatureMetadata :=
  let symbols := unique (map (@symbol F) df) in
  all_features <-
    fold_right (fun sym acc =>
                  features <- engineer_features
                                (filter (fun b => String.eqb (symbol b) sym) df) ;;
                  rest <- acc ;;
                  Some (features :: rest))
      (Some []) symbols ;;
  combined <- concat all_features ;;
  let initial_rows := nrows combined in
  let combined := dropna combined in
  let dropped_rows := (Z.of_nat initial_rows - Z.of_nat (nrows combined))%Z in
  let feature_cols := filter (not_in exclude_cols) (map fst (df_columns combined)) in
  Some {| total_samples := nrows combined;
          symbols := length symbols;
          feature_count := length feature_cols;
          features := feature_cols;
          dropped_nan_rows := dropped_rows |}.
End FramesMetadata.

(** The columns of the feature table, in the order in which
    [engineer_features] creates them. *)
Definition feature_table_columns : list string :=
  [ "date"; "symbol"; "asset_class"; "close";
    "returns_1d"; "log_returns_1d"; "returns_2d"; "log_returns_2d";
    "returns_3d"; "log_returns_3d"; "returns_5d"; "log_returns_5d";
    "returns_10d"; "log_returns_10d"; "returns_20d"; "log_returns_20d";
    "sma_5"; "ema_5"; "sma_10"; "ema_10"; "sma_20"; "ema_20"; "sma_50"; "ema_50";
    "price_to_sma5"; "price_to_sma10"; "price_to_sma20"; "price_to_sma50";
    "sma_5_10_cross"; "sma_10_20_cross"; "sma_20_50_cross";
    "rsi_7"; "rsi_14"; "rsi_21";
    "momentum_5d"; "roc_5d"; "momentum_10d"; "roc_10d"; "momentum_20d"; "roc_20d";
    "macd"; "macd_signal"; "macd_histogram"; "macd_cross";
    "volatility_5d"; "volatility_10d"; "volatility_20d";
    "atr_5"; "atr_10"; "atr_14"; "atr_pct_5"; "atr_pct_14";
    "bb_position"; "bb_width"; "adx_14"; "trend_strength";
    "volume_sma_5"; "volume_sma_10"; "volume_ratio"; "obv"; "obv_change";
    "body_ratio"; "upper_shadow"; "lower_shadow";
    "higher_high"; "lower_low"; "higher_close";
    "skewness"; "kurtosis"; "zscore"; "target"; "target_return" ]%string.

(** Bars in chronological order. *)
Definition date_le {F : Type} (a b : Bar F) : Prop := (date a <= date b)%Z.

(** ** Model comparison: [compare_models.py]

    The metrics of a model are the dictionary [calculate_all_metrics]
    returns, read back from the registry: a [MetricsReport].  An integer
    entry is converted with [f_of_Z] where Python converts it to a float. *)

Section Compare.
Context {F : Type} `{Num F}.
Local Open Scope string_scope.
Local Open Scope num_scope.

(** [d.get(k, default)] *)
Definition dict_get (d : MetricsReport F) (k : string) (default : pyval F) : pyval F :=
  match lookup k d with
  | Some v => v
  | None => default
  end.

(** [a < b] on Python numbers: two ints are compared as integers, any other
    pair as floats. *)
Definition pyval_ltb (a b : pyval F) : bool :=
  match a, b with
  | PyInt x, PyInt y => (x <? y)%Z
  | _, _ => pyval_num a <? pyval_num b
  end.

(** The built-ins [max(a, b)] and [min(a, b)] on Python numbers. *)
Definition pyval_max (a b : pyval F) : pyval F := if pyval_ltb a b then b else a.
Definition pyval_min (a b : pyval F) : pyval F := if pyval_ltb b a then b else a.

(** The literals [0.40], [0.20], [0.10], [0.5], [0.005] and [0.02]. *)
Definition lit_0_4 : F := f_of_Z 4 / f_of_Z 10.
Definition lit_0_2 : F := f_of_Z 2 / f_of_Z 10.
Definition lit_0_1 : F := f1 / f_of_Z 10.
Definition lit_0_5 : F := f1 / f_of_Z 2.
Definition lit_0_005 : F := f_of_Z 5 / f_of_Z 1000.
Definition lit_0_02 : F := f_of_Z 2 / f_of_Z 100.

(** Lines 59-65: the five normalized metrics, in the order of [weights]. *)
Definition normalized (metrics : MetricsReport F) : list (pyval F) :=
  let clamp (k : string) (default hi : Z) :=
    PyFloat (pyval_num (pyval_min (pyval_max (dict_get metrics k (PyInt default)) (PyInt 0))
                          (PyInt hi))
             / f_of_Z hi) in
  [ clamp "sharpe_ratio" 0%Z 5%Z;
    dict_get metrics "accuracy" (PyFloat lit_0_5);
    clamp "profit_factor" 1%Z 3%Z;
    dict_get metrics "win_rate" (PyFloat lit_0_5);
    clamp "sortino_ratio" 0%Z 5%Z ].

Definition weights : list F := [lit_0_4; lit_0_2; lit_0_2; lit_0_1; lit_0_1].

(** [sum(normalized[k] * weights[k] for k in weights)]: the sum starts from
    the integer 0 and adds the terms from left to right. *)
Definition calculate_composite_score (metrics : MetricsReport F) : F :=
  fold_left fadd (map2 (fun n w => pyval_num n * w) (normalized metrics) weights) f0.

(** The three messages [compare_models] can return, without the numbers
    formatted into them. *)
Inductive Reason : Type :=
| AccuracyRegressed
| ImprovementExceedsThreshold
| ImprovementBelowThreshold.

Definition improvement (new_score existing_score : F) : F :=
  if existing_score >? f0 then (new_score - existing_score) / existing_score else f1.

Definition compare_models (new_metrics existing_metrics : MetricsReport F)
  (improvement_threshold : F) : bool * Reason * list (string * pyval F) :=
  let new_score := calculate_composite_score new_metrics in
  let existing_score := calculate_composite_score existing_metrics in
  let improvement := improvement new_score existing_score in
  let comparison :=
    [ ("new_composite_score", PyFloat new_score);
      ("existing_composite_score", PyFloat existing_score);
      ("improvement_pct", PyFloat (improvement * f_of_Z 100));
      ("threshold_pct", PyFloat (improvement_threshold * f_of_Z 100));
      ("new_sharpe", dict_get new_metrics "sharpe_ratio" (PyInt 0));
      ("existing_sharpe", dict_get existing_metrics "sharpe_ratio" (PyInt 0));
      ("new_accuracy", dict_get new_metrics "accuracy" (PyInt 0));
      ("existing_accuracy", dict_get existing_metrics "accuracy" (PyInt 0)) ] in
  if improvement >=? improvement_threshold then
    let accuracy_drop :=
      pyval_num (dict_get existing_metrics "accuracy" (PyInt 0))
      - pyval_num (dict_get new_metrics "accuracy" (PyInt 0)) in
    if accuracy_drop >? lit_0_02 then (false, AccuracyRegressed, comparison)
    else (true, ImprovementExceedsThreshold, comparison)
  else (false, ImprovementBelowThreshold, comparison).
End Compare.

Definition should_deploy {F : Type} (r : bool * Reason * list (string * pyval F)) : bool :=
  fst (fst r).
Definition reason {F : Type} (r : bool * Reason * list (string * pyval F)) : Reason :=
  snd (fst r).
Definition comparison {F : Type} (r : bool * Reason * list (string * pyval F))
  : list (string * pyval F) := snd r.

(** ** Training data: [prepare_data] in [train_models.py]

    The table is the one [process_all_symbols] writes.  The order in which
    [sort_values] arranges rows of equal date, and scikit-learn's
    [StandardScaler], are parameters of [prepare_data]. *)

(** [EXCLUDE_COLS] (lines 118-120) *)
Definition EXCLUDE_COLS : list string :=
  [ "date"; "symbol"; "asset_class"; "close"; "target"; "target_return";
    "sma_5"; "sma_10"; "sma_20"; "sma_50"; "ema_5"; "ema_10"; "ema_20"; "ema_50";
    "volume_sma_5"; "volume_sma_10"; "obv" ]%string.

(** Python's [int(x)] of a float: truncation towards zero; NaN and the
    infinities raise. *)
Class ToInt (F : Type) : Type := { py_int : F -> option Z }.

Definition float_to_Z (x : float) : option Z :=
  match Prim2SF x with
  | S754_zero _ => Some 0%Z
  | S754_finite s m e =>
      let magnitude := Z.shiftl (Zpos m) e in
      Some (if s then (- magnitude)%Z else magnitude)
  | _ => None
  end.

#[export] Instance float_ToInt : ToInt float := {| py_int := float_to_Z |}.

(** Python slices [xs[:k]] and [xs[k:]]: a negative [k] counts from the end,
    and an index beyond either end is clamped. *)
Definition slice_index (n : nat) (k : Z) : nat :=
  if (k <? 0)%Z then Z.to_nat (Z.of_nat n + k) else Nat.min (Z.to_nat k) n.

Definition slice_to {A : Type} (k : Z) (xs : list A) : list A :=
  firstn (slice_index (length xs) k) xs.

Definition slice_from {A : Type} (k : Z) (xs : list A) : list A :=
  skipn (slice_index (length xs) k) xs.

(** All the values of a list of results, or the first failure. *)
Fixpoint sequence {A : Type} (xs : list (option A)) : option (list A) :=
  match xs with
  | [] => Some []
  | x :: xs' => v <- x ;; vs <- sequence xs' ;; Some (v :: vs)
  end.

(** [xs[order]]: the elements at the positions [order]. *)
Definition take {A : Type} (order : list nat) (xs : list A) : option (list A) :=
  sequence (map (nth_error xs) order).

(** What [prepare_data] returns, without the fitted scaler object. *)
Record PreparedData (F : Type) : Type := {
  X_train : list (list F);
  X_test : list (list F);
  y_train : list (cell F);
  y_test : list (cell F);
  returns_train : list F;
  returns_test : list F;
  feature_names : list string
}.

Section PrepareData.
Context {F : Type} `{Num F} `{ToInt F}.
Local Open Scope string_scope.
Local Open Scope num_scope.

(** [np.nan_to_num(x, nan=.., posinf=.., neginf=..)] *)
Definition np_nan_to_num_kw (nan posinf neginf : F) (x : F) : F :=
  if isnan x then nan
  else if x == finf then posinf
  else if x == - finf then neginf
  else x.

(** The number in a cell of a numeric column ([.values] of numeric columns
    is a float array); a string cell makes the array an object array, on
    which [np.nan_to_num] raises. *)
Definition cell_num (c : cell F) : option F :=
  match c with
  | CFloat x => Some x
  | CInt z => Some (f_of_Z z)
  | CStr _ => None
  end.

Definition cell_date (c : cell F) : option Z :=
  match c with
  | CInt z => Some z
  | _ => None
  end.

(** [np.nan_to_num] of the label column: an integer array is returned as it
    is. *)
Definition nan_to_num_cell (c : cell F) : option (cell F) :=
  match c with
  | CFloat x => Some (CFloat (np_nan_to_num_kw f0 f0 f0 x))
  | CInt z => Some (CInt z)
  | CStr _ => None
  end.

(** Row [i] of a matrix given by its columns. *)
Definition matrix_rows (columns : list (list F)) (n : nat) : option (list (list F)) :=
  sequence (map (fun i => sequence (map (fun col => nth_error col i) columns)) (seq 0 n)).

(** The library routines of [prepare_data]: the order
    [sort_values('date')] puts the rows in (pandas does not promise a stable
    sort), and scikit-learn's [StandardScaler]. *)
Variable argsort : list Z -> list nat.
Variable Scaler : Type.
Variable fit_transform : list (list F) -> option (Scaler * list (list F)).
Variable transform : Scaler -> list (list F) -> option (list (list F)).

(** [df.sort_values('date').reset_index(drop=True)] *)
Definition sort_values_by_date (df : DataFrame F) : option (DataFrame F) :=
  date_col <- lookup "date" (df_columns df) ;;
  dates <- sequence (map cell_date date_col) ;;
  let order := argsort dates in
  columns <- sequence (map (fun col => cells <- take order (snd col) ;;
                                       Some (fst col, cells)) (df_columns df)) ;;
  Some {| df_index := map Z.of_nat (seq 0 (length order)); df_columns := columns |}.

Definition prepare_data (df : DataFrame F) (test_ratio : F) : option (PreparedData F) :=
  df <- sort_values_by_date df ;;
  let feature_cols := filter (not_in EXCLUDE_COLS) (map fst (df_columns df)) in
  X_columns <- sequence (map (fun c => col <- lookup c (df_columns df) ;;
                                       sequence (map cell_num col)) feature_cols) ;;
  X <- matrix_rows X_columns (nrows df) ;;
  y <- lookup "target" (df_columns df) ;;
  returns_col <- lookup "target_return" (df_columns df) ;;
  returns <- sequence (map cell_num returns_col) ;;
  let X := map (map (np_nan_to_num_kw f0 f0 f0)) X in
  y <- sequence (map nan_to_num_cell y) ;;
  let returns := map (np_nan_to_num_kw f0 f0 f0) returns in
  let X := map (map (fun x => np_clip x (- f_of_Z 10000000000) (f_of_Z 10000000000))) X in
  split_idx <- py_int (f_of_Z (Z.of_nat (length X)) * (f1 - test_ratio)) ;;
  let X_train := slice_to split_idx X in
  let X_test := slice_from split_idx X in
  fitted <- fit_transform X_train ;;
  let '(scaler, X_train) := fitted in
  X_test <- transform scaler X_test ;;
  Some {| X_train := X_train; X_test := X_test;
          y_train := slice_to split_idx y; y_test := slice_from split_idx y;
          returns_train := slice_to split_idx returns;
          returns_test := slice_from split_idx returns;
          feature_names := feature_cols |}.
End PrepareData.

(** A scaler that leaves the matrix as it is, and the order of a table whose
    rows are already sorted: instances of the library parameters of
    [prepare_data] to apply the results at. *)
Definition identity_fit_transform {F : Type} (X : list (list F))
  : option (unit * list (list F)) := Some (tt, X).
Definition identity_transform {F : Type} (_ : unit) (X : list (list F))
  : option (list (list F)) := Some X.
Definition identity_order (dates : list Z) : list nat := seq 0 (length dates).

(** A feature table of five rows. *)
Definition example_table : DataFrame float :=
  {| df_index := [0; 1; 2; 3; 4]%Z;
     df_columns :=
       [ ("date", [CInt 1; CInt 2; CInt 3; CInt 4; CInt 5]);
         ("close", floats [100; 101; 102; 101; 103]%float);
         ("rsi_14", floats [50; 55; infinity; 45; 60]%float);
         ("target", [CInt 1; CInt 1; CInt 0; CInt 1; CInt 0]);
         ("target_return", floats [0.01; nan; neg_infinity; 0.02; infinity]%float) ]%string |}.

(** *** The rolling mean, step by step *)

Section RollStates.
Context {F : Type} `{Num F}.

(** The states the loop of [roll_mean] goes through. *)
Fixpoint roll_states (values : list F) (window : nat) (st : MeanState)
  (positions : list nat) : list MeanState :=
  match positions with
  | [] => []
  | i :: rest =>
      let st := roll_mean_step values window st i in
      st :: roll_states values window st rest
  end.
End RollStates.


Section ExactState.
Local Open Scope num_scope.

End ExactState.

(** *** The split index of the default ratio *)

(** The index [int(n * (1 - 0.2))] is four fifths of [n], rounded down. *)
Definition default_split_ok (n : Z) : bool :=
  match float_to_Z (float_of_Z n * (1 - 0.2))%float with
  | Some k => (k =? 4 * n / 5)%Z
  | None => false
  end.

(** [check] holds of the [2^depth] integers from [lo] on. *)
Fixpoint range_all (check : Z -> bool) (depth : nat) (lo : Z) : bool :=
  match depth with
  | O => check lo
  | S d => range_all check d lo && range_all check d (lo + 2 ^ Z.of_nat d)
  end.

(** * Results *)

(** ** The literals of the source, in binary64 *)

Example lit_1e_10_float : @lit_1e_10 float _ = 1e-10%float.
Proof. reflexivity. Qed.

Example lit_1e_6_float : @lit_1e_6 float _ = 1e-6%float.
Proof. reflexivity. Qed.

Example lit_0_001_float : @lit_0_001 float _ = 0.001%float.
Proof. reflexivity. Qed.

Example fmax_float : (@fmax float _ = 1.7976931348623157e308)%float.
Proof. reflexivity. Qed.

(** ** Facts about binary64 arithmetic

    The primitive operations are specified by [Prim2SF] and the functions of
    [SpecFloat]; the facts below are read off those specifications. *)

Module FloatFacts.

Lemma SFcompare_refl x : x <> S754_nan -> SFcompare x x = Some Eq.
Proof.
  destruct x as [s|s| |s m e]; simpl; try congruence; intros _.
  - destruct s; reflexivity.
  - rewrite Z.compare_refl, Pos.compare_cont_refl. destruct s; reflexivity.
Qed.

Lemma is_nan_SF x : PrimFloat.is_nan x = true <-> Prim2SF x = S754_nan.
Proof.
  unfold PrimFloat.is_nan. rewrite eqb_spec. unfold SFeqb. split.
  - intros E. destruct (Prim2SF x) eqn:P; try reflexivity;
      rewrite SFcompare_refl in E by congruence; discriminate.
  - intros ->. reflexivity.
Qed.

Lemma is_nan_false_SF x : PrimFloat.is_nan x = false <-> Prim2SF x <> S754_nan.
Proof.
  rewrite <- is_nan_SF. destruct (PrimFloat.is_nan x); split; congruence.
Qed.

(** Rounding a non-negative integer mantissa never yields NaN. *)
Lemma iter_pos_inv {A : Type} (P : A -> Prop) (f : A -> A) :
  (forall x, P x -> P (f x)) -> forall n x, P x -> P (iter_pos f n x).
Proof.
  intros Hf. induction n as [n IH|n IH|]; simpl; intros x Hx; auto.
Qed.

Lemma shr_1_nonneg mrs : (0 <= shr_m mrs)%Z -> (0 <= shr_m (shr_1 mrs))%Z.
Proof.
  destruct mrs as [m r s]. simpl. destruct m as [|p|p]; simpl; try lia.
  destruct p; simpl; lia.
Qed.

Lemma shr_fexp_nonneg m e l :
  (0 <= m)%Z -> (0 <= shr_m (fst (shr_fexp prec emax m e l)))%Z.
Proof.
  intros Hm. unfold shr_fexp, shr.
  assert (H0 : (0 <= shr_m (shr_record_of_loc m l))%Z).
  { destruct l as [|[| |]]; simpl; exact Hm. }
  destruct (_ - e)%Z; simpl; auto.
  apply iter_pos_inv with (P := fun r => (0 <= shr_m r)%Z); auto using shr_1_nonneg.
Qed.

Lemma round_nearest_even_nonneg m l :
  (0 <= m)%Z -> (0 <= round_nearest_even m l)%Z.
Proof.
  intros Hm. destruct l as [|[| |]]; simpl; try lia. destruct (Z.even m); lia.
Qed.

Lemma binary_round_aux_not_nan sx mx ex lx :
  (0 <= mx)%Z -> binary_round_aux prec emax sx mx ex lx <> S754_nan.
Proof.
  intros Hm. unfold binary_round_aux.
  pose proof (@shr_fexp_nonneg mx ex lx Hm) as H1.
  destruct (shr_fexp prec emax mx ex lx) as [mrs' e']. simpl in H1.
  pose proof (@shr_fexp_nonneg _ e' loc_Exact
                (@round_nearest_even_nonneg _ (loc_of_shr_record mrs') H1)) as H2.
  destruct (shr_fexp prec emax _ e' loc_Exact) as [mrs'' e'']. simpl in H2.
  destruct (shr_m mrs''); try lia; try discriminate.
  destruct (_ <=? _)%Z; discriminate.
Qed.

Lemma binary_normalize_not_nan m e s : binary_normalize prec emax m e s <> S754_nan.
Proof.
  destruct m; simpl; try discriminate; unfold binary_round;
    destruct (shl_align _ _ _); apply binary_round_aux_not_nan; lia.
Qed.

Lemma SFsub_fin_not_nan x y : SFfin x -> SFfin y -> SF64sub x y <> S754_nan.
Proof.
  destruct x as [sx|sx| |sx mx ex], y as [sy|sy| |sy my ey]; simpl;
    try tauto; intros _ _; try discriminate.
  - destruct sx, sy; discriminate.
  - apply binary_normalize_not_nan.
Qed.

Lemma SFmul_fin_not_nan x y : SFfin x -> SFfin y -> SF64mul x y <> S754_nan.
Proof.
  destruct x as [sx|sx| |sx mx ex], y as [sy|sy| |sy my ey]; simpl;
    try tauto; intros _ _; try discriminate.
  apply binary_round_aux_not_nan. lia.
Qed.

Lemma float_of_Z_not_nan z : Prim2SF (float_of_Z z) <> S754_nan.
Proof.
  unfold float_of_Z. destruct (z <? 0)%Z.
  - rewrite opp_spec, of_uint63_spec.
    pose proof (@binary_normalize_not_nan (to_Z (of_Z (- z))) 0 false) as Hn.
    destruct (binary_normalize _ _ _ _ _); simpl; congruence.
  - rewrite of_uint63_spec. apply binary_normalize_not_nan.
Qed.

Lemma isfinite_SF (x : float) : isfinite x = true <-> SFfin (Prim2SF x).
Proof.
  unfold isfinite, isnan, isinf. cbn [feqb fabs finf float_Num].
  rewrite !eqb_spec, abs_spec.
  change (Prim2SF infinity) with (S754_infinity false).
  unfold SFeqb. destruct (Prim2SF x) as [s|s| |s m e] eqn:E; simpl.
  - tauto.
  - destruct s; simpl; intuition discriminate.
  - intuition discriminate.
  - rewrite Z.compare_refl, Pos.compare_cont_refl.
    destruct s; simpl; tauto.
Qed.

End FloatFacts.

(** ** Both instances obey the NaN laws *)

Lemma isnan_float (x : float) : isnan x = PrimFloat.is_nan x.
Proof. reflexivity. Qed.

#[export] Instance float_NanLaws : NanLaws float.
Proof.
  split; try (intros a b; rewrite !isnan_float;
              cbn [fadd fsub fmul fdiv fltb float_Num];
              rewrite ?FloatFacts.is_nan_SF, ?add_spec, ?sub_spec, ?mul_spec, ?div_spec,
                ?ltb_spec;
              intros ->; unfold SFltb; destruct (Prim2SF a); reflexivity).
  - reflexivity.
  - intros z. rewrite isnan_float.
    apply FloatFacts.is_nan_false_SF, FloatFacts.float_of_Z_not_nan.
  - intros a. change (PrimFloat.is_nan (PrimFloat.opp a) = PrimFloat.is_nan a).
    destruct (PrimFloat.is_nan a) eqn:E.
    + apply FloatFacts.is_nan_SF in E. apply FloatFacts.is_nan_SF.
      rewrite opp_spec, E. reflexivity.
    + apply FloatFacts.is_nan_false_SF in E. apply FloatFacts.is_nan_false_SF.
      rewrite opp_spec. destruct (Prim2SF a); simpl; congruence.
Qed.

Lemma xq_isnan (x : xq) : isnan x = true <-> x = XNaN.
Proof.
  unfold isnan. cbn [feqb xq_Num]. unfold xeqb. destruct x as [|s|q]; simpl.
  - tauto.
  - destruct s; simpl; intuition discriminate.
  - rewrite (proj1 (Qeq_alt q q) (Qeq_refl q)). simpl. intuition discriminate.
Qed.

#[export] Instance xq_NanLaws : NanLaws xq.
Proof.
  split; intros; try (rewrite xq_isnan in *; subst); try reflexivity;
    try (apply xq_isnan; reflexivity).
  - unfold isnan. cbn. unfold xeqb. simpl.
    rewrite (proj1 (Qeq_alt _ _) (Qeq_refl (inject_Z z))). reflexivity.
  - destruct a; reflexivity.
  - destruct a as [|s|q]; try reflexivity.
  - destruct a as [|s|q]; try reflexivity.
  - destruct a as [|s|q]; try reflexivity.
  - destruct a as [|s|q]; cbn; try reflexivity.
    + destruct s; reflexivity.
    + unfold isnan. cbn. unfold xeqb. simpl.
      rewrite (proj1 (Qeq_alt _ _) (Qeq_refl (- q)%Q)), (proj1 (Qeq_alt _ _) (Qeq_refl q)).
      reflexivity.
  - cbn. unfold xltb. destruct a; reflexivity.
Qed.

(** ** Results on the metrics evaluator *)

Section MetricsGeneric.
Context {F : Type} `{Num F} `{Sqrt F}.
Local Open Scope string_scope.
Local Open Scope num_scope.

Lemma boolean_index_all {A : Type} (p : A -> bool) (xs : list A) :
  (forall x, In x xs -> p x = true) -> boolean_index xs (map p xs) = xs.
Proof.
  unfold boolean_index. induction xs as [|x xs IH]; intros Hp; simpl; [reflexivity|].
  rewrite (Hp x (or_introl eq_refl)). simpl. f_equal. apply IH.
  intros y Hy. apply Hp. right. exact Hy.
Qed.

Lemma count_true_nonneg (mask : list bool) : (0 <= count_true mask)%Z.
Proof. unfold count_true. lia. Qed.

Lemma count_true_le {A : Type} (p q : A -> bool) (xs : list A) :
  (forall x, In x xs -> p x = true -> q x = true) ->
  (count_true (map p xs) <= count_true (map q xs))%Z.
Proof.
  unfold count_true. induction xs as [|x xs IH]; intros Hpq; simpl; [lia|].
  assert (IH' := IH (fun y Hy => Hpq y (or_intror Hy))).
  destruct (p x) eqn:Ep.
  - rewrite (Hpq x (or_introl eq_refl) Ep). simpl length. lia.
  - destruct (q x); simpl length; lia.
Qed.

(** The drawdown array starts with the drawdown of the first cumulative
    value against itself. *)
Lemma drawdown_cons (r : F) (rest : list F) :
  exists ds,
    drawdown (r :: rest) = ((f1 + r) - (f1 + r)) / ((f1 + r) + lit_1e_10) :: ds.
Proof. unfold drawdown. simpl. eexists. reflexivity. Qed.

Lemma max_drawdown_some (sr : list F) :
  sr <> [] -> exists v, max_drawdown sr = Some v.
Proof.
  destruct sr as [|r rest]; [congruence|]. intros _.
  destruct (drawdown_cons r rest) as [ds E]. unfold max_drawdown. rewrite E.
  simpl. eexists. reflexivity.
Qed.

(** Whenever the strategy returns are defined, a report is returned. *)
Lemma calculate_trading_metrics_some (ps : PredictionSet F) (sr : list F) :
  strategy_returns ps = Some sr ->
  exists report, calculate_trading_metrics ps = Some report.
Proof.
  intros E. unfold calculate_trading_metrics. rewrite E.
  destruct sr as [|r rest]; simpl length; cbn [Nat.eqb].
  - eexists. reflexivity.
  - destruct (@max_drawdown_some (r :: rest)) as [v Ev]; [discriminate|].
    rewrite Ev. eexists. reflexivity.
Qed.

(** C1.  When no strategy return is left after the finiteness filter,
    [calculate_trading_metrics] returns the fixed default report: the nine
    keys, bound to 0 except [profit_factor], which is bound to 1. *)
Theorem empty_strategy_returns_default_report (ps : PredictionSet F) :
  strategy_returns ps = Some [] ->
  calculate_trading_metrics ps =
    Some [ ("sharpe_ratio", PyInt 0); ("max_drawdown", PyInt 0);
           ("win_rate", PyInt 0); ("profit_factor", PyInt 1);
           ("total_trades", PyInt 0); ("avg_return", PyInt 0);
           ("volatility", PyInt 0); ("calmar_ratio", PyInt 0);
           ("sortino_ratio", PyInt 0) ].
Proof.
  intros E. unfold calculate_trading_metrics. rewrite E. reflexivity.
Qed.
End MetricsGeneric.

Lemma empty_strategy_returns_default_report_witness :
  @calculate_trading_metrics float _ _
    {| y_true := []; y_pred := []; y_proba := []; returns := [] |} =
  Some [ ("sharpe_ratio", PyInt 0); ("max_drawdown", PyInt 0);
         ("win_rate", PyInt 0); ("profit_factor", PyInt 1);
         ("total_trades", PyInt 0); ("avg_return", PyInt 0);
         ("volatility", PyInt 0); ("calmar_ratio", PyInt 0);
         ("sortino_ratio", PyInt 0) ]%string.
Proof.
  apply (@empty_strategy_returns_default_report float _ _). reflexivity.
Defined.

(** *** Binary64: the drawdown *)

Section MetricsFloat.
Local Open Scope string_scope.
Local Open Scope num_scope.

Lemma nonpos_or_nan_SF (v : float) :
  nonpos_or_nan v <->
  Prim2SF v = S754_nan \/ SFleb (Prim2SF v) (S754_zero false) = true.
Proof.
  unfold nonpos_or_nan. rewrite isnan_float, FloatFacts.is_nan_SF.
  cbn [fleb float_Num]. rewrite leb_spec.
  change (Prim2SF f0) with (S754_zero false). tauto.
Qed.

Lemma sub_self_SF (x : float) :
  Prim2SF (x - x)%float = S754_nan \/ Prim2SF (x - x)%float = S754_zero false.
Proof.
  rewrite sub_spec. destruct (Prim2SF x) as [s|s| |s m e]; simpl.
  - right. destruct s; reflexivity.
  - left. destruct s; reflexivity.
  - left. reflexivity.
  - right. unfold SF64sub, SFsub. rewrite Z.sub_diag. reflexivity.
Qed.

Lemma zero_div_SF (z y : float) :
  Prim2SF z = S754_zero false ->
  Prim2SF (z / y)%float = S754_nan \/ exists s, Prim2SF (z / y)%float = S754_zero s.
Proof.
  intros Ez. rewrite div_spec, Ez.
  destruct (Prim2SF y) as [s|s| |s m e]; simpl; eauto.
Qed.

Lemma first_drawdown_nonpos_or_nan (c e : float) :
  nonpos_or_nan ((c - c) / (c + e)).
Proof.
  apply nonpos_or_nan_SF. cbn [fsub fdiv fadd float_Num].
  destruct (sub_self_SF c) as [En|Ez].
  - left. rewrite div_spec, En. reflexivity.
  - destruct (@zero_div_SF _ (c + e)%float Ez) as [En|[s Es]].
    + left. exact En.
    + right. rewrite Es. reflexivity.
Qed.

Lemma np_minimum_nonpos_or_nan (acc x : float) :
  nonpos_or_nan acc -> nonpos_or_nan (np_minimum acc x).
Proof.
  intros Hacc. unfold np_minimum.
  destruct ((acc <=? x) || isnan acc) eqn:E; [exact Hacc|].
  apply orb_false_iff in E. destruct E as [Ele Enan].
  apply nonpos_or_nan_SF in Hacc. apply nonpos_or_nan_SF.
  rewrite isnan_float in Enan. apply FloatFacts.is_nan_false_SF in Enan.
  cbn [fleb float_Num] in Ele. rewrite leb_spec in Ele.
  destruct Hacc as [Hn|Hle]; [congruence|].
  revert Ele Hle Enan. unfold SFleb.
  destruct (Prim2SF acc) as [sa|sa| |sa ma ea], (Prim2SF x) as [sx|sx| |sx mx ex];
    simpl; try (destruct sa); try (destruct sx); simpl; intros; auto; try discriminate;
    try congruence.
Qed.

Lemma fold_np_minimum_nonpos_or_nan (xs : list float) (acc : float) :
  nonpos_or_nan acc -> nonpos_or_nan (fold_left np_minimum xs acc).
Proof.
  revert acc. induction xs as [|x xs IH]; intros acc Hacc; simpl; [exact Hacc|].
  apply IH, np_minimum_nonpos_or_nan, Hacc.
Qed.

Lemma max_drawdown_nonpos_or_nan (sr : list float) (v : float) :
  max_drawdown sr = Some v -> nonpos_or_nan v.
Proof.
  destruct sr as [|r rest]; [discriminate|].
  destruct (drawdown_cons r rest) as [ds E]. unfold max_drawdown. rewrite E.
  simpl. intros [= <-].
  apply fold_np_minimum_nonpos_or_nan, first_drawdown_nonpos_or_nan.
Qed.

(** *** Binary64: the strategy returns *)

(** After [np.nan_to_num] every entry is finite, so the mask of line 153
    selects everything. *)
Lemma np_nan_to_num_isfinite (x : float) : isfinite (np_nan_to_num f0 x) = true.
Proof.
  apply FloatFacts.isfinite_SF. unfold np_nan_to_num.
  destruct (isnan x) eqn:En; [exact I|].
  destruct (x == finf) eqn:Ep; [exact I|].
  destruct (x == - finf) eqn:Em; [exact I|].
  rewrite isnan_float in En. apply FloatFacts.is_nan_false_SF in En.
  cbn [feqb fopp finf float_Num] in Ep, Em. rewrite eqb_spec in Ep, Em.
  change (Prim2SF infinity) with (S754_infinity false) in Ep.
  change (Prim2SF (- infinity)%float) with (S754_infinity true) in Em.
  destruct (Prim2SF x) as [s|s| |s m e]; simpl; auto.
  destruct s; discriminate.
Qed.

Lemma strategy_returns_float (ps : PredictionSet float) (sr : list float) :
  strategy_returns ps = Some sr <->
  exists prod,
    broadcast2 (fun p r => f_of_Z p * r) (positions (y_pred ps)) (returns ps) = Some prod /\
    sr = map (np_nan_to_num f0) prod.
Proof.
  unfold strategy_returns.
  destruct (broadcast2 _ _ _) as [prod|]; split.
  - intros [= <-]. exists prod. split; [reflexivity|].
    apply boolean_index_all. intros x Hx. apply in_map_iff in Hx.
    destruct Hx as [y [<- _]]. apply np_nan_to_num_isfinite.
  - intros [prod' [[= <-] ->]]. f_equal.
    apply boolean_index_all. intros x Hx. apply in_map_iff in Hx.
    destruct Hx as [y [<- _]]. apply np_nan_to_num_isfinite.
  - discriminate.
  - intros [prod' [E _]]. discriminate.
Qed.

(** [np.nan_to_num(., 0)] does that for NaN and for every finite entry. *)
Lemma np_nan_to_num_off_infinity (x : float) :
  isinf x = false -> np_nan_to_num f0 x = zero_if_not_finite x.
Proof.
  intros Hi. unfold np_nan_to_num, zero_if_not_finite, isfinite. rewrite Hi.
  destruct (isnan x) eqn:En; simpl; [reflexivity|].
  unfold isinf in Hi. cbn [feqb fabs fopp finf float_Num] in *.
  rewrite eqb_spec, abs_spec in Hi. rewrite !eqb_spec.
  change (Prim2SF infinity) with (S754_infinity false) in *.
  change (Prim2SF (- infinity)%float) with (S754_infinity true).
  destruct (Prim2SF x) as [s|s| |s m e]; simpl in *; try reflexivity;
    destruct s; try discriminate; reflexivity.
Qed.

(** C6.  An infinite entry of [positions * returns] is not replaced by 0:
    with [y_pred = [1]] and [returns = [inf]] the strategy returns are
    [[1.7976931348623157e308]], and that is the [avg_return] reported. *)
Lemma infinite_return_becomes_largest_float :
  let ps := {| y_true := [1%Z]; y_pred := [1%Z]; y_proba := [1%float];
               returns := [infinity] |} in
  strategy_returns ps = Some [0x1.fffffffffffffp+1023%float] /\
  map zero_if_not_finite [(f_of_Z 1 * infinity)%float] = [0%float] /\
  option_map (lookup "avg_return") (calculate_trading_metrics ps) =
    Some (Some (PyFloat 0x1.fffffffffffffp+1023%float)).
Proof. vm_compute. repeat split. Qed.

(** *** Binary64: the win rate *)

(** C4, counterexample.  Two strategy returns of [5e-7] are both counted as
    wins and neither as a trade: the win rate is 2. *)
Lemma win_rate_above_one :
  let ps := {| y_true := [1%Z; 1%Z]; y_pred := [1%Z; 1%Z]; y_proba := [1%float; 1%float];
               returns := [5e-7%float; 5e-7%float] |} in
  exists report,
    calculate_trading_metrics ps = Some report /\
    lookup "win_rate" report = Some (PyFloat 2%float) /\
    (2%float <=? f1) = false.
Proof. eexists. vm_compute. repeat split. Qed.

(** C4, as amended.  The reported win rate is the quotient of the two counts
    [wins] and [max(total_trades, 1)].  The numerator is never negative, the
    denominator is at least 1, and the numerator does not exceed the
    denominator when every positive strategy return is larger than [1e-6]. *)
Theorem win_rate_is_count_quotient (ps : PredictionSet float) (sr : list float) :
  strategy_returns ps = Some sr ->
  exists report v,
    calculate_trading_metrics ps = Some report /\
    lookup "win_rate" report = Some v /\
    pyval_num v = f_of_Z (wins sr) / f_of_Z (Z.max (total_trades sr) 1) /\
    wins sr = count_true (map (fun r => r >? f0) sr) /\
    total_trades sr = count_true (map (fun r => fabs r >? lit_1e_6) sr) /\
    (0 <= wins sr)%Z /\
    (1 <= Z.max (total_trades sr) 1)%Z /\
    ((forall r, In r sr -> (r >? f0) = true -> (fabs r >? lit_1e_6) = true) ->
     (wins sr <= Z.max (total_trades sr) 1)%Z).
Proof.
  intros E.
  assert (Hw : (0 <= wins sr)%Z) by apply count_true_nonneg.
  assert (Hle : (forall r, In r sr -> (r >? f0) = true -> (fabs r >? lit_1e_6) = true) ->
                (wins sr <= Z.max (total_trades sr) 1)%Z).
  { intros Hall. unfold wins, total_trades.
    pose proof (count_true_le (fun r : float => r >? f0)
                  (fun r : float => fabs r >? lit_1e_6) sr Hall). lia. }
  unfold calculate_trading_metrics. rewrite E.
  destruct sr as [|r rest].
  - exists default_report, (PyInt 0). repeat split; auto; lia.
  - destruct (@max_drawdown_some float _ (r :: rest)) as [d Ed]; [discriminate|].
    cbn [length Nat.eqb]. rewrite Ed.
    eexists. exists (PyFloat (win_rate (r :: rest))).
    repeat split; auto; lia.
Qed.

Lemma win_rate_is_count_quotient_witness :
  exists report v,
    calculate_trading_metrics
      {| y_true := [1%Z; 0%Z]; y_pred := [1%Z; 0%Z]; y_proba := [1%float; 0%float];
         returns := [0.01%float; 0.02%float] |} = Some report /\
    lookup "win_rate" report = Some v /\
    pyval_num v = 0.5%float.
Proof.
  destruct (@win_rate_is_count_quotient
              {| y_true := [1%Z; 0%Z]; y_pred := [1%Z; 0%Z]; y_proba := [1%float; 0%float];
                 returns := [0.01%float; 0.02%float] |}
              [0.01%float; (-0.02)%float] eq_refl)
    as [report [v [E [L [V _]]]]].
  exists report, v. split; [exact E|]. split; [exact L|]. exact V.
Defined.

(** *** Binary64: the maximum drawdown *)

(** C8, counterexample.  With two strategy returns of [1e200] the cumulative
    product overflows to [inf], the second drawdown is [(inf - inf) / inf],
    and the reported maximum drawdown is NaN, which is not [<= 0]. *)
Lemma max_drawdown_nan_on_overflow :
  let ps := {| y_true := [1%Z; 1%Z]; y_pred := [1%Z; 1%Z]; y_proba := [1%float; 1%float];
               returns := [1e200%float; 1e200%float] |} in
  exists report,
    strategy_returns ps = Some [1e200%float; 1e200%float] /\
    forallb isfinite [1e200%float; 1e200%float] = true /\
    calculate_trading_metrics ps = Some report /\
    lookup "max_drawdown" report = Some (PyFloat nan) /\
    (nan <=? f0) = false.
Proof. eexists. vm_compute. repeat split. Qed.

(** The same happens without any overflow when a denominator
    [running_max + 1e-10] is exactly zero. *)
Example max_drawdown_nan_on_zero_denominator :
  max_drawdown [(-110.9511627776)%float; (0x1p-40 - 1)%float] = Some nan.
Proof. vm_compute. reflexivity. Qed.

(** C8, as amended.  For a non-empty array of strategy returns a report is
    returned, its [max_drawdown] is the minimum of
    [(cumulative - running_max) / (running_max + 1e-10)], and that value is
    [<= 0] or NaN. *)
Theorem max_drawdown_nonpositive_or_nan (ps : PredictionSet float) (sr : list float) :
  strategy_returns ps = Some sr ->
  sr <> [] ->
  exists report v,
    calculate_trading_metrics ps = Some report /\
    lookup "max_drawdown" report = Some (PyFloat v) /\
    np_min (drawdown sr) = Some v /\
    (isnan v = true \/ (v <=? f0) = true).
Proof.
  intros E Hne.
  destruct (max_drawdown_some Hne) as [v Ev].
  unfold calculate_trading_metrics. rewrite E.
  destruct sr as [|r rest]; [congruence|]. cbn [length Nat.eqb]. rewrite Ev.
  eexists. exists v. split; [reflexivity|]. split; [reflexivity|].
  split; [exact Ev|]. exact (max_drawdown_nonpos_or_nan _ Ev).
Qed.

Lemma max_drawdown_nonpositive_or_nan_witness :
  exists report v,
    calculate_trading_metrics
      {| y_true := [1%Z; 0%Z]; y_pred := [1%Z; 0%Z]; y_proba := [1%float; 0%float];
         returns := [0.01%float; 0.02%float] |} = Some report /\
    lookup "max_drawdown" report = Some (PyFloat v) /\
    (isnan v = true \/ (v <=? f0) = true).
Proof.
  destruct (@max_drawdown_nonpositive_or_nan
              {| y_true := [1%Z; 0%Z]; y_pred := [1%Z; 0%Z]; y_proba := [1%float; 0%float];
                 returns := [0.01%float; 0.02%float] |}
              [0.01%float; (-0.02)%float] eq_refl ltac:(discriminate))
    as [report [v [E [L [_ B]]]]].
  exists report, v. split; [exact E|]. split; [exact L|]. exact B.
Defined.

End MetricsFloat.

(** ** Results on Series and DataFrames *)

Section ListFacts.
Context {A B C : Type}.

Lemma nth_error_map2 (f : A -> B -> C) (xs : list A) (ys : list B) (i : nat) :
  nth_error (map2 f xs ys) i =
  match nth_error xs i, nth_error ys i with
  | Some x, Some y => Some (f x y)
  | _, _ => None
  end.
Proof.
  revert ys i. induction xs as [|x xs IH]; intros [|y ys] [|i]; simpl; try reflexivity.
  - destruct (nth_error xs i); reflexivity.
  - apply IH.
Qed.

Lemma length_map2 (f : A -> B -> C) (xs : list A) (ys : list B) :
  length (map2 f xs ys) = Nat.min (length xs) (length ys).
Proof.
  revert ys. induction xs as [|x xs IH]; intros [|y ys]; simpl; auto.
Qed.

Lemma In_boolean_index (xs : list A) (mask : list bool) (x : A) :
  In x (boolean_index xs mask) ->
  exists i, nth_error xs i = Some x /\ nth_error mask i = Some true.
Proof.
  unfold boolean_index. revert mask.
  induction xs as [|y xs IH]; intros [|b mask]; simpl; try tauto.
  destruct b; simpl.
  - intros [<-|Hin].
    + exists 0%nat. split; reflexivity.
    + destruct (IH mask Hin) as [i [Hx Hm]]. exists (S i). split; assumption.
  - intros Hin. destruct (IH mask Hin) as [i [Hx Hm]]. exists (S i). split; assumption.
Qed.

Lemma NoDup_boolean_index (xs : list A) (mask : list bool) :
  NoDup xs -> NoDup (boolean_index xs mask).
Proof.
  revert mask. induction xs as [|y xs IH]; intros mask Hnd.
  - destruct mask; constructor.
  - inversion Hnd as [|? ? Hnotin Hnd']; subst.
    destruct mask as [|b mask]; [constructor|].
    unfold boolean_index in *. simpl. destruct b; simpl.
    + constructor; [|apply IH; assumption].
      intros Hin. apply Hnotin.
      destruct (@In_boolean_index xs mask y Hin) as [i [Hx _]].
      eapply nth_error_In; eassumption.
    + apply IH; assumption.
Qed.

Lemma lookup_In (k : string) (d : list (string * A)) (v : A) :
  lookup k d = Some v -> In (k, v) d.
Proof.
  induction d as [|[k' v'] d IH]; simpl; [discriminate|].
  destruct (String.eqb k k') eqn:E.
  - apply String.eqb_eq in E. intros [= <-]. left. congruence.
  - intros Hl. right. apply IH, Hl.
Qed.

End ListFacts.

Section SeriesFacts.
Context {F : Type} `{NanLaws F}.
Local Open Scope num_scope.

Lemma length_shift (k : Z) (xs : list F) : length (shift k xs) = length xs.
Proof.
  unfold shift. destruct (0 <=? k)%Z.
  - rewrite length_app, repeat_length, length_firstn. lia.
  - rewrite length_app, repeat_length, length_skipn. lia.
Qed.

(** The first [k] positions of [shift k] are NaN. *)
Lemma nth_error_shift_head (k : Z) (xs : list F) (i : nat) :
  (0 <= k)%Z -> (i < Z.to_nat k)%nat -> (i < length xs)%nat ->
  nth_error (shift k xs) i = Some fnan.
Proof.
  intros Hk Hi Hn. unfold shift.
  destruct (Z.leb_spec 0 k); [|lia].
  rewrite nth_error_app1 by (rewrite repeat_length; lia).
  apply nth_error_repeat. lia.
Qed.

(** Behind them come the values, [k] positions late. *)
Lemma nth_error_shift_tail (k : Z) (xs : list F) (i : nat) :
  (0 <= k)%Z -> (Z.to_nat k <= i)%nat -> (i < length xs)%nat ->
  nth_error (shift k xs) i = nth_error xs (i - Z.to_nat k).
Proof.
  intros Hk Hi Hn. unfold shift.
  destruct (Z.leb_spec 0 k); [|lia].
  rewrite nth_error_app2 by (rewrite repeat_length; lia).
  rewrite repeat_length.
  replace (Nat.min (Z.to_nat k) (length xs)) with (Z.to_nat k) by lia.
  rewrite nth_error_firstn.
  destruct (Nat.ltb_spec (i - Z.to_nat k) (length xs - Z.to_nat k)); [reflexivity|lia].
Qed.

(** [shift (-1)] moves every value one position up and ends with NaN. *)
Lemma shift_minus_1 (x : F) (xs : list F) : shift (-1) (x :: xs) = xs ++ [fnan].
Proof. reflexivity. Qed.

Lemma pct_change_head_nan (k : Z) (xs : list F) (i : nat) :
  (0 <= k)%Z -> (i < Z.to_nat k)%nat -> (i < length xs)%nat ->
  exists v, nth_error (pct_change k xs) i = Some v /\ isnan v = true.
Proof.
  intros Hk Hi Hn. unfold pct_change.
  rewrite nth_error_map, nth_error_map2, (nth_error_shift_head xs Hk Hi Hn).
  destruct (nth_error xs i) as [x|] eqn:Ex.
  - eexists. split; [reflexivity|].
    apply isnan_sub_l, isnan_div_r, isnan_fnan.
  - apply nth_error_None in Ex. lia.
Qed.

(** [target] and [target_return], bar by bar. *)
Lemma target_return_cons (c c' : F) (rest : list F) :
  target_return (c :: c' :: rest) = (c / c' - f1) * f_of_Z (-1) :: target_return (c' :: rest).
Proof. reflexivity. Qed.

Lemma target_return_last (c : F) :
  target_return [c] = [(c / fnan - f1) * f_of_Z (-1)].
Proof. reflexivity. Qed.

Lemma target_cons (c c' : F) (rest : list F) :
  target (c :: c' :: rest) = (if c' >? c then 1%Z else 0%Z) :: target (c' :: rest).
Proof. reflexivity. Qed.

Lemma target_last (c : F) : target [c] = [0%Z].
Proof.
  unfold target, gt_series, astype_int. simpl.
  rewrite (ltb_nan_r c fnan isnan_fnan). reflexivity.
Qed.

Lemma length_target_return (close : list F) :
  length (target_return close) = length close.
Proof.
  unfold target_return, pct_change.
  rewrite !length_map, length_map2, length_shift. lia.
Qed.

(** The last [target_return] is NaN: the bar has no successor. *)
Lemma target_return_last_nan (close : list F) :
  close <> [] ->
  exists v, nth_error (target_return close) (length close - 1) = Some v /\ isnan v = true.
Proof.
  induction close as [|c [|c' rest] IH]; intros Hne; [congruence| |].
  - rewrite target_return_last. simpl. eexists. split; [reflexivity|].
    apply isnan_mul_l, isnan_sub_l, isnan_div_r, isnan_fnan.
  - rewrite target_return_cons.
    replace (length (c :: c' :: rest) - 1)%nat with (S (length (c' :: rest) - 1))
      by (simpl; lia).
    simpl nth_error. apply IH. discriminate.
Qed.

End SeriesFacts.

Section FrameFacts.
Context {F : Type} `{NanLaws F}.
Local Open Scope string_scope.

(** A missing value in one column drops the row. *)
Lemma row_notna_false (columns : list (string * list (cell F)))
  (name : string) (col : list (cell F)) (i : nat) (c : cell F) :
  In (name, col) columns -> nth_error col i = Some c -> isna c = true ->
  row_notna columns i = false.
Proof.
  intros Hin Hc Hna. unfold row_notna.
  destruct (forallb _ columns) eqn:E; [|reflexivity].
  rewrite forallb_forall in E. specialize (E _ Hin). simpl in E.
  rewrite Hc, Hna in E. discriminate.
Qed.

(** The rows [dropna] keeps, for a frame with the default index. *)
Lemma dropna_labels (df : DataFrame F) (n : nat) (label : Z) :
  df_index df = map Z.of_nat (seq 0 n) ->
  In label (df_index (dropna df)) ->
  exists i, (i < n)%nat /\ label = Z.of_nat i /\ row_notna (df_columns df) i = true.
Proof.
  intros Hidx Hin. unfold dropna in Hin. cbn [df_index] in Hin.
  apply In_boolean_index in Hin. destruct Hin as [i [Hl Hk]].
  unfold nrows in Hk. rewrite Hidx in Hl, Hk.
  rewrite length_map, length_seq in Hk.
  rewrite nth_error_map in Hl, Hk. rewrite nth_error_seq in Hl, Hk.
  destruct (Nat.ltb_spec i n) as [Hi|Hi]; [|discriminate].
  simpl in Hl, Hk. exists i. split; [exact Hi|]. split; congruence.
Qed.

Lemma dropna_index_NoDup (df : DataFrame F) (n : nat) :
  df_index df = map Z.of_nat (seq 0 n) -> NoDup (df_index (dropna df)).
Proof.
  intros Hidx. unfold dropna. cbn [df_index]. apply NoDup_boolean_index.
  rewrite Hidx. apply Injective_map_NoDup; [|apply seq_NoDup].
  intros a b. apply Nat2Z.inj.
Qed.

(** If the labels [dropna] keeps all lie in [lo .. lo + len - 1], at most
    [len] rows are kept. *)
Lemma dropna_nrows_le (df : DataFrame F) (n lo len : nat) :
  df_index df = map Z.of_nat (seq 0 n) ->
  (forall label, In label (df_index (dropna df)) ->
                 (Z.of_nat lo <= label < Z.of_nat (lo + len))%Z) ->
  (nrows (dropna df) <= len)%nat.
Proof.
  intros Hidx Hrange. unfold nrows.
  replace len with (length (map Z.of_nat (seq lo len)))
    by (rewrite length_map, length_seq; reflexivity).
  apply NoDup_incl_length; [eapply dropna_index_NoDup; eassumption|].
  intros label Hin. specialize (Hrange _ Hin).
  apply in_map_iff. exists (Z.to_nat label). split; [lia|].
  apply in_seq. lia.
Qed.

(** Concatenating a single frame keeps its rows and its columns. *)
Lemma concat_single (df : DataFrame F) :
  exists combined,
    concat [df] = Some combined /\
    df_index combined = map Z.of_nat (seq 0 (nrows df)) /\
    forall name col, lookup name (df_columns df) = Some col ->
                     In (name, col) (df_columns combined).
Proof.
  eexists. split; [reflexivity|]. cbn [df_index df_columns fold_right].
  split; [rewrite Nat.add_0_r; reflexivity|].
  intros name col Hl. apply in_map_iff.
  exists (name, col). cbn [fst flat_map]. rewrite Hl, app_nil_r.
  split; [reflexivity|]. apply lookup_In, Hl.
Qed.

Lemma unique_single (s : string) (xs : list string) :
  xs <> [] -> (forall x, In x xs -> x = s) -> unique xs = [s].
Proof.
  induction xs as [|x [|x' xs] IH]; intros Hne Hall; [congruence| |].
  - simpl. rewrite (Hall x (or_introl eq_refl)). reflexivity.
  - assert (Hx : x = s) by (apply Hall; left; reflexivity). subst x.
    change (unique (s :: x' :: xs))
      with (s :: filter (fun y => negb (String.eqb s y)) (unique (x' :: xs))).
    rewrite IH; [|discriminate|intros y Hy; apply Hall; right; exact Hy].
    simpl. rewrite String.eqb_refl. reflexivity.
Qed.

Lemma filter_all {A : Type} (p : A -> bool) (xs : list A) :
  (forall x, In x xs -> p x = true) -> filter p xs = xs.
Proof.
  induction xs as [|x xs IH]; intros Hall; simpl; [reflexivity|].
  rewrite (Hall x (or_introl eq_refl)). f_equal. apply IH.
  intros y Hy. apply Hall. right. exact Hy.
Qed.

Lemma length_insert_by_date (b : Bar F) (bs : list (Bar F)) :
  length (insert_by_date b bs) = S (length bs).
Proof.
  induction bs as [|b' bs IH]; simpl; [reflexivity|].
  destruct (date b' <=? date b)%Z; simpl; [rewrite IH|]; reflexivity.
Qed.

Lemma length_sort_values_date (bs : list (Bar F)) :
  length (sort_values_date bs) = length bs.
Proof.
  unfold sort_values_date.
  assert (G : forall acc, length (fold_left (fun acc b => insert_by_date b acc) bs acc)
                          = (length bs + length acc)%nat).
  { induction bs as [|b bs IH]; intros acc; simpl; [reflexivity|].
    rewrite IH, length_insert_by_date. lia. }
  rewrite G. simpl. lia.
Qed.

(** For a table of one symbol, [process_all_symbols] is [engineer_features]
    followed by [dropna]. *)
Lemma process_all_symbols_single `{Sqrt F} `{PandasLib F}
  (bars : list (Bar F)) (s : string) (features : DataFrame F) :
  bars <> [] -> (forall b, In b bars -> symbol b = s) ->
  engineer_features bars = Some features ->
  exists combined,
    concat [features] = Some combined /\
    process_all_symbols bars = Some (dropna combined).
Proof.
  intros Hne Hsym Hef. unfold process_all_symbols.
  rewrite (@unique_single s (map (@symbol F) bars)).
  - cbn [fold_right]. rewrite filter_all.
    + rewrite Hef. destruct (concat_single features) as [combined [Hc _]].
      exists combined. split; [exact Hc|]. rewrite Hc. reflexivity.
    + intros b Hb. rewrite (Hsym b Hb). apply String.eqb_refl.
  - destruct bars; [congruence|discriminate].
  - intros x Hx. apply in_map_iff in Hx. destruct Hx as [b [<- Hb]]. apply Hsym, Hb.
Qed.

End FrameFacts.

(** *** The label columns *)

Section TargetFacts.
Context {F : Type} `{NanLaws F}.
Local Open Scope num_scope.

(** What lines 312-313 compute at a bar [i] that has a successor. *)
Lemma target_at (close : list F) (i : nat) (c c' : F) :
  nth_error close i = Some c -> nth_error close (S i) = Some c' ->
  nth_error (target close) i = Some (if c' >? c then 1%Z else 0%Z) /\
  nth_error (target_return close) i = Some ((c / c' - f1) * f_of_Z (-1)).
Proof.
  revert i. induction close as [|x [|x' rest] IH]; intros i Hc Hc'.
  - destruct i; discriminate.
  - destruct i as [|[|i]]; discriminate.
  - rewrite target_cons, target_return_cons. destruct i as [|i].
    + simpl in Hc, Hc'. injection Hc as ->. injection Hc' as ->. split; reflexivity.
    + exact (IH i Hc Hc').
Qed.

End TargetFacts.

(** In exact arithmetic the value is [(close[i+1] - close[i]) / close[i+1]]:
    the change over the bar, relative to the next close. *)
Lemma target_return_exact (a b : Q) :
  ~ (b == 0)%Q ->
  exists q, ((XFin a / XFin b - f1) * f_of_Z (-1))%num = XFin q /\ (q == (b - a) / b)%Q.
Proof.
  intros Hb. cbn. unfold xsub, xdiv.
  destruct (Qeq_bool b 0) eqn:E; [apply Qeq_bool_iff in E; contradiction|].
  cbn. eexists. split; [reflexivity|]. field. exact Hb.
Qed.

(** *** Binary64: the feature table *)

Section FeaturesFloat.
Context {L : PandasLib float}.
Local Open Scope string_scope.

(** [engineer_features] returns a table; three of its columns. *)
Lemma engineer_features_columns (bars : list (Bar float)) :
  let df := sort_values_date bars in
  let close := map (@close float) df in
  exists columns,
    engineer_features bars =
      Some {| df_index := map Z.of_nat (seq 0 (length df)); df_columns := columns |} /\
    lookup "returns_20d" columns = Some (floats (pct_change 20 close)) /\
    lookup "obv_change" columns =
      Some (floats (pct_change 5 (obv close (map (@volume float) df)))) /\
    lookup "target" columns = Some (ints (target close)) /\
    lookup "target_return" columns = Some (floats (target_return close)).
Proof.
  eexists. split; [reflexivity|]. repeat split; reflexivity.
Qed.

(** The rows that survive [dropna], for one symbol with [n] bars: they carry
    labels between 20 and [n - 2].  The first twenty rows have no 20-day
    return, and the last row has no next-day return. *)
Lemma process_all_symbols_labels (bars : list (Bar float)) (s : string) :
  bars <> [] -> (forall b, In b bars -> symbol b = s) ->
  exists table,
    process_all_symbols bars = Some table /\
    NoDup (df_index table) /\
    (forall n0 len, (forall label, In label (df_index table) ->
                       (Z.of_nat n0 <= label < Z.of_nat (n0 + len))%Z) ->
                    (nrows table <= len)%nat) /\
    forall label, In label (df_index table) ->
                  (20 <= label < Z.of_nat (length bars) - 1)%Z.
Proof.
  intros Hne Hsym.
  destruct (engineer_features_columns bars) as [columns [Hef [H20 [_ [_ Htr]]]]].
  cbv zeta in Hef, H20, Htr.
  set (df := sort_values_date bars) in *. set (closes := map (@close float) df) in *.
  assert (Hlen : length closes = length bars).
  { unfold closes, df. rewrite length_map. apply length_sort_values_date. }
  assert (Hdf : length df = length bars) by apply length_sort_values_date.
  destruct (process_all_symbols_single Hne Hsym Hef) as [combined [Hc Hp]].
  destruct (concat_single {| df_index := map Z.of_nat (seq 0 (length df));
                             df_columns := columns |})
    as [combined' [Hc' [Hidx Hcols]]].
  rewrite Hc in Hc'. injection Hc' as <-.
  unfold nrows in Hidx. cbn [df_index df_columns] in Hidx, Hcols.
  rewrite length_map, length_seq, Hdf in Hidx.
  exists (dropna combined). split; [exact Hp|].
  split; [exact (dropna_index_NoDup combined (length bars) Hidx)|].
  split; [intros n0 len Hr; exact (dropna_nrows_le combined (length bars) n0 len Hidx Hr)|].
  intros label Hin.
  destruct (dropna_labels combined (length bars) label Hidx Hin) as [i [Hi [-> Hrow]]].
  assert (H20' : (20 <= i)%nat).
  { destruct (Nat.lt_ge_cases i 20) as [Hlt|]; [|assumption]. exfalso.
    destruct (@pct_change_head_nan float _ _ 20 closes i) as [v [Hv Hn]];
      [lia|simpl; lia|lia|].
    assert (Hcell : nth_error (floats (pct_change 20 closes)) i = Some (CFloat v)).
    { unfold floats. rewrite nth_error_map, Hv. reflexivity. }
    rewrite (row_notna_false (df_columns combined) "returns_20d" _ i
               (Hcols _ _ H20) Hcell Hn) in Hrow.
    discriminate Hrow. }
  assert (Hlast : (i <> length bars - 1)%nat).
  { intros ->. destruct (@target_return_last_nan float _ _ closes) as [v [Hv Hn]].
    { intros E. rewrite E in Hlen. simpl in Hlen. lia. }
    rewrite Hlen in Hv.
    assert (Hcell : nth_error (floats (target_return closes)) (length bars - 1)
                    = Some (CFloat v)).
    { unfold floats. rewrite nth_error_map, Hv. reflexivity. }
    rewrite (row_notna_false (df_columns combined) "target_return" _ _
               (Hcols _ _ Htr) Hcell Hn) in Hrow.
    discriminate Hrow. }
  lia.
Qed.

(** C10.  For one symbol with at least one bar, the table returned has no
    row for the last bar (the row labelled [n - 1] after sorting by date):
    its [target_return] is NaN, so [dropna] removes it, and at most [n - 1]
    rows are left. *)
Theorem last_bar_row_is_dropped (bars : list (Bar float)) (s : string) :
  bars <> [] -> (forall b, In b bars -> symbol b = s) ->
  exists table,
    process_all_symbols bars = Some table /\
    (exists v, nth_error (target_return (map (@close float) (sort_values_date bars)))
                 (length bars - 1) = Some v /\ isnan v = true) /\
    ~ In (Z.of_nat (length bars) - 1)%Z (df_index table) /\
    (nrows table <= length bars - 1)%nat.
Proof.
  intros Hne Hsym.
  destruct (process_all_symbols_labels Hne Hsym) as [table [Hp [_ [Hle Hlab]]]].
  exists table. split; [exact Hp|]. split; [|split].
  - destruct (@target_return_last_nan float _ _
                (map (@close float) (sort_values_date bars))) as [v Hv].
    + intros E. apply (f_equal (@length float)) in E.
      rewrite length_map, length_sort_values_date in E.
      destruct bars; [congruence|discriminate].
    + rewrite length_map, length_sort_values_date in Hv. exists v. exact Hv.
  - intros Hin. specialize (Hlab _ Hin). lia.
  - apply (Hle 0%nat). intros label Hin. specialize (Hlab _ Hin).
    destruct bars; [congruence|]. simpl length in *. lia.
Qed.

(** C2, as amended.  For one symbol with 200 bars a table is returned, it has
    at most 179 rows, and their labels lie between 20 and 198: the first 20
    rows lack the 20-day return and row 199 lacks the next-day return. *)
Theorem two_hundred_bars_at_most_179_rows (bars : list (Bar float)) (s : string) :
  length bars = 200%nat -> (forall b, In b bars -> symbol b = s) ->
  exists table,
    process_all_symbols bars = Some table /\
    (nrows table <= 179)%nat /\
    forall label, In label (df_index table) -> (20 <= label <= 198)%Z.
Proof.
  intros Hlen Hsym.
  assert (Hne : bars <> []) by (intros ->; discriminate).
  destruct (process_all_symbols_labels Hne Hsym) as [table [Hp [_ [Hle Hlab]]]].
  rewrite Hlen in Hlab.
  exists table. split; [exact Hp|]. split.
  - apply (Hle 20%nat). intros label Hin. specialize (Hlab _ Hin). lia.
  - intros label Hin. specialize (Hlab _ Hin). lia.
Qed.

Lemma flat_bars_symbol (b : Bar float) : In b flat_bars -> symbol b = "FLAT".
Proof.
  unfold flat_bars. intros Hb. apply in_map_iff in Hb.
  destruct Hb as [i [<- _]]. reflexivity.
Qed.

(** When the close never moves, OBV is 0 from the second bar on and its
    5-day percentage change is [0/0 - 1] everywhere: no row survives. *)
Lemma flat_bars_all_rows_dropped :
  exists table, process_all_symbols flat_bars = Some table /\ nrows table = 0%nat.
Proof.
  assert (Hne : flat_bars <> []) by discriminate.
  destruct (engineer_features_columns flat_bars) as [columns [Hef [_ [Hobv _]]]].
  cbv zeta in Hef, Hobv.
  destruct (process_all_symbols_single Hne flat_bars_symbol Hef) as [combined [Hc Hp]].
  destruct (concat_single {| df_index :=
                               map Z.of_nat (seq 0 (length (sort_values_date flat_bars)));
                             df_columns := columns |})
    as [combined' [Hc' [Hidx Hcols]]].
  rewrite Hc in Hc'. injection Hc' as <-.
  unfold nrows in Hidx. cbn [df_index df_columns] in Hidx, Hcols.
  rewrite length_map, length_seq, length_sort_values_date in Hidx.
  exists (dropna combined). split; [exact Hp|].
  unfold nrows. destruct (df_index (dropna combined)) as [|label rest] eqn:E;
    [reflexivity|exfalso].
  assert (Hin : In label (df_index (dropna combined))) by (rewrite E; left; reflexivity).
  destruct (dropna_labels combined (length flat_bars) label Hidx Hin)
    as [i [Hi [_ Hrow]]].
  assert (Hcol : pct_change 5 (obv (map (@close float) (sort_values_date flat_bars))
                                 (map (@volume float) (sort_values_date flat_bars)))
                 = repeat nan 200).
  { vm_compute. reflexivity. }
  rewrite Hcol in Hobv.
  assert (Hcell : nth_error (floats (repeat nan 200)) i = Some (CFloat nan)).
  { change (length flat_bars) with 200%nat in Hi.
    unfold floats. rewrite nth_error_map, (nth_error_repeat nan Hi). reflexivity. }
  assert (Hna : isna (CFloat nan) = true) by (vm_compute; reflexivity).
  rewrite (row_notna_false (df_columns combined) "obv_change" _ i
             (Hcols _ _ Hobv) Hcell Hna) in Hrow.
  discriminate Hrow.
Qed.

End FeaturesFloat.

Lemma last_bar_row_is_dropped_witness :
  exists table,
    @process_all_symbols float _ _ identity_lib three_bars = Some table /\
    (nrows table <= 2)%nat.
Proof.
  destruct (@last_bar_row_is_dropped identity_lib three_bars "ABC"%string
              ltac:(discriminate)
              ltac:(intros b [<-|[<-|[<-|[]]]]; reflexivity))
    as [table [Hp [_ [_ Hn]]]].
  exists table. split; [exact Hp|exact Hn].
Defined.

Lemma two_hundred_bars_at_most_179_rows_witness :
  exists table,
    @process_all_symbols float _ _ identity_lib flat_bars = Some table /\
    (nrows table <= 179)%nat.
Proof.
  destruct (@two_hundred_bars_at_most_179_rows identity_lib flat_bars "FLAT"%string
              eq_refl (@flat_bars_symbol))
    as [table [Hp [Hn _]]].
  exists table. split; [exact Hp|exact Hn].
Defined.

(** When the library columns have no NaN of their own (here: [identity_lib]),
    the rising series keeps exactly the rows labelled 20 to 198: the bound
    179 is attained, and no column computed here has a warm-up beyond 20
    rows. *)
Example rising_bars_179_rows :
  option_map (fun table => (nrows table, df_index table))
    (@process_all_symbols float _ _ identity_lib rising_bars)
  = Some (179%nat, map Z.of_nat (seq 20 179)).
Proof. vm_compute. reflexivity. Qed.

(** C2, counterexample.  [flat_bars] is a single-symbol input of 200 bars
    with finite values, and its feature table has no row at all, not 150. *)
Lemma flat_bars_contradict_150_rows :
  ~ (forall (L : PandasLib float) (bars : list (Bar float)) (s : string),
        length bars = 200%nat ->
        (forall b, In b bars -> symbol b = s) ->
        all_finite bars = true ->
        exists table, process_all_symbols bars = Some table /\ nrows table = 150%nat).
Proof.
  intros Hclaim.
  destruct (Hclaim identity_lib flat_bars "FLAT"%string eq_refl
              (@flat_bars_symbol) eq_refl) as [table [Hp Hn]].
  destruct (@flat_bars_all_rows_dropped identity_lib) as [table' [Hp' Hn']].
  rewrite Hp in Hp'. injection Hp' as <-. rewrite Hn in Hn'. discriminate.
Qed.

(** C3.  With closes [100, 110] the code gives [target = 1] and
    [target_return = 0.0909...] at the first bar, that is [(110 - 100) / 110];
    the next-bar simple return [(110 - 100) / 100] is [0.1]. *)
Lemma target_return_of_100_110 :
  target [100; 110]%float = [1; 0]%Z /\
  target_return [100; 110]%float = [0.090909090909090939; nan]%float /\
  ((110 - 100) / 110 = 0.090909090909090912)%float /\
  ((110 - 100) / 100 = 0.1)%float /\
  (0.090909090909090939 <? 0.1)%float = true.
Proof. vm_compute. repeat split. Qed.

(** *** The simple moving average *)

Section SmaFacts.
Context {F : Type} `{Num F}.
Local Open Scope num_scope.


Lemma observations_all (xs : list F) :
  (forall x, In x xs -> isnan x = false) -> observations xs = xs.
Proof.
  intros Hall. unfold observations. apply filter_all.
  intros x Hx. rewrite (Hall x Hx). reflexivity.
Qed.

Lemma length_trailing_values (series : list F) (i k : nat) :
  length (trailing_values series i k) = k.
Proof. unfold trailing_values. rewrite length_map, length_seq. reflexivity. Qed.

Lemma In_window_at (window : nat) (series : list F) (i : nat) (x : F) :
  In x (window_at window series i) -> In x series.
Proof.
  unfold window_at. intros Hx.
  rewrite <- (firstn_skipn (S i) series). apply in_or_app. left.
  rewrite <- (firstn_skipn (S i - window) (firstn (S i) series)).
  apply in_or_app. right. exact Hx.
Qed.


Lemma sma_none (series : list F) (period : Z) :
  (period < 1)%Z -> sma series period = None.
Proof.
  intros Hp. unfold sma, rolling_mean.
  destruct (Z.ltb_spec period 0); [reflexivity|].
  destruct (Z.ltb_spec period 1); [reflexivity|lia].
Qed.

End SmaFacts.

(** *** The loop of the rolling mean *)

Section RollFacts.
Context {F : Type} `{Num F}.
Local Open Scope num_scope.

Lemma roll_mean_loop_states (values : list F) (window : nat) (minp : Z)
  (st : MeanState) (positions : list nat) :
  roll_mean_loop values window minp st positions =
  map (calc_mean minp) (roll_states values window st positions).
Proof.
  revert st. induction positions as [|i rest IH]; intros st; [reflexivity|].
  cbn [roll_mean_loop roll_states map]. rewrite IH. reflexivity.
Qed.

Lemma length_roll_states (values : list F) (window : nat) (st : MeanState)
  (positions : list nat) :
  length (roll_states values window st positions) = length positions.
Proof.
  revert st. induction positions as [|i rest IH]; intros st; [reflexivity|].
  cbn [roll_states length]. rewrite IH. reflexivity.
Qed.

Lemma length_roll_mean (values : list F) (window : nat) (minp : Z) :
  length (roll_mean values window minp) = length values.
Proof.
  unfold roll_mean. rewrite roll_mean_loop_states, length_map, length_roll_states.
  apply length_seq.
Qed.

(** An invariant of the loop holds at every position. *)
Lemma roll_states_invariant (values : list F) (window : nat)
  (Inv : nat -> MeanState -> Prop) :
  (forall st, (0 < length values)%nat -> Inv 0%nat (roll_mean_step values window st 0)) ->
  (forall i st, (S i < length values)%nat -> Inv i st ->
                Inv (S i) (roll_mean_step values window st (S i))) ->
  forall st0 i, (i < length values)%nat ->
  exists st,
    nth_error (roll_states values window st0 (seq 0 (length values))) i = Some st /\
    Inv i st.
Proof.
  intros H0 HS.
  assert (Hgen : forall len k st,
             (k + len <= length values)%nat ->
             (k = 0%nat \/ exists k', k = S k' /\ Inv k' st) ->
             forall j, (j < len)%nat ->
             exists st',
               nth_error (roll_states values window st (seq k len)) j = Some st' /\
               Inv (k + j)%nat st').
  { induction len as [|len IH]; intros k st Hk Hst j Hj; [lia|].
    cbn [seq roll_states].
    assert (Hstep : Inv k (roll_mean_step values window st k)).
    { destruct Hst as [->|[k' [-> Hinv]]]; [apply H0; lia|apply HS; [lia|exact Hinv]]. }
    destruct j as [|j].
    - eexists. split; [reflexivity|]. rewrite Nat.add_0_r. exact Hstep.
    - cbn [nth_error].
      destruct (IH (S k) (roll_mean_step values window st k)) with (j := j)
        as [st' [E Hinv]]; [lia|right; exists k; split; [reflexivity|exact Hstep]|lia|].
      exists st'. split; [exact E|]. replace (k + S j)%nat with (S k + j)%nat by lia.
      exact Hinv. }
  intros st0 i Hi.
  destruct (Hgen (length values) 0%nat st0) with (j := i) as [st [E Hinv]];
    [lia|left; reflexivity|exact Hi|].
  exists st. split; [exact E|exact Hinv].
Qed.

Lemma slice_empty (xs : list F) (a : nat) : slice xs a a = [].
Proof. unfold slice. rewrite Nat.sub_diag. reflexivity. Qed.

Lemma skipn_nth (xs : list F) (a : nat) :
  (a < length xs)%nat -> skipn a xs = nth a xs fnan :: skipn (S a) xs.
Proof.
  revert a. induction xs as [|x xs IH]; intros a Ha; [simpl in Ha; lia|].
  destruct a as [|a]; [reflexivity|]. cbn [skipn nth]. apply IH. simpl in Ha. lia.
Qed.

Lemma slice_single (xs : list F) (a : nat) :
  (a < length xs)%nat -> slice xs a (S a) = [nth a xs fnan].
Proof.
  intros Ha. unfold slice. replace (S a - a)%nat with 1%nat by lia.
  rewrite (@skipn_nth xs a Ha). reflexivity.
Qed.

Lemma firstn_succ (xs : list F) (i : nat) :
  (i < length xs)%nat -> firstn (S i) xs = firstn i xs ++ [nth i xs fnan].
Proof.
  revert i. induction xs as [|x xs IH]; intros i Hi; [simpl in Hi; lia|].
  destruct i as [|i]; [reflexivity|]. cbn [firstn nth app]. f_equal.
  apply IH. simpl in Hi. lia.
Qed.

Lemma window_at_zero (xs : list F) (i : nat) : window_at 0 xs i = [].
Proof.
  unfold window_at. rewrite Nat.sub_0_r. apply skipn_all2. rewrite length_firstn. lia.
Qed.

Lemma window_at_first (window : nat) (xs : list F) :
  (0 < window)%nat -> (0 < length xs)%nat -> window_at window xs 0 = [nth 0 xs fnan].
Proof.
  intros Hw Hx. unfold window_at. replace (1 - window)%nat with 0%nat by lia.
  destruct xs as [|x xs]; [simpl in Hx; lia|]. reflexivity.
Qed.

Lemma window_at_one (xs : list F) (i : nat) :
  (i < length xs)%nat -> window_at 1 xs i = [nth i xs fnan].
Proof.
  intros Hi. unfold window_at. replace (S i - 1)%nat with i by lia.
  rewrite (@firstn_succ xs _ Hi), skipn_app, length_firstn.
  replace (Nat.min i (length xs)) with i by lia. rewrite Nat.sub_diag.
  rewrite skipn_all2 by (rewrite length_firstn; lia). reflexivity.
Qed.

Lemma window_at_grow (window : nat) (xs : list F) (i : nat) :
  (S i < window)%nat -> (S i < length xs)%nat ->
  window_at window xs (S i) = window_at window xs i ++ [nth (S i) xs fnan].
Proof.
  intros Hw Hi. unfold window_at.
  replace (S (S i) - window)%nat with 0%nat by lia.
  replace (S i - window)%nat with 0%nat by lia.
  cbn [skipn]. apply firstn_succ. exact Hi.
Qed.

Lemma nth_firstn_below (xs : list F) (a n : nat) :
  (a < n)%nat -> nth a (firstn n xs) fnan = nth a xs fnan.
Proof.
  revert a n. induction xs as [|x xs IH]; intros a n Ha.
  - rewrite firstn_nil. reflexivity.
  - destruct n as [|n]; [lia|]. destruct a as [|a]; [reflexivity|].
    cbn [firstn nth]. apply IH. lia.
Qed.

Lemma window_at_slide (window : nat) (xs : list F) (i : nat) :
  (0 < window)%nat -> (window <= S i)%nat -> (S i < length xs)%nat ->
  exists rest,
    window_at window xs i = nth (S i - window) xs fnan :: rest /\
    window_at window xs (S i) = rest ++ [nth (S i) xs fnan].
Proof.
  intros Hw Hle Hi. unfold window_at.
  set (a := (S i - window)%nat).
  replace (S (S i) - window)%nat with (S a) by (unfold a; lia).
  assert (Ha : (a < S i)%nat) by (unfold a; lia).
  exists (skipn (S a) (firstn (S i) xs)). split.
  - rewrite (@skipn_nth (firstn (S i) xs) a) by (rewrite length_firstn; lia).
    rewrite (@nth_firstn_below xs a (S i) Ha). reflexivity.
  - rewrite (@firstn_succ xs _ Hi), skipn_app, length_firstn.
    replace (S a - Nat.min (S i) (length xs))%nat with 0%nat by lia.
    reflexivity.
Qed.

(** What one turn of the loop does to the state, by the size of the window. *)
Lemma roll_mean_step_first (values : list F) (window : nat) (st : MeanState) :
  (0 < length values)%nat ->
  roll_mean_step values window st 0 =
  match window with
  | O => mean_setup (nth 1 values fnan)
  | S _ => add_mean (mean_setup (nth 0 values fnan)) (nth 0 values fnan)
  end.
Proof.
  intros Hx. unfold roll_mean_step, window_start, window_end. cbn [Nat.eqb orb].
  destruct window as [|w].
  - rewrite slice_empty. reflexivity.
  - replace (1 - S w)%nat with 0%nat by lia. rewrite (@slice_single values 0 Hx). reflexivity.
Qed.

Lemma roll_mean_step_next (values : list F) (window : nat) (st : MeanState) (i : nat) :
  (S i < length values)%nat ->
  roll_mean_step values window st (S i) =
  match window with
  | O => mean_setup (nth (S (S i)) values fnan)
  | S O => add_mean (mean_setup (nth (S i) values fnan)) (nth (S i) values fnan)
  | _ =>
      let st := if (window <=? S i)%nat
                then remove_mean st (nth (S i - window) values fnan) else st in
      add_mean st (nth (S i) values fnan)
  end.
Proof.
  intros Hi. unfold roll_mean_step, window_start, window_end.
  cbn [Nat.eqb orb]. replace (S i - 1)%nat with i by lia.
  destruct window as [|[|w]].
  - replace (S (S i) - 0)%nat with (S (S i)) by lia.
    destruct (Nat.leb_spec (S i) (S (S i))) as [_|Hc]; [|lia].
    rewrite slice_empty. reflexivity.
  - replace (S (S i) - 1)%nat with (S i) by lia.
    rewrite Nat.leb_refl, (@slice_single values (S i) Hi). reflexivity.
  - destruct (Nat.leb_spec (S i) (S (S i) - S (S w))) as [Hc|_]; [lia|].
    rewrite (@slice_single values (S i) Hi). cbn [fold_left].
    destruct (Nat.leb_spec (S (S w)) (S i)) as [Hle|Hgt].
    + replace (S (S i) - S (S w))%nat with (S (S i - S (S w))) by lia.
      rewrite slice_single by lia. reflexivity.
    + replace (S (S i) - S (S w))%nat with 0%nat by lia.
      replace (S i - S (S w))%nat with 0%nat by lia.
      rewrite slice_empty. reflexivity.
Qed.

(** A property of the history since the last set-up, of the window and of
    the state that setting up, adding and removing preserve holds at every
    position, of the window that ends there. *)
Lemma roll_mean_window_invariant (values : list F) (window : nat)
  (P : list F -> list F -> MeanState -> Prop) :
  (forall p, P [] [] (mean_setup p)) ->
  (forall H W st x, In x values -> P H W st -> P (H ++ [x]) (W ++ [x]) (add_mean st x)) ->
  (forall H W st x, In x values -> P H (x :: W) st -> P H W (remove_mean st x)) ->
  forall st0 i, (i < length values)%nat ->
  exists st H,
    nth_error (roll_states values window st0 (seq 0 (length values))) i = Some st /\
    P H (window_at window values i) st.
Proof.
  intros P0 Padd Prem st0 i Hi.
  destruct (@roll_states_invariant values window
              (fun i st => exists H, P H (window_at window values i) st))
    with (st0 := st0) (i := i) as [st [E [H' HP]]]; [| |exact Hi|].
  - intros st Hx. rewrite (@roll_mean_step_first values window st Hx).
    destruct window as [|w].
    + exists []. rewrite window_at_zero. apply P0.
    + exists ([] ++ [nth 0 values fnan]).
      rewrite window_at_first by lia.
      apply (Padd [] []); [apply nth_In; exact Hx|apply P0].
  - intros j st Hj [H' HP]. rewrite (@roll_mean_step_next values window st j Hj).
    assert (Hin : In (nth (S j) values fnan) values) by (apply nth_In; exact Hj).
    destruct window as [|[|w]].
    + exists []. rewrite window_at_zero. apply P0.
    + exists ([] ++ [nth (S j) values fnan]). rewrite window_at_one by exact Hj.
      apply (Padd [] []); [exact Hin|apply P0].
    + cbv zeta. destruct (Nat.leb_spec (S (S w)) (S j)) as [Hle|Hgt].
      * destruct (@window_at_slide (S (S w)) values j) as [rest [E1 E2]]; [lia|lia|exact Hj|].
        rewrite E1 in HP. rewrite E2. exists (H' ++ [nth (S j) values fnan]).
        apply Padd; [exact Hin|]. apply Prem; [apply nth_In; lia|exact HP].
      * rewrite (@window_at_grow (S (S w)) values j Hgt Hj).
        exists (H' ++ [nth (S j) values fnan]). apply Padd; [exact Hin|exact HP].
  - exists st, H'. split; [exact E|exact HP].
Qed.
End RollFacts.

Section RollNobs.
Context {F : Type} `{Num F}.
Local Open Scope num_scope.

Lemma observations_app (xs ys : list F) :
  observations (xs ++ ys) = observations xs ++ observations ys.
Proof. unfold observations. apply filter_app. Qed.

Lemma observations_single (x : F) :
  observations [x] = if x == x then [x] else [].
Proof. unfold observations, isnan. cbn [filter]. destruct (x == x); reflexivity. Qed.

Lemma nth_error_roll_mean (values : list F) (window : nat) (minp : Z) (i : nat) (v : F) :
  nth_error (roll_mean values window minp) i = Some v ->
  exists st,
    nth_error (roll_states values window (mean_setup fnan) (seq 0 (length values))) i
      = Some st /\
    v = calc_mean minp st.
Proof.
  unfold roll_mean. rewrite roll_mean_loop_states, nth_error_map.
  destruct (nth_error _ i) as [st|]; [|discriminate].
  cbn [option_map]. intros [= <-]. exists st. split; reflexivity.
Qed.

(** The loop keeps count of the observations of the window. *)
Lemma roll_mean_nobs (values : list F) (window : nat) (st0 : MeanState) (i : nat) :
  (i < length values)%nat ->
  exists st,
    nth_error (roll_states values window st0 (seq 0 (length values))) i = Some st /\
    nobs st = Z.of_nat (length (observations (window_at window values i))).
Proof.
  intros Hi.
  destruct (@roll_mean_window_invariant F _ values window
              (fun _ W st => nobs st = Z.of_nat (length (observations W))))
    with (st0 := st0) (i := i) as [st [_ [E HP]]]; [| | |exact Hi|].
  - intros p. reflexivity.
  - intros _ W st x _ HP. rewrite observations_app, length_app, observations_single.
    unfold add_mean. destruct (x == x); cbn [nobs length]; rewrite HP; lia.
  - intros _ W st x _ HP.
    change (x :: W) with ([x] ++ W) in HP.
    rewrite observations_app, length_app, observations_single in HP.
    unfold remove_mean. destruct (x == x); cbn [nobs length] in *; lia.
  - exists st. split; [exact E|exact HP].
Qed.

Lemma length_window_at (window : nat) (xs : list F) (i : nat) :
  (length (window_at window xs i) <= S i)%nat.
Proof.
  unfold window_at. rewrite length_skipn, length_firstn. lia.
Qed.

Lemma length_observations (xs : list F) : (length (observations xs) <= length xs)%nat.
Proof. unfold observations. apply filter_length_le. Qed.

Lemma length_prep_values (xs : list F) : length (prep_values xs) = length xs.
Proof. unfold prep_values. apply length_map. Qed.

Lemma rolling_mean_length (window : Z) (minp : option Z) (xs out : list F) :
  rolling_mean window minp xs = Some out -> length out = length xs.
Proof.
  unfold rolling_mean. destruct (_ || _); [discriminate|]. intros [= <-].
  rewrite length_roll_mean. apply length_prep_values.
Qed.

(** With [min_periods] left at the window size, a position that has fewer
    than [window] values behind it is NaN. *)
Lemma rolling_mean_warmup (window : Z) (xs out : list F) (i : nat) (v : F) :
  rolling_mean window None xs = Some out ->
  nth_error out i = Some v ->
  (Z.of_nat (S i) < window)%Z ->
  v = fnan.
Proof.
  unfold rolling_mean. destruct (_ || _); [discriminate|]. intros [= <-] Hv Hlt.
  assert (Hi : (i < length (prep_values xs))%nat).
  { rewrite <- (length_roll_mean (prep_values xs) (Z.to_nat window) window).
    apply nth_error_Some. rewrite Hv. discriminate. }
  apply nth_error_roll_mean in Hv. destruct Hv as [st [Est ->]].
  destruct (@roll_mean_nobs (prep_values xs) (Z.to_nat window) (mean_setup fnan) i Hi)
    as [st' [Est' Hn]].
  rewrite Est in Est'. injection Est' as <-.
  pose proof (length_observations (window_at (Z.to_nat window) (prep_values xs) i)) as H1.
  pose proof (length_window_at (Z.to_nat window) (prep_values xs) i) as H2.
  unfold calc_mean. destruct (Z.leb_spec window (nobs st)) as [Hc|_]; [lia|reflexivity].
Qed.
End RollNobs.


(** An infinity is skipped like a NaN. *)
Example sma_skips_infinity :
  sma [infinity; 2%float] 2 = Some [nan; 2%float].
Proof. vm_compute. reflexivity. Qed.

(** The running sum is compensated: the mean of [0.1, 0.2, 0.3] is
    [0.19999999999999998], where the sum taken from the left gives
    [0.20000000000000004]. *)
Example sma_compensated_sum :
  sma [0.1; 0.2; 0.3]%float 3
    = Some [0.1; 0.15000000000000002; 0.19999999999999998]%float /\
  ((0.1 + 0.2 + 0.3) / 3 = 0.20000000000000004)%float.
Proof. vm_compute. split; reflexivity. Qed.

(** *** On-balance volume *)

Section DiffFacts.
Context {F : Type} `{Num F}.
Local Open Scope num_scope.

Lemma shift_1_cons (x : F) (xs : list F) :
  shift 1 (x :: xs) = fnan :: firstn (length xs) (x :: xs).
Proof.
  unfold shift. change (0 <=? 1)%Z with true. cbv iota.
  change (Z.to_nat 1) with 1%nat. change (length (x :: xs)) with (S (length xs)).
  change (Nat.min 1 (S (length xs))) with 1%nat.
  change (S (length xs) - 1)%nat with (length xs - 0)%nat.
  rewrite Nat.sub_0_r. reflexivity.
Qed.

Lemma diff_cons (x : F) (xs : list F) : diff (x :: xs) = (x - fnan) :: deltas x xs.
Proof.
  unfold diff. rewrite shift_1_cons. cbn [map2]. f_equal.
  revert x. induction xs as [|y ys IH]; intros x; [reflexivity|].
  cbn [length firstn map2 deltas]. f_equal. apply IH.
Qed.

End DiffFacts.

Section ObvFloat.
Local Open Scope num_scope.

Lemma mul_comm_float (x y : float) : (x * y = y * x)%float.
Proof.
  apply Prim2SF_inj. rewrite !mul_spec.
  destruct (Prim2SF x) as [sx|sx| |sx mx ex], (Prim2SF y) as [sy|sy| |sy my ey];
    simpl; rewrite ?(xorb_comm sx sy); try reflexivity.
  rewrite (Pos.mul_comm mx my), (Z.add_comm ex ey). reflexivity.
Qed.

Lemma sub_finite_not_nan (x y : float) :
  isfinite x = true -> isfinite y = true -> isnan (x - y) = false.
Proof.
  intros Hx Hy. rewrite isnan_float. apply FloatFacts.is_nan_false_SF.
  cbn [fsub float_Num]. rewrite sub_spec.
  apply FloatFacts.SFsub_fin_not_nan; apply FloatFacts.isfinite_SF; assumption.
Qed.

Lemma mul_finite_not_nan (x y : float) :
  isfinite x = true -> isfinite y = true -> isnan (x * y) = false.
Proof.
  intros Hx Hy. rewrite isnan_float. apply FloatFacts.is_nan_false_SF.
  cbn [fmul float_Num]. rewrite mul_spec.
  apply FloatFacts.SFmul_fin_not_nan; apply FloatFacts.isfinite_SF; assumption.
Qed.

Lemma np_sign_finite (x : float) : isnan x = false -> isfinite (np_sign x) = true.
Proof.
  intros Hx. unfold np_sign. rewrite Hx.
  destruct (x >? f0); [reflexivity|]. destruct (x <? f0); reflexivity.
Qed.

Lemma signed_volumes_not_nan (prev : float) (close volume : list float) :
  isfinite prev = true ->
  forallb isfinite close = true -> forallb isfinite volume = true ->
  forall x, In x (signed_volumes prev close volume) -> isnan x = false.
Proof.
  revert prev volume. induction close as [|c cs IH]; intros prev [|v vs] Hp Hc Hv x Hx;
    cbn [signed_volumes In] in Hx; try contradiction.
  cbn [forallb] in Hc, Hv. apply andb_true_iff in Hc. apply andb_true_iff in Hv.
  destruct Hc as [Hc Hcs], Hv as [Hv Hvs]. destruct Hx as [<-|Hx].
  - apply mul_finite_not_nan; [|exact Hv].
    apply np_sign_finite, sub_finite_not_nan; assumption.
  - exact (IH c vs Hc Hcs Hvs x Hx).
Qed.

Lemma contributions_signed_volumes (prev : float) (close volume : list float) :
  map2 fmul volume (map np_sign (deltas prev close)) = signed_volumes prev close volume.
Proof.
  revert prev volume. induction close as [|c cs IH]; intros prev [|v vs]; try reflexivity.
  cbn [deltas map map2 signed_volumes]. f_equal; [|apply IH].
  apply mul_comm_float.
Qed.

Lemma mask_no_nan (xs cs : list float) :
  (forall x, In x xs -> isnan x = false) -> length cs = length xs ->
  map2 (fun x c => if isnan x then fnan else c) xs cs = cs.
Proof.
  revert cs. induction xs as [|x xs IH]; intros [|c cs] Hall Hlen; try discriminate;
    [reflexivity|].
  cbn [map2]. rewrite (Hall x (or_introl eq_refl)). f_equal.
  apply IH; [intros y Hy; apply Hall; right; exact Hy|]. simpl in Hlen. lia.
Qed.

Lemma identity_no_nan (xs : list float) :
  (forall x, In x xs -> isnan x = false) ->
  map (fun x => if isnan x then f0 else x) xs = xs.
Proof.
  induction xs as [|x xs IH]; intros Hall; [reflexivity|].
  cbn [map]. rewrite (Hall x (or_introl eq_refl)). f_equal.
  apply IH. intros y Hy. apply Hall. right. exact Hy.
Qed.

Lemma length_accumulate_from {A : Type} (op : A -> A -> A) (acc : A) (xs : list A) :
  length (accumulate_from op acc xs) = length xs.
Proof.
  revert acc. induction xs as [|x xs IH]; intros acc; simpl; [reflexivity|].
  rewrite IH. reflexivity.
Qed.

(** C5, counterexample.  The first OBV value is NaN, not 0. *)
Lemma obv_first_is_nan :
  obv [10; 11; 12]%float [5; 6; 7]%float = [nan; 6; 13]%float /\
  obv_cumulative [10; 11; 12]%float [5; 6; 7]%float = [0; 6; 13]%float /\
  forallb isfinite [10; 11; 12; 5; 6; 7]%float = true.
Proof. vm_compute. repeat split. Qed.

(** C5, as amended.  For finite close and volume series of the same,
    non-zero length, OBV is NaN at the first position; from the second
    position on it is the cumulative sum of
    [sign(close[i] - close[i-1]) * volume[i]], to which the first bar
    contributes 0. *)
Theorem obv_is_cumulative_sum_after_first (close volume : list float) :
  forallb isfinite close = true ->
  forallb isfinite volume = true ->
  length close = length volume ->
  close <> [] ->
  obv close volume = nan :: tl (obv_cumulative close volume).
Proof.
  intros Hc Hv Hlen Hne.
  destruct close as [|c0 cs]; [congruence|].
  destruct volume as [|v0 vs]; [discriminate|].
  simpl in Hc, Hv. apply andb_true_iff in Hc. apply andb_true_iff in Hv.
  destruct Hc as [Hc0 Hcs], Hv as [Hv0 Hvs].
  assert (Hsv : forall x, In x (signed_volumes c0 cs vs) -> isnan x = false)
    by (apply signed_volumes_not_nan; assumption).
  unfold obv. rewrite diff_cons. cbn [map map2].
  rewrite contributions_signed_volumes.
  assert (Hfirst : isnan (v0 * np_sign (c0 - fnan)) = true).
  { apply isnan_mul_r. unfold np_sign.
    rewrite (isnan_sub_r c0 fnan isnan_fnan). apply isnan_sub_r, isnan_fnan. }
  unfold cumsum, obv_cumulative, np_cumsum, accumulate. cbn [map map2 tl].
  rewrite Hfirst. f_equal.
  rewrite (identity_no_nan _ Hsv).
  apply mask_no_nan; [exact Hsv|apply length_accumulate_from].
Qed.

Lemma obv_is_cumulative_sum_after_first_witness :
  obv [10; 11; 12]%float [5; 6; 7]%float
  = nan :: tl (obv_cumulative [10; 11; 12]%float [5; 6; 7]%float).
Proof.
  apply obv_is_cumulative_sum_after_first;
    [reflexivity|reflexivity|reflexivity|discriminate].
Defined.

End ObvFloat.

(** *** The relative strength index, in exact arithmetic *)

Section RsiExact.
Local Open Scope num_scope.

Lemma xdiv_fin (a b : Q) : ~ (b == 0)%Q -> (XFin a / XFin b)%num = XFin (a / b).
Proof.
  intros Hb. cbn. destruct (Qeq_bool b 0) eqn:E; [|reflexivity].
  apply Qeq_bool_iff in E. contradiction.
Qed.

Lemma xadd_fin (a b : Q) : (XFin a + XFin b)%num = XFin (a + b).
Proof. reflexivity. Qed.

Lemma xsub_fin (a b : Q) : (XFin a - XFin b)%num = XFin (a + - b).
Proof. reflexivity. Qed.

Lemma xmul_fin (a b : Q) : (XFin a * XFin b)%num = XFin (a * b).
Proof. reflexivity. Qed.

Lemma xltb_fin (a b : Q) : (XFin a <? XFin b)%num = true <-> (a < b)%Q.
Proof.
  cbn. unfold xltb. cbn. rewrite Qlt_alt.
  destruct (a ?= b)%Q; split; congruence.
Qed.


Lemma isnan_fin (q : Q) : isnan (XFin q) = false.
Proof.
  destruct (isnan (XFin q)) eqn:E; [|reflexivity].
  apply xq_isnan in E. discriminate.
Qed.








Lemma length_ewm_loop {F : Type} `{Num F} (a b : F) (adj : bool) (minp : nat)
  (st : F * F) (nobs : nat) (xs : list F) :
  length (ewm_loop a b adj minp st nobs xs) = length xs.
Proof.
  revert st nobs. induction xs as [|x xs IH]; intros st nobs; [reflexivity|].
  cbn [ewm_loop length]. rewrite IH. reflexivity.
Qed.

Lemma length_ewm_mean {F : Type} `{Num F} (com : F) (adj : bool) (minp : Z) (xs : list F) :
  length (ewm_mean com adj minp xs) = length xs.
Proof.
  unfold ewm_mean. destruct xs as [|x xs]; [reflexivity|].
  cbn [length]. rewrite length_ewm_loop. reflexivity.
Qed.


Lemma prep_values_fin (qs : list Q) : prep_values (map XFin qs) = map XFin qs.
Proof.
  unfold prep_values. rewrite map_map. apply map_ext. intros q. reflexivity.
Qed.






End RsiExact.

(** *** The relative strength index: the warm-up, and binary64 *)

Section RsiWarmup.
Context {F : Type} `{NanLaws F}.
Local Open Scope num_scope.

Lemma ewm_loop_warmup (a b : F) (adj : bool) (minp : nat) (xs : list F) :
  forall st nobs j v,
    nth_error (ewm_loop a b adj minp st nobs xs) j = Some v ->
    (nobs + S j < minp)%nat -> v = fnan.
Proof.
  induction xs as [|x xs IH]; intros st nobs j v Hj Hlt; [destruct j; discriminate|].
  cbn [ewm_loop] in Hj. destruct j as [|j].
  - cbn [nth_error] in Hj. injection Hj as <-.
    destruct (Nat.leb_spec minp (if isnan x then nobs else S nobs)); [|reflexivity].
    destruct (isnan x); lia.
  - cbn [nth_error] in Hj. eapply IH; [exact Hj|]. destruct (isnan x); lia.
Qed.

Lemma ewm_mean_warmup (com : F) (adj : bool) (min_periods : Z) (xs : list F) (j : nat) (v : F) :
  nth_error (ewm_mean com adj min_periods xs) j = Some v ->
  (Z.of_nat (S j) < min_periods)%Z -> v = fnan.
Proof.
  unfold ewm_mean. intros Hj Hlt. destruct xs as [|x xs]; [destruct j; discriminate|].
  destruct j as [|j].
  - cbn [nth_error] in Hj. injection Hj as <-.
    destruct (Nat.leb_spec (Z.to_nat (Z.max min_periods 1)) (if isnan x then 0 else 1)%nat);
      [|reflexivity].
    destruct (isnan x); lia.
  - cbn [nth_error] in Hj. eapply ewm_loop_warmup; [exact Hj|]. destruct (isnan x); lia.
Qed.

(** Whenever [rsi] returns, its first [period - 1] positions are NaN. *)
Lemma rsi_warmup (series : list F) (period : Z) (out : list F) (i : nat) (v : F) :
  rsi series period = Some out ->
  nth_error out i = Some v ->
  (Z.of_nat (S i) < period)%Z ->
  isnan v = true.
Proof.
  unfold rsi, ewm_alpha. intros Hr Hv Hlt.
  destruct (period =? 0)%Z; [discriminate|].
  destruct (_ || _); [discriminate|].
  injection Hr as <-.
  rewrite nth_error_map, nth_error_map2 in Hv.
  destruct (nth_error (ewm_mean _ _ _
                         (prep_values (map (fun d => if d >? f0 then d else f0) _))) i)
    as [g|] eqn:Eg; [|discriminate].
  destruct (nth_error (ewm_mean _ _ _
                         (prep_values (map (fun d => if d <? f0 then - d else f0) _))) i)
    as [l|] eqn:El; [|discriminate].
  cbn [option_map] in Hv. injection Hv as <-.
  apply ewm_mean_warmup in Eg; [|exact Hlt]. subst g.
  apply isnan_sub_r, isnan_div_r, isnan_add_r, isnan_div_l, isnan_fnan.
Qed.

End RsiWarmup.


(** A difference that overflows is not smoothed: the window routines take an
    infinity for a missing value. *)
Example rsi_infinite_difference_is_missing :
  rsi [-1.5e308; 1.5e308; -1.5e308]%float 2 = Some [nan; nan; 0]%float /\
  diff [-1.5e308; 1.5e308; -1.5e308]%float = [nan; infinity; neg_infinity].
Proof. vm_compute. split; reflexivity. Qed.

(** *** The win rate, in exact arithmetic *)

(** The quotient of the two counts is a finite number that is not negative,
    and it is at most 1 when every positive strategy return is larger than
    [1e-6].  (In binary64 the quotient is the same rational, rounded.) *)
Lemma win_rate_exact_bounds (sr : list xq) :
  exists q,
    win_rate sr = XFin q /\
    (0 <= q)%Q /\
    ((forall r, In r sr -> (r >? f0)%num = true -> (fabs r >? lit_1e_6)%num = true) ->
     (q <= 1)%Q).
Proof.
  unfold win_rate.
  assert (Hw : (0 <= wins sr)%Z) by apply count_true_nonneg.
  set (w := wins sr) in *. set (m := Z.max (total_trades sr) 1).
  assert (Hm : (1 <= m)%Z) by (unfold m; lia).
  assert (Hm0 : ~ (inject_Z m == 0)%Q).
  { change 0%Q with (inject_Z 0). rewrite inject_Z_injective. lia. }
  assert (Hmpos : (0 < inject_Z m)%Q).
  { change 0%Q with (inject_Z 0). rewrite <- Zlt_Qlt. lia. }
  assert (Hwq : (0 <= inject_Z w)%Q).
  { change 0%Q with (inject_Z 0). rewrite <- Zle_Qle. exact Hw. }
  change (f_of_Z w / f_of_Z m)%num with (XFin (inject_Z w) / XFin (inject_Z m))%num.
  rewrite (xdiv_fin _ Hm0). eexists. split; [reflexivity|]. split.
  - apply Qle_shift_div_l; [exact Hmpos|]. lra.
  - intros Hall. apply Qle_shift_div_r; [exact Hmpos|].
    rewrite Qmult_1_l, <- Zle_Qle. unfold w, m, wins, total_trades.
    pose proof (count_true_le (fun r : xq => (r >? f0)%num)
                  (fun r : xq => (fabs r >? lit_1e_6)%num) sr Hall). lia.
Qed.

(** * Further results

    Properties of the functions above, and of the functions next to them in
    the two source files, that the code shows by itself. *)

(** ** The metrics evaluator *)

Section MetricsShape.
Context {F : Type} `{Num F} `{Sqrt F}.
Local Open Scope string_scope.
Local Open Scope num_scope.

Lemma broadcast2_none {A B C : Type} (f : A -> B -> C) (xs : list A) (ys : list B) :
  broadcast2 f xs ys = None <->
  (length xs <> length ys /\ length xs <> 1 /\ length ys <> 1)%nat.
Proof.
  unfold broadcast2. destruct (Nat.eqb_spec (length xs) (length ys)) as [E|E].
  - split; [discriminate|]. intros [Hne _]. contradiction.
  - destruct xs as [|x [|x' xs]]; destruct ys as [|y [|y' ys]]; simpl in *;
      split; try discriminate; try (intros [_ [H1 H2]]; congruence);
      try (intros _; repeat split; congruence); try congruence.
Qed.

Lemma length_broadcast2 {A B C : Type} (f : A -> B -> C) (xs : list A) (ys : list B) zs :
  length xs = length ys -> broadcast2 f xs ys = Some zs -> length zs = length ys.
Proof.
  intros E. unfold broadcast2. rewrite E, Nat.eqb_refl. intros [= <-].
  revert ys E. induction xs as [|x xs IH]; intros [|y ys] E; simpl in *; try congruence.
  f_equal. apply IH. congruence.
Qed.

(** X1.  [calculate_trading_metrics] raises (the [ValueError] of NumPy's
    broadcasting, at [positions * returns]) exactly when [y_pred] and
    [returns] have different lengths and neither has length 1; for every
    other input it returns a report. *)
Theorem metrics_raise_on_shape_mismatch (ps : PredictionSet F) :
  calculate_trading_metrics ps = None <->
  (length (y_pred ps) <> length (returns ps) /\
   length (y_pred ps) <> 1 /\ length (returns ps) <> 1)%nat.
Proof.
  rewrite <- (length_map (fun y => 2 * y - 1)%Z (y_pred ps)).
  change (map (fun y => 2 * y - 1)%Z (y_pred ps)) with (positions (y_pred ps)).
  rewrite <- (broadcast2_none (fun p r => f_of_Z p * r)).
  split.
  - intros E. destruct (strategy_returns ps) as [sr|] eqn:Es.
    + destruct (calculate_trading_metrics_some ps Es) as [r Er]. congruence.
    + unfold strategy_returns in Es. destruct (broadcast2 _ _ _); [discriminate|reflexivity].
  - intros E. unfold calculate_trading_metrics, strategy_returns. rewrite E. reflexivity.
Qed.

(** X2.  Every report that [calculate_trading_metrics] returns, on either
    path, has the same nine keys in the same order. *)
Theorem report_keys_complete (ps : PredictionSet F) (report : MetricsReport F) :
  calculate_trading_metrics ps = Some report ->
  map fst report =
    [ "sharpe_ratio"; "max_drawdown"; "win_rate"; "profit_factor"; "total_trades";
      "avg_return"; "volatility"; "calmar_ratio"; "sortino_ratio" ].
Proof.
  unfold calculate_trading_metrics.
  destruct (strategy_returns ps) as [sr|]; [|discriminate].
  destruct (length sr =? 0)%nat; [intros [= <-]; reflexivity|].
  destruct (max_drawdown sr); [|discriminate].
  intros [= <-]. reflexivity.
Qed.

(** [np.clip(x, lo, hi)] with bounds that are numbers, [lo <= hi]: the result
    is within the bounds unless it is NaN. *)
Lemma np_clip_range (x lo hi : F) :
  (lo <=? lo) = true -> (lo <=? hi) = true -> (hi <=? hi) = true ->
  isnan (np_clip x lo hi) = true \/
  ((lo <=? np_clip x lo hi) = true /\ (np_clip x lo hi <=? hi) = true).
Proof.
  intros Hlo Hlh Hhi. unfold np_clip, np_minimum, np_maximum.
  destruct (lo <=? x) eqn:E1; cbn [orb].
  - destruct (x <=? hi) eqn:E2; cbn [orb]; [right; auto|].
    destruct (isnan x) eqn:En; [left; assumption|right; auto].
  - destruct (isnan x) eqn:En.
    + rewrite En, Bool.orb_true_r. left. assumption.
    + rewrite Hlh. cbn [orb]. right. auto.
Qed.
End MetricsShape.

Lemma report_keys_complete_witness :
  exists report,
    calculate_trading_metrics
      {| y_true := [1%Z; 0%Z]; y_pred := [1%Z; 0%Z]; y_proba := [1%float; 0%float];
         returns := [0.01%float; 0.02%float] |} = Some report /\
    map fst report =
      [ "sharpe_ratio"; "max_drawdown"; "win_rate"; "profit_factor"; "total_trades";
        "avg_return"; "volatility"; "calmar_ratio"; "sortino_ratio" ]%string.
Proof.
  eexists. split; [reflexivity|].
  apply (@report_keys_complete float _ _
           {| y_true := [1%Z; 0%Z]; y_pred := [1%Z; 0%Z]; y_proba := [1%float; 0%float];
              returns := [0.01%float; 0.02%float] |}).
  reflexivity.
Defined.

Section MetricsFloatMore.
Local Open Scope string_scope.
Local Open Scope num_scope.

(** With arrays of equal length, the strategy returns are the products
    [positions * returns] after [np.nan_to_num]: one per prediction. *)
Lemma strategy_returns_equal_lengths (ps : PredictionSet float) :
  length (y_pred ps) = length (returns ps) ->
  exists prod,
    strategy_returns ps = Some (map (np_nan_to_num f0) prod) /\
    length prod = length (returns ps).
Proof.
  intros E.
  destruct (broadcast2 (fun p r => f_of_Z p * r) (positions (y_pred ps)) (returns ps))
    as [prod|] eqn:Eb.
  2:{ apply broadcast2_none in Eb. unfold positions in Eb. rewrite length_map in Eb.
      destruct Eb as [Hne _]. contradiction. }
  exists prod. split.
  - apply strategy_returns_float. exists prod. split; [exact Eb|reflexivity].
  - apply (length_broadcast2 (fun p r => f_of_Z p * r) (positions (y_pred ps)));
      [unfold positions; rewrite length_map; exact E|exact Eb].
Qed.

(** X3.  The finiteness filter of lines 153-154 never removes an entry:
    with [y_pred] and [returns] of equal length there are as many strategy
    returns as predictions, whatever NaN or infinity the returns hold, and
    the default report is returned only for empty arrays. *)
Theorem finite_filter_keeps_every_entry (ps : PredictionSet float) :
  length (y_pred ps) = length (returns ps) ->
  exists sr report,
    strategy_returns ps = Some sr /\
    length sr = length (returns ps) /\
    calculate_trading_metrics ps = Some report /\
    (report = default_report <-> returns ps = []).
Proof.
  intros E.
  destruct (strategy_returns_equal_lengths ps E) as [prod [Es Hlen]].
  exists (map (np_nan_to_num f0) prod).
  unfold calculate_trading_metrics. rewrite Es.
  destruct prod as [|p prod'].
  - exists default_report. split; [reflexivity|]. split; [exact Hlen|].
    split; [reflexivity|]. split; [|reflexivity].
    intros _. destruct (returns ps); [reflexivity|discriminate Hlen].
  - destruct (@max_drawdown_some float _ (map (np_nan_to_num f0) (p :: prod')))
      as [d Ed]; [discriminate|].
    cbn [map length Nat.eqb] in *. rewrite Ed. eexists.
    split; [reflexivity|]. split; [rewrite length_map; exact Hlen|].
    split; [reflexivity|]. split.
    + intros Hd. discriminate Hd.
    + intros Hr. rewrite Hr in Hlen. discriminate Hlen.
Qed.

Lemma finite_filter_keeps_every_entry_witness :
  exists sr report,
    strategy_returns
      {| y_true := [1%Z; 0%Z; 1%Z]; y_pred := [1%Z; 0%Z; 1%Z];
         y_proba := [1%float; 0%float; 1%float];
         returns := [nan; infinity; 0.01%float] |} = Some sr /\
    length sr = 3%nat /\
    calculate_trading_metrics
      {| y_true := [1%Z; 0%Z; 1%Z]; y_pred := [1%Z; 0%Z; 1%Z];
         y_proba := [1%float; 0%float; 1%float];
         returns := [nan; infinity; 0.01%float] |} = Some report /\
    report <> default_report.
Proof.
  destruct (@finite_filter_keeps_every_entry
              {| y_true := [1%Z; 0%Z; 1%Z]; y_pred := [1%Z; 0%Z; 1%Z];
                 y_proba := [1%float; 0%float; 1%float];
                 returns := [nan; infinity; 0.01%float] |} eq_refl)
    as [sr [report [Es [Hl [Er Hd]]]]].
  exists sr, report. split; [exact Es|]. split; [exact Hl|]. split; [exact Er|].
  intros Heq. apply Hd in Heq. discriminate Heq.
Defined.

(** X4.  The four clipped entries of a report: [sharpe_ratio],
    [calmar_ratio] and [sortino_ratio] are in [[-10, 10]] and
    [profit_factor] is in [[0, 10]], unless the entry is NaN ([np.clip] lets
    NaN through). *)
Theorem clipped_ratios_in_range (ps : PredictionSet float) (report : MetricsReport float) :
  calculate_trading_metrics ps = Some report ->
  exists sharpe pf calmar sortino,
    lookup "sharpe_ratio" report = Some sharpe /\
    lookup "profit_factor" report = Some pf /\
    lookup "calmar_ratio" report = Some calmar /\
    lookup "sortino_ratio" report = Some sortino /\
    in_range_or_nan (-10) 10 (pyval_num sharpe) /\
    in_range_or_nan 0 10 (pyval_num pf) /\
    in_range_or_nan (-10) 10 (pyval_num calmar) /\
    in_range_or_nan (-10) 10 (pyval_num sortino).
Proof.
  unfold calculate_trading_metrics.
  destruct (strategy_returns ps) as [sr|]; [|discriminate].
  destruct (length sr =? 0)%nat.
  - intros [= <-]. exists (PyInt 0), (PyInt 1), (PyInt 0), (PyInt 0).
    repeat split; try reflexivity; right; split; reflexivity.
  - destruct (max_drawdown sr) as [d|]; [|discriminate].
    intros [= <-]. do 4 eexists.
    repeat (split; [reflexivity|]).
    repeat split; apply np_clip_range; reflexivity.
Qed.

Lemma clipped_ratios_in_range_witness :
  exists report sharpe,
    calculate_trading_metrics
      {| y_true := [1%Z; 0%Z]; y_pred := [1%Z; 0%Z]; y_proba := [1%float; 0%float];
         returns := [0.01%float; 0.02%float] |} = Some report /\
    lookup "sharpe_ratio" report = Some sharpe /\
    in_range_or_nan (-10) 10 (pyval_num sharpe).
Proof.
  destruct (@clipped_ratios_in_range
              {| y_true := [1%Z; 0%Z]; y_pred := [1%Z; 0%Z]; y_proba := [1%float; 0%float];
                 returns := [0.01%float; 0.02%float] |} _ eq_refl)
    as [sharpe [pf [calmar [sortino [L1 [_ [_ [_ [R1 _]]]]]]]]].
  eexists. exists sharpe. split; [reflexivity|]. split; [exact L1|exact R1].
Defined.

(** X5.  [total_trades] is an integer between 0 and the number of
    predictions. *)
Theorem total_trades_bounds (ps : PredictionSet float) (report : MetricsReport float) :
  length (y_pred ps) = length (returns ps) ->
  calculate_trading_metrics ps = Some report ->
  exists n, lookup "total_trades" report = Some (PyInt n) /\
            (0 <= n <= Z.of_nat (length (returns ps)))%Z.
Proof.
  intros E Hr.
  destruct (strategy_returns_equal_lengths ps E) as [prod [Es Hlen]].
  unfold calculate_trading_metrics in Hr. rewrite Es in Hr.
  destruct (length (map (np_nan_to_num f0) prod) =? 0)%nat.
  - injection Hr as <-. exists 0%Z. split; [reflexivity|lia].
  - destruct (max_drawdown (map (np_nan_to_num f0) prod)); [|discriminate Hr].
    injection Hr as <-.
    exists (total_trades (map (np_nan_to_num f0) prod)). split; [reflexivity|].
    unfold total_trades, count_true. rewrite <- Hlen.
    pose proof (filter_length_le (fun b : bool => b)
                  (map (fun r => fabs r >? lit_1e_6) (map (np_nan_to_num f0) prod))) as Hf.
    rewrite !length_map in Hf. lia.
Qed.

Lemma total_trades_bounds_witness :
  exists report n,
    calculate_trading_metrics
      {| y_true := [1%Z; 0%Z]; y_pred := [1%Z; 0%Z]; y_proba := [1%float; 0%float];
         returns := [0.01%float; 0.02%float] |} = Some report /\
    lookup "total_trades" report = Some (PyInt n) /\ (0 <= n <= 2)%Z.
Proof.
  destruct (@total_trades_bounds
              {| y_true := [1%Z; 0%Z]; y_pred := [1%Z; 0%Z]; y_proba := [1%float; 0%float];
                 returns := [0.01%float; 0.02%float] |} _ eq_refl eq_refl)
    as [n [L B]].
  eexists. exists n. split; [reflexivity|]. split; [exact L|exact B].
Defined.
End MetricsFloatMore.

(** ** The indicators *)

Section EmaFacts.
Context {F : Type} `{Num F}.
Local Open Scope num_scope.

(** Smoothing a value that equals the running mean leaves the mean as it is:
    pandas skips the update when [weighted == cur]. *)
Lemma ewm_loop_constant (a b : F) (x w : F) (nobs : nat) (n : nat) :
  isnan x = false -> (1 <= nobs)%nat ->
  ewm_loop a b false 1 (x, w) nobs (repeat x n) = repeat x n.
Proof.
  intros Hx. revert w nobs. induction n as [|n IH]; intros w nobs Hn; [reflexivity|].
  cbn [repeat ewm_loop]. unfold ewm_step. rewrite Hx. cbn [negb].
  assert (Hxx : (x == x) = true).
  { unfold isnan in Hx. destruct (x == x); [reflexivity|discriminate Hx]. }
  rewrite Hxx. cbn [negb fst].
  destruct (Nat.leb_spec 1 (S nobs)) as [_|Hc]; [|lia].
  f_equal. apply IH. lia.
Qed.

(** Preparing the values leaves a series without infinities as it is. *)
Lemma prep_values_repeat (x : F) (n : nat) :
  isinf x = false -> prep_values (repeat x n) = repeat x n.
Proof.
  intros Hx. unfold prep_values. induction n as [|n IH]; [reflexivity|].
  cbn [repeat map]. rewrite Hx. f_equal. exact IH.
Qed.

(** X7.  [ema] has no warm-up: for [period >= 1] and a series that starts
    with a finite value, its first value is the first value of the series
    itself, whatever the period. *)
Theorem ema_starts_at_first_value (x : F) (rest : list F) (period : Z) :
  (1 <= period)%Z -> isnan x = false -> isinf x = false ->
  exists out, ema (x :: rest) period = Some (x :: out) /\ length out = length rest.
Proof.
  intros Hp Hx Hi. unfold ema, ewm_span.
  destruct (Z.ltb_spec period 1) as [Hlt|_]; [lia|].
  unfold prep_values. cbn [map]. rewrite Hi.
  unfold ewm_mean. rewrite Hx. cbn [Z.max Z.to_nat Pos.to_nat Pos.iter_op Nat.leb].
  eexists. split; [reflexivity|]. rewrite length_ewm_loop. apply length_map.
Qed.

(** X8.  The exponential moving average of a constant series of a finite
    value is that series, exactly: no rounding accumulates, in any
    arithmetic. *)
Theorem ema_of_constant_series (x : F) (n : nat) (period : Z) :
  (1 <= period)%Z -> isnan x = false -> isinf x = false ->
  ema (repeat x n) period = Some (repeat x n).
Proof.
  intros Hp Hx Hi. unfold ema, ewm_span.
  destruct (Z.ltb_spec period 1) as [Hlt|_]; [lia|].
  rewrite (@prep_values_repeat x n Hi).
  f_equal. destruct n as [|n]; [reflexivity|].
  cbn [repeat]. unfold ewm_mean. rewrite Hx.
  cbn [Z.max Z.to_nat Pos.to_nat Pos.iter_op Nat.leb].
  f_equal. apply ewm_loop_constant; [exact Hx|lia].
Qed.

End EmaFacts.

Lemma ema_starts_at_first_value_witness :
  exists out, ema [10; 13]%float 2 = Some (10%float :: out) /\ length out = 1%nat.
Proof.
  apply (@ema_starts_at_first_value float _ 10%float [13%float] 2);
    [lia|reflexivity|reflexivity].
Defined.

Lemma ema_of_constant_series_witness :
  ema (repeat 0.1%float 4) 3 = Some (repeat 0.1%float 4).
Proof.
  apply (@ema_of_constant_series float _ 0.1%float 4 3); [lia|reflexivity|reflexivity].
Defined.

(** *** The moving-average recurrence, in exact arithmetic *)

Section EmaExact.
Local Open Scope num_scope.

Lemma xeqb_fin (a b : Q) : (XFin a == XFin b)%num = true <-> (a == b)%Q.
Proof.
  cbn. unfold xeqb. cbn. rewrite Qeq_alt.
  destruct (a ?= b)%Q; split; congruence.
Qed.

Lemma ewm_loop_recurrence (alpha' alpha : Q) (w prev : Q) (nobs : nat) (qs : list Q) :
  (alpha' == alpha)%Q -> (w == prev)%Q -> (1 <= nobs)%nat ->
  exists out,
    ewm_loop (XFin (1 + - alpha')) (XFin alpha') false 1 (XFin w, XFin 1) nobs (map XFin qs)
      = map XFin out /\
    Forall2 Qeq out (ema_recurrence alpha prev qs).
Proof.
  intros Ha. revert w prev nobs.
  induction qs as [|c qs IH]; intros w prev nobs Hw Hn.
  - exists []. split; [reflexivity|constructor].
  - cbn [map ewm_loop ema_recurrence]. unfold ewm_step.
    rewrite !isnan_fin. cbn [negb].
    destruct (Nat.leb_spec 1 (S nobs)) as [_|Hc]; [|lia].
    destruct (XFin w == XFin c) eqn:Ewc; cbn [negb fst].
    + apply xeqb_fin in Ewc.
      destruct (IH w (alpha * c + (1 - alpha) * prev)%Q (S nobs)) as [out [Eo Ho]].
      { rewrite <- Ewc, <- Hw. ring. }
      { lia. }
      exists (w :: out). split; [cbn [map]; f_equal; exact Eo|].
      constructor; [|exact Ho]. rewrite <- Ewc, <- Hw. ring.
    + rewrite !xmul_fin, !xadd_fin.
      assert (Hden : ~ (1 * (1 + - alpha') + alpha' == 0)%Q) by lra.
      rewrite (xdiv_fin _ Hden).
      set (w' := ((1 * (1 + - alpha') * w + alpha' * c) / (1 * (1 + - alpha') + alpha'))%Q).
      assert (Hw' : (w' == alpha * c + (1 - alpha) * prev)%Q).
      { unfold w'. rewrite <- Ha, <- Hw. field. lra. }
      destruct (IH w' (alpha * c + (1 - alpha) * prev)%Q (S nobs) Hw') as [out [Eo Ho]];
        [lia|].
      exists (w' :: out). split; [cbn [map]; f_equal; exact Eo|].
      constructor; [exact Hw'|exact Ho].
Qed.

(** X11.  In exact arithmetic, on a series of finite values and for
    [period >= 1], [ema] computes the recurrence [EMA[0] = series[0]],
    [EMA[i] = alpha * series[i] + (1 - alpha) * EMA[i-1]] with
    [alpha = 2 / (period + 1)]. *)
Theorem ema_exact_recurrence (qs : list Q) (period : Z) :
  (1 <= period)%Z ->
  exists out,
    ema (map XFin qs) period = Some (map XFin out) /\
    Forall2 Qeq out (ema_reference period qs).
Proof.
  intros Hp. unfold ema, ewm_span.
  destruct (Z.ltb_spec period 1) as [Hlt|_]; [lia|].
  assert (Hpq : (1 <= inject_Z period)%Q).
  { change 1%Q with (inject_Z 1). rewrite <- Zle_Qle. exact Hp. }
  assert (Hinj : (inject_Z (period - 1) == inject_Z period - 1)%Q).
  { unfold Qeq. simpl. lia. }
  assert (H2 : ~ (inject_Z 2 == 0)%Q) by (change (inject_Z 2) with 2%Q; lra).
  change (@f_of_Z xq _ (period - 1)) with (XFin (inject_Z (period - 1))).
  change (@f_of_Z xq _ 2) with (XFin (inject_Z 2)).
  rewrite (xdiv_fin _ H2).
  rewrite prep_values_fin.
  destruct qs as [|q qs]; [exists []; split; [reflexivity|constructor]|].
  cbn [map]. unfold ewm_mean. rewrite isnan_fin.
  cbn [Z.max Z.to_nat Pos.to_nat Pos.iter_op Nat.leb].
  change (@f1 xq _) with (XFin 1).
  set (com := (inject_Z (period - 1) / inject_Z 2)%Q).
  assert (Hcom : (com == (inject_Z period - 1) / 2)%Q).
  { unfold com. rewrite Hinj. reflexivity. }
  assert (Hd : ~ (1 + com == 0)%Q).
  { rewrite Hcom. intros E.
    assert ((inject_Z period - 1) / 2 >= 0)%Q by (apply Qle_shift_div_l; lra). lra. }
  rewrite xadd_fin, (xdiv_fin _ Hd), xsub_fin.
  destruct (@ewm_loop_recurrence (1 / (1 + com))%Q (2 / (inject_Z period + 1))%Q
              q q 1 qs) as [out [Eo Ho]].
  - rewrite Hcom. field; repeat split; lra.
  - reflexivity.
  - lia.
  - exists (q :: out). split; [cbn [map]; do 2 f_equal; exact Eo|].
    constructor; [reflexivity|exact Ho].
Qed.
End EmaExact.

Lemma ema_exact_recurrence_witness :
  exists out,
    ema [XFin 10; XFin 13] 2 = Some (map XFin out) /\
    Forall2 Qeq out [10; 12]%Q.
Proof.
  destruct (@ema_exact_recurrence [10; 13]%Q 2 ltac:(lia)) as [out [E Ho]].
  exists out. split; [exact E|].
  inversion Ho as [|a b l l' Hab Hl]; subst.
  inversion Hl as [|a' b' l2 l2' Hab' Hl']; subst. inversion Hl'; subst.
  constructor; [exact Hab|]. constructor; [|constructor].
  rewrite Hab'. vm_compute. reflexivity.
Defined.

(** *** Warm-up *)

Section WarmupFacts.
Context {F : Type} `{Num F}.
Local Open Scope num_scope.

Lemma length_diff_series (xs : list F) : length (diff xs) = length xs.
Proof. unfold diff. rewrite length_map2, length_shift. apply Nat.min_id. Qed.

(** X12.  [atr] raises exactly for a negative period; otherwise it returns
    a series as long as its inputs whose first [period - 1] values are NaN
    (the rolling mean requires a full window). *)
Theorem atr_warmup (high low close : list F) (period : Z) :
  length high = length close -> length low = length close ->
  (atr high low close period = None <-> (period < 0)%Z) /\
  forall out, atr high low close period = Some out ->
    length out = length close /\
    forall i v, nth_error out i = Some v -> (Z.of_nat (S i) < period)%Z -> v = fnan.
Proof.
  intros Hh Hl. unfold atr. split.
  - unfold rolling_mean. rewrite Z.ltb_irrefl, Bool.orb_false_r, Bool.orb_diag.
    destruct (Z.ltb_spec period 0); split; try discriminate; try reflexivity; lia.
  - intros out E. split.
    + apply rolling_mean_length in E. rewrite E.
      rewrite !length_map2, length_combine, !length_map, !length_map2, length_shift. lia.
    + intros i v Hv Hlt. eapply rolling_mean_warmup; [exact E|exact Hv|exact Hlt].
Qed.
End WarmupFacts.

Lemma atr_warmup_witness :
  exists out,
    atr [11; 12; 13]%float [9; 10; 11]%float [10; 11; 12]%float 3 = Some out /\
    length out = 3%nat /\ nth_error out 1 = Some nan.
Proof.
  destruct (@atr_warmup float _ [11; 12; 13]%float [9; 10; 11]%float [10; 11; 12]%float 3
              eq_refl eq_refl) as [_ Hw].
  destruct (Hw [nan; nan; 2]%float) as [Hlen Hnan]; [vm_compute; reflexivity|].
  exists [nan; nan; 2]%float. split; [vm_compute; reflexivity|].
  split; [exact Hlen|]. rewrite (Hnan 1%nat nan eq_refl ltac:(lia)). reflexivity.
Defined.

Section RsiFloat.
Local Open Scope num_scope.

(** Binary64 has one NaN. *)
Lemma nan_unique (v : float) : isnan v = true -> v = nan.
Proof.
  rewrite isnan_float. intros Hn. apply FloatFacts.is_nan_SF in Hn.
  apply Prim2SF_inj. rewrite Hn. reflexivity.
Qed.

(** X13.  In binary64, whenever [rsi] returns, the result is as long as the
    series and NaN at every position below [period - 1]. *)
Theorem rsi_warmup_binary64 (series : list float) (period : Z) (out : list float) :
  rsi series period = Some out ->
  length out = length series /\
  forall i, (i < length series)%nat -> (Z.of_nat (S i) < period)%Z ->
            nth_error out i = Some nan.
Proof.
  intros E.
  assert (Hlen : length out = length series).
  { revert E. unfold rsi, ewm_alpha.
    destruct (period =? 0)%Z; [discriminate|].
    destruct (_ || _); [discriminate|]. intros [= <-].
    rewrite length_map, length_map2, !length_ewm_mean, !length_prep_values, !length_map,
      length_diff_series.
    apply Nat.min_id. }
  split; [exact Hlen|]. intros i Hi Hlt.
  destruct (nth_error out i) as [v|] eqn:Ev.
  - f_equal. apply nan_unique. eapply rsi_warmup; [exact E|exact Ev|exact Hlt].
  - apply nth_error_None in Ev. lia.
Qed.
End RsiFloat.

Lemma rsi_warmup_binary64_witness :
  exists out,
    rsi [10; 11; 12; 11]%float 3 = Some out /\
    length out = 4%nat /\ nth_error out 0 = Some nan /\ nth_error out 1 = Some nan.
Proof.
  eexists. split; [reflexivity|].
  destruct (@rsi_warmup_binary64 [10; 11; 12; 11]%float 3 _ eq_refl) as [Hlen Hnan].
  split; [exact Hlen|]. split; apply Hnan; simpl; lia.
Defined.

(** ** The feature table *)

Section DropnaFacts.
Context {F : Type} `{Num F}.
Local Open Scope string_scope.

Lemma nth_error_seq_0 (n i j : nat) : nth_error (seq 0 n) i = Some j -> j = i /\ (i < n)%nat.
Proof.
  intros E.
  assert (Hlt : (i < length (seq 0 n))%nat) by (apply nth_error_Some; rewrite E; discriminate).
  rewrite length_seq in Hlt. split; [|exact Hlt].
  pose proof (nth_error_nth _ _ 0%nat E) as Hn. rewrite seq_nth in Hn; [lia|exact Hlt].
Qed.

Lemma length_boolean_index {A : Type} (xs : list A) (mask : list bool) :
  (forall i, nth_error mask i = Some true -> (i < length xs)%nat) ->
  length (boolean_index xs mask) = length (filter (fun b : bool => b) mask).
Proof.
  unfold boolean_index. revert xs. induction mask as [|b mask IH]; intros xs Hm.
  - rewrite combine_nil. reflexivity.
  - destruct xs as [|x xs].
    + destruct b.
      * specialize (Hm 0%nat eq_refl). simpl in Hm. lia.
      * cbn [combine filter map length].
        assert (Hf : forall i, nth_error mask i = Some true -> False).
        { intros i Hi. specialize (Hm (S i) Hi). simpl in Hm. lia. }
        clear IH Hm. induction mask as [|b' mask IH]; [reflexivity|].
        destruct b'; [exfalso; exact (Hf 0%nat eq_refl)|].
        cbn [filter]. apply IH. intros i Hi. exact (Hf (S i) Hi).
    + assert (IH' := IH xs (fun i Hi => proj2 (Nat.succ_lt_mono _ _) (Hm (S i) Hi))).
      cbn [combine filter snd]. destruct b; cbn [map length filter]; rewrite IH'; reflexivity.
Qed.

Lemma row_notna_cell (columns : list (string * list (cell F))) (i : nat)
  (col : string * list (cell F)) :
  row_notna columns i = true -> In col columns ->
  exists c, nth_error (snd col) i = Some c /\ isna c = false.
Proof.
  unfold row_notna. rewrite forallb_forall. intros Hall Hin.
  specialize (Hall col Hin). destruct (nth_error (snd col) i) as [c|]; [|discriminate Hall].
  exists c. split; [reflexivity|]. destruct (isna c); [discriminate Hall|reflexivity].
Qed.

(** After [dropna] every column has one cell per remaining row, and no
    cell is missing. *)
Lemma dropna_rectangular_no_missing (df : DataFrame F) (name : string) (col : list (cell F)) :
  In (name, col) (df_columns (dropna df)) ->
  length col = nrows (dropna df) /\ forall c, In c col -> isna c = false.
Proof.
  intros Hin. unfold dropna in *. cbn [df_columns df_index nrows] in *.
  apply in_map_iff in Hin. destruct Hin as [col0 [Heq Hin0]]. injection Heq as <- <-.
  set (keep := map (row_notna (df_columns df)) (seq 0 (length (df_index df)))) in *.
  assert (Hkeep : forall i, nth_error keep i = Some true ->
                  (i < length (df_index df))%nat /\ row_notna (df_columns df) i = true).
  { intros i Hi. unfold keep in Hi. rewrite nth_error_map in Hi.
    destruct (nth_error (seq 0 _) i) as [j|] eqn:Ej; [|discriminate Hi].
    apply nth_error_seq_0 in Ej. destruct Ej as [-> Hlt].
    cbn [option_map] in Hi. injection Hi as Hi. split; assumption. }
  split.
  - unfold nrows. cbn [df_index]. rewrite !length_boolean_index; [reflexivity| |].
    + intros i Hi. apply Hkeep in Hi. tauto.
    + intros i Hi. apply Hkeep in Hi. destruct Hi as [_ Hrow].
      destruct (@row_notna_cell (df_columns df) i col0 Hrow Hin0) as [c [Hc _]].
      apply nth_error_Some. rewrite Hc. discriminate.
  - intros c Hc. apply In_boolean_index in Hc. destruct Hc as [i [Hci Hki]].
    apply Hkeep in Hki. destruct Hki as [_ Hrow].
    destruct (@row_notna_cell (df_columns df) i col0 Hrow Hin0) as [c' [Hc' Hna]].
    rewrite Hci in Hc'. injection Hc' as <-. exact Hna.
Qed.

Context `{Sqrt F} `{PandasLib F}.

(** X14.  The table [process_all_symbols] returns is rectangular and has
    no missing value: every column has as many cells as the table has rows,
    and no cell is NaN. *)
Theorem table_is_rectangular_without_nan (bars : list (Bar F)) (table : DataFrame F) :
  process_all_symbols bars = Some table ->
  forall name col, In (name, col) (df_columns table) ->
    length col = nrows table /\ forall c, In c col -> isna c = false.
Proof.
  unfold process_all_symbols.
  destruct (fold_right _ _ _) as [all_features|]; [|discriminate].
  destruct (concat all_features) as [combined|]; [|discriminate].
  intros [= <-] name col Hin.
  apply (@dropna_rectangular_no_missing combined name col Hin).
Qed.
End DropnaFacts.

Lemma table_is_rectangular_without_nan_witness :
  exists table col,
    @process_all_symbols float _ _ identity_lib (firstn 30 rising_bars) = Some table /\
    lookup "rsi_14"%string (df_columns table) = Some col /\
    length col = 9%nat /\
    forall c, In c col -> isna c = false.
Proof.
  destruct (@process_all_symbols float _ _ identity_lib (firstn 30 rising_bars)) as [table|] eqn:E;
    [|vm_compute in E; discriminate E].
  destruct (lookup "rsi_14"%string (df_columns table)) as [col|] eqn:L.
  2:{ exfalso. revert L. vm_compute in E. injection E as <-. vm_compute. discriminate. }
  exists table, col. split; [reflexivity|]. split; [exact L|].
  destruct (@table_is_rectangular_without_nan float _ _ identity_lib (firstn 30 rising_bars) table E
              "rsi_14"%string col (lookup_In _ _ L)) as [Hlen Hna].
  split; [|exact Hna]. rewrite Hlen.
  vm_compute in E. injection E as <-. reflexivity.
Defined.

Section UniqueFacts.

Lemma In_unique (x : string) (xs : list string) : In x (unique xs) <-> In x xs.
Proof.
  induction xs as [|y ys IH]; [reflexivity|]. cbn [unique]. split.
  - intros [<-|Hin]; [left; reflexivity|]. apply filter_In in Hin. right. apply IH, Hin.
  - intros [<-|Hin]; [left; reflexivity|].
    destruct (String.eqb y x) eqn:E.
    + apply String.eqb_eq in E. left. exact E.
    + right. apply filter_In. split; [apply IH, Hin|]. rewrite E. reflexivity.
Qed.

Lemma NoDup_unique (xs : list string) : NoDup (unique xs).
Proof.
  induction xs as [|y ys IH]; [constructor|]. cbn [unique]. constructor.
  - intros Hin. apply filter_In in Hin. destruct Hin as [_ Hne].
    rewrite String.eqb_refl in Hne. discriminate Hne.
  - apply NoDup_filter. exact IH.
Qed.

Lemma sum_filter_lengths_cons {A : Type} (key : A -> string) (keys : list string)
  (x : A) (xs : list A) :
  fold_right (fun s n => (length (filter (fun y => String.eqb (key y) s) (x :: xs)) + n)%nat)
    0%nat keys =
  (fold_right (fun s n => (length (filter (fun y => String.eqb (key y) s) xs) + n)%nat)
     0%nat keys + length (filter (String.eqb (key x)) keys))%nat.
Proof.
  induction keys as [|k ks IH]; [reflexivity|].
  cbn [fold_right]. rewrite IH. cbn [filter].
  destruct (String.eqb (key x) k); cbn [length]; lia.
Qed.

Lemma count_key_once (k : string) (keys : list string) :
  NoDup keys -> In k keys -> length (filter (String.eqb k) keys) = 1%nat.
Proof.
  induction keys as [|k' ks IH]; intros Hnd Hin; [contradiction|].
  inversion Hnd as [|k'' ks' Hnk Hnd']; subst. cbn [filter].
  destruct (String.eqb k k') eqn:E.
  - apply String.eqb_eq in E. subst k'. cbn [length]. f_equal.
    assert (Hnone : filter (String.eqb k) ks = []).
    { clear IH Hnd Hnd' Hin. induction ks as [|a ks IHk]; [reflexivity|].
      cbn [filter]. destruct (String.eqb k a) eqn:Ea.
      - apply String.eqb_eq in Ea. exfalso. apply Hnk. left. symmetry. exact Ea.
      - apply IHk. intros Hc. apply Hnk. right. exact Hc. }
    rewrite Hnone. reflexivity.
  - destruct Hin as [Hin|Hin]; [subst k'; rewrite String.eqb_refl in E; discriminate E|].
    apply IH; assumption.
Qed.

(** Splitting a list by the distinct keys of its elements loses and
    repeats nothing. *)
Lemma sum_filter_lengths {A : Type} (key : A -> string) (keys : list string) (xs : list A) :
  NoDup keys -> (forall x, In x xs -> In (key x) keys) ->
  fold_right (fun s n => (length (filter (fun x => String.eqb (key x) s) xs) + n)%nat)
    0%nat keys = length xs.
Proof.
  intros Hnd. induction xs as [|x xs IH]; intros Hin.
  - clear Hin. cbn [filter length]. induction keys as [|k ks IHk]; [reflexivity|].
    cbn [fold_right]. inversion Hnd; subst. rewrite IHk; [reflexivity|assumption].
  - rewrite sum_filter_lengths_cons, IH, count_key_once.
    + cbn [length]. lia.
    + exact Hnd.
    + apply Hin. left. reflexivity.
    + intros y Hy. apply Hin. right. exact Hy.
Qed.
End UniqueFacts.

Section AccountingFloat.
Context {L : PandasLib float}.
Local Open Scope string_scope.

(** In binary64 [engineer_features] returns a table for every input: one
    row per bar, and the 72 columns of [feature_table_columns]. *)
Lemma engineer_features_frame (bars : list (Bar float)) :
  exists columns,
    engineer_features bars =
      Some {| df_index := map Z.of_nat (seq 0 (length bars)); df_columns := columns |} /\
    map fst columns = feature_table_columns.
Proof.
  rewrite <- (length_sort_values_date bars).
  eexists. split; reflexivity.
Qed.

(** X15.  In binary64 [engineer_features] never raises: for every input it
    returns a table with one row per bar, labelled [0 .. n-1], and the same
    72 columns in the same order. *)
Theorem engineer_features_schema (bars : list (Bar float)) :
  exists columns,
    engineer_features bars =
      Some {| df_index := map Z.of_nat (seq 0 (length bars)); df_columns := columns |} /\
    map fst columns = feature_table_columns /\
    length columns = 72%nat.
Proof.
  destruct (engineer_features_frame bars) as [columns [E Hc]].
  exists columns. split; [exact E|]. split; [exact Hc|].
  rewrite <- (length_map fst), Hc. reflexivity.
Qed.

(** X18.  The column [macd_cross] is a copy of [macd_histogram]: both are
    [macd_line - signal_line]. *)
Theorem macd_cross_duplicates_histogram (bars : list (Bar float)) :
  exists table cells,
    engineer_features bars = Some table /\
    lookup "macd_histogram" (df_columns table) = Some cells /\
    lookup "macd_cross" (df_columns table) = Some cells.
Proof.
  eexists. eexists. split; [reflexivity|]. split; reflexivity.
Qed.

Lemma all_features_frames (bars : list (Bar float)) (syms : list string) :
  exists all_features,
    fold_right (fun sym acc =>
                  features <- engineer_features
                                (filter (fun b => String.eqb (symbol b) sym) bars) ;;
                  rest <- acc ;;
                  Some (features :: rest))
      (Some []) syms = Some all_features /\
    length all_features = length syms /\
    fold_right (fun df n => (nrows df + n)%nat) 0%nat all_features =
      fold_right (fun s n => (length (filter (fun b => String.eqb (symbol b) s) bars) + n)%nat)
        0%nat syms /\
    forall f, In f all_features -> map fst (df_columns f) = feature_table_columns.
Proof.
  induction syms as [|s syms IH].
  - exists []. repeat split. intros f [].
  - destruct IH as [rest [Er [Hl [Hn Hc]]]].
    destruct (engineer_features_frame (filter (fun b => String.eqb (symbol b) s) bars))
      as [columns [Ef Hcols]].
    cbn [fold_right]. rewrite Ef, Er. eexists. split; [reflexivity|].
    split; [cbn [length]; rewrite Hl; reflexivity|].
    split.
    + cbn [fold_right]. rewrite Hn. unfold nrows at 1. cbn [df_index].
      rewrite length_map, length_seq. reflexivity.
    + intros f [<-|Hin]; [exact Hcols|exact (Hc f Hin)].
Qed.

Lemma combined_frame (bars : list (Bar float)) :
  bars <> [] ->
  exists all_features combined,
    fold_right (fun sym acc =>
                  features <- engineer_features
                                (filter (fun b => String.eqb (symbol b) sym) bars) ;;
                  rest <- acc ;;
                  Some (features :: rest))
      (Some []) (unique (map (@symbol float) bars)) = Some all_features /\
    concat all_features = Some combined /\
    df_index combined = map Z.of_nat (seq 0 (length bars)) /\
    map fst (df_columns combined) = feature_table_columns.
Proof.
  intros Hne.
  destruct (all_features_frames bars (unique (map (@symbol float) bars)))
    as [all_features [Ef [Hl [Hn Hc]]]].
  rewrite (sum_filter_lengths (@symbol float)) in Hn.
  2:{ apply NoDup_unique. }
  2:{ intros b Hb. apply In_unique. apply in_map. exact Hb. }
  exists all_features.
  destruct all_features as [|first rest].
  { exfalso. destruct bars as [|b bars]; [congruence|]. discriminate Hl. }
  eexists. split; [exact Ef|]. split; [reflexivity|]. cbn [df_index df_columns].
  split; [rewrite Hn; reflexivity|].
  rewrite map_map. cbn [fst]. apply Hc. left. reflexivity.
Qed.

Lemma dropna_columns (df : DataFrame float) :
  map fst (df_columns (dropna df)) = map fst (df_columns df).
Proof. unfold dropna. cbn [df_columns]. rewrite map_map. reflexivity. Qed.

Lemma dropna_nrows (df : DataFrame float) (n : nat) :
  df_index df = map Z.of_nat (seq 0 n) -> (nrows (dropna df) <= n)%nat.
Proof.
  intros Hidx. apply (dropna_nrows_le df n 0 n Hidx).
  intros label Hin. destruct (dropna_labels df n label Hidx Hin) as [i [Hi [-> _]]]. lia.
Qed.

(** X16.  [process_all_symbols] raises (the [ValueError] of [pd.concat] on
    an empty list) exactly when the input has no row.  Otherwise it returns a
    table with the 72 columns of [engineer_features] and at most one row per
    input bar. *)
Theorem process_all_symbols_raises_iff_empty (bars : list (Bar float)) :
  (process_all_symbols bars = None <-> bars = []) /\
  forall table, process_all_symbols bars = Some table ->
    (nrows table <= length bars)%nat /\
    map fst (df_columns table) = feature_table_columns.
Proof.
  destruct bars as [|b bars].
  - split; [split; reflexivity|]. intros table Hp. discriminate Hp.
  - destruct (@combined_frame (b :: bars)) as [all_features [combined [Ef [Ec [Hi Hc]]]]];
      [discriminate|].
    unfold process_all_symbols. rewrite Ef, Ec.
    split; [split; discriminate|].
    intros table [= <-]. split.
    + apply dropna_nrows. exact Hi.
    + rewrite dropna_columns. exact Hc.
Qed.

(** X17.  The metadata accounts for every input bar:
    [total_samples + dropped_nan_rows] is the number of input rows,
    [symbols] is the number of distinct symbols, and [features] lists 66
    columns, none of which is a label or an identifier. *)
Theorem metadata_accounts_for_every_bar (bars : list (Bar float)) (md : FeatureMetadata) :
  process_all_symbols_metadata bars = Some md ->
  (Z.of_nat (total_samples md) + dropped_nan_rows md = Z.of_nat (length bars))%Z /\
  (0 <= dropped_nan_rows md)%Z /\
  symbols md = length (unique (map (@symbol float) bars)) /\
  feature_count md = 66%nat /\
  length (features md) = 66%nat /\
  (forall c, In c (features md) -> ~ In c exclude_cols) /\
  exists table, process_all_symbols bars = Some table /\ total_samples md = nrows table.
Proof.
  destruct bars as [|b bars]; [discriminate|].
  destruct (@combined_frame (b :: bars)) as [all_features [combined [Ef [Ec [Hi Hc]]]]];
    [discriminate|].
  unfold process_all_symbols_metadata, process_all_symbols. rewrite Ef, Ec.
  pose proof (@dropna_nrows combined _ Hi) as Hle.
  pose proof (dropna_columns combined) as Hd. rewrite Hc in Hd.
  assert (Hn : nrows combined = length (b :: bars)).
  { unfold nrows. rewrite Hi, length_map, length_seq. reflexivity. }
  remember (dropna combined) as kept eqn:Ek.
  remember (unique (map (@symbol float) (b :: bars))) as syms eqn:Es.
  intros [= <-]. cbn [total_samples dropped_nan_rows symbols feature_count features].
  rewrite Hd.
  split; [lia|]. split; [lia|]. split; [reflexivity|].
  split; [reflexivity|]. split; [reflexivity|]. split.
  - intros c Hin. apply filter_In in Hin. destruct Hin as [_ Hnot].
    unfold not_in in Hnot. intros Hex.
    assert (Hb : existsb (String.eqb c) exclude_cols = true).
    { apply existsb_exists. exists c. split; [exact Hex|apply String.eqb_refl]. }
    rewrite Hb in Hnot. discriminate Hnot.
  - eexists. split; reflexivity.
Qed.
End AccountingFloat.

Lemma metadata_accounts_for_every_bar_witness :
  exists md,
    @process_all_symbols_metadata float _ _ identity_lib (firstn 30 rising_bars) = Some md /\
    (Z.of_nat (total_samples md) + dropped_nan_rows md = 30)%Z /\
    total_samples md = 9%nat /\
    feature_count md = 66%nat.
Proof.
  destruct (@process_all_symbols_metadata float _ _ identity_lib (firstn 30 rising_bars))
    as [md|] eqn:E; [|vm_compute in E; discriminate E].
  destruct (@metadata_accounts_for_every_bar identity_lib (firstn 30 rising_bars) md E)
    as [Hsum [_ [_ [Hcount _]]]].
  exists md. split; [reflexivity|]. split; [exact Hsum|]. split; [|exact Hcount].
  vm_compute in E. injection E as <-. reflexivity.
Defined.

(** ** The order of the rows *)

Section SortFacts.
Context {F : Type}.

Lemma insert_by_date_perm (b : Bar F) (bs : list (Bar F)) :
  Permutation (insert_by_date b bs) (b :: bs).
Proof.
  induction bs as [|b' bs IH]; [reflexivity|]. cbn [insert_by_date].
  destruct (date b' <=? date b)%Z; [|reflexivity].
  rewrite IH. apply perm_swap.
Qed.

Lemma fold_insert_perm (bs acc : list (Bar F)) :
  Permutation (fold_left (fun acc b => insert_by_date b acc) bs acc) (bs ++ acc).
Proof.
  revert acc. induction bs as [|b bs IH]; intros acc; [reflexivity|].
  cbn [fold_left app]. rewrite IH, insert_by_date_perm. symmetry. apply Permutation_middle.
Qed.

Lemma sort_values_date_perm (bs : list (Bar F)) : Permutation (sort_values_date bs) bs.
Proof. unfold sort_values_date. rewrite fold_insert_perm, app_nil_r. reflexivity. Qed.

Lemma insert_by_date_sorted (b : Bar F) (bs : list (Bar F)) :
  StronglySorted date_le bs -> StronglySorted date_le (insert_by_date b bs).
Proof.
  induction bs as [|b' bs IH]; intros Hs.
  - constructor; constructor.
  - inversion Hs as [|x l Hs' Hall]; subst. cbn [insert_by_date].
    destruct (Z.leb_spec (date b') (date b)) as [Hle|Hgt].
    + constructor; [apply IH, Hs'|].
      rewrite Forall_forall in *. intros y Hy.
      apply (Permutation_in _ (insert_by_date_perm b bs)) in Hy.
      destruct Hy as [<-|Hy]; [exact Hle|exact (Hall y Hy)].
    + constructor; [exact Hs|]. constructor; [unfold date_le; lia|].
      rewrite Forall_forall in *. intros y Hy. specialize (Hall y Hy).
      unfold date_le in *. lia.
Qed.

Lemma fold_insert_sorted (bs acc : list (Bar F)) :
  StronglySorted date_le acc ->
  StronglySorted date_le (fold_left (fun acc b => insert_by_date b acc) bs acc).
Proof.
  revert acc. induction bs as [|b bs IH]; intros acc Hs; [exact Hs|].
  cbn [fold_left]. apply IH, insert_by_date_sorted, Hs.
Qed.

Lemma sort_values_date_sorted (bs : list (Bar F)) :
  StronglySorted date_le (sort_values_date bs).
Proof. apply fold_insert_sorted. constructor. Qed.

(** Two chronological arrangements of the same bars coincide when no two
    bars share a date. *)
Lemma sorted_by_date_unique (l1 l2 : list (Bar F)) :
  StronglySorted date_le l1 -> StronglySorted date_le l2 ->
  Permutation l1 l2 -> NoDup (map (@date F) l1) -> l1 = l2.
Proof.
  revert l2. induction l1 as [|a l1 IH]; intros l2 H1 H2 Hp Hnd.
  - apply Permutation_nil in Hp. symmetry. exact Hp.
  - destruct l2 as [|b l2]; [apply Permutation_sym, Permutation_nil in Hp; discriminate Hp|].
    inversion H1 as [|x l H1' Hall1]; subst. inversion H2 as [|y l' H2' Hall2]; subst.
    cbn [map] in Hnd. inversion Hnd as [|d ds Hnotin Hnd']; subst.
    assert (Hab : a = b).
    { assert (Ha : In a (b :: l2)) by (apply (Permutation_in _ Hp); left; reflexivity).
      assert (Hb : In b (a :: l1))
        by (apply (Permutation_in _ (Permutation_sym Hp)); left; reflexivity).
      destruct Ha as [Ha|Ha]; [symmetry; exact Ha|].
      destruct Hb as [Hb|Hb]; [exact Hb|]. exfalso.
      rewrite Forall_forall in Hall1, Hall2.
      pose proof (Hall1 b Hb) as L1. pose proof (Hall2 a Ha) as L2.
      unfold date_le in *. apply Hnotin.
      replace (date a) with (date b) by lia. apply in_map. exact Hb. }
    subst b. f_equal. apply IH; try assumption.
    apply Permutation_cons_inv in Hp. exact Hp.
Qed.

Lemma sort_values_date_order_irrelevant (bars bars' : list (Bar F)) :
  Permutation bars bars' -> NoDup (map (@date F) bars) ->
  sort_values_date bars = sort_values_date bars'.
Proof.
  intros Hp Hnd. apply sorted_by_date_unique.
  - apply sort_values_date_sorted.
  - apply sort_values_date_sorted.
  - rewrite !sort_values_date_perm. exact Hp.
  - apply (Permutation_NoDup (l := map (@date F) bars)); [|exact Hnd].
    apply Permutation_map. symmetry. apply sort_values_date_perm.
Qed.

Context `{Num F} `{Sqrt F} `{PandasLib F}.

(** X19.  The order of the input rows does not matter to
    [engineer_features] when no two bars share a date: it sorts by date
    first, so every arrangement of the same bars gives the same table. *)
Theorem engineer_features_row_order_irrelevant (bars bars' : list (Bar F)) :
  Permutation bars bars' -> NoDup (map (@date F) bars) ->
  engineer_features bars = engineer_features bars'.
Proof.
  intros Hp Hnd. unfold engineer_features.
  rewrite (sort_values_date_order_irrelevant Hp Hnd). reflexivity.
Qed.
End SortFacts.

Lemma engineer_features_row_order_irrelevant_witness :
  @engineer_features float _ _ identity_lib three_bars =
  @engineer_features float _ _ identity_lib (rev three_bars).
Proof.
  apply (@engineer_features_row_order_irrelevant float _ _ identity_lib).
  - apply Permutation_rev.
  - repeat constructor; simpl; intuition discriminate.
Defined.

Section ChronoFloat.
Context {L : PandasLib float}.
Local Open Scope string_scope.

Lemma sorted_dates (F : Type) (bs : list (Bar F)) :
  StronglySorted date_le bs -> StronglySorted Z.le (map (@date F) bs).
Proof.
  induction 1 as [|b bs Hs IH Hall]; [constructor|].
  cbn [map]. constructor; [exact IH|].
  rewrite Forall_forall in *. intros d Hd. apply in_map_iff in Hd.
  destruct Hd as [b' [<- Hb']]. exact (Hall b' Hb').
Qed.

(** X20.  The rows of the table [engineer_features] returns are in
    chronological order: its [date] column is non-decreasing and holds the
    dates of the input bars, each as often as it occurs there. *)
Theorem engineer_features_rows_chronological (bars : list (Bar float)) :
  exists table dates,
    engineer_features bars = Some table /\
    lookup "date" (df_columns table) = Some (ints dates) /\
    StronglySorted Z.le dates /\
    Permutation dates (map (@date float) bars).
Proof.
  eexists. eexists. split; [reflexivity|]. split; [reflexivity|]. split.
  - apply sorted_dates, sort_values_date_sorted.
  - apply Permutation_map, sort_values_date_perm.
Qed.
End ChronoFloat.

(** ** Model comparison *)

(** The literals of [compare_models.py], in binary64. *)
Example lit_0_4_float : @lit_0_4 float _ = 0.40%float. Proof. reflexivity. Qed.
Example lit_0_2_float : @lit_0_2 float _ = 0.20%float. Proof. reflexivity. Qed.
Example lit_0_1_float : @lit_0_1 float _ = 0.10%float. Proof. reflexivity. Qed.
Example lit_0_5_float : @lit_0_5 float _ = 0.5%float. Proof. reflexivity. Qed.
Example lit_0_005_float : @lit_0_005 float _ = 0.005%float. Proof. reflexivity. Qed.
Example lit_0_02_float : @lit_0_02 float _ = 0.02%float. Proof. reflexivity. Qed.

Section CompareFloat.
Local Open Scope string_scope.
Local Open Scope num_scope.

Lemma leb_nan_r (a b : float) : isnan b = true -> (a <=? b) = false.
Proof.
  rewrite isnan_float. intros Hn. apply FloatFacts.is_nan_SF in Hn.
  cbn [fleb float_Num]. rewrite leb_spec, Hn.
  destruct (Prim2SF a) as [s|s| |s m e]; reflexivity.
Qed.

Lemma leb_positive_zero_or_nan (t v : float) :
  (t >? f0) = true ->
  Prim2SF v = S754_nan \/ (exists s, Prim2SF v = S754_zero s) ->
  (t <=? v) = false.
Proof.
  cbn [fltb fleb float_Num]. rewrite ltb_spec, leb_spec.
  change (Prim2SF f0) with (S754_zero false).
  intros Ht [Hv|[sg Hv]]; rewrite Hv.
  - destruct (Prim2SF t) as [s|s| |s m e]; reflexivity.
  - destruct (Prim2SF t) as [s|s| |s m e]; try discriminate Ht;
      destruct s; try discriminate Ht; destruct sg; reflexivity.
Qed.

Lemma improvement_of_same_score (s : float) :
  (s >? f0) = true ->
  Prim2SF (improvement s s) = S754_nan \/ exists sg, Prim2SF (improvement s s) = S754_zero sg.
Proof.
  intros E. unfold improvement. rewrite E. cbn [fsub fdiv float_Num].
  destruct (sub_self_SF s) as [Hn|Hz].
  - left. rewrite div_spec, Hn. reflexivity.
  - exact (@zero_div_SF (PrimFloat.sub s s) s Hz).
Qed.

(** X21.  Comparing a model with itself never deploys: with the same
    metrics on both sides, a positive composite score and a positive
    threshold, the improvement is 0 (or NaN) and the answer is
    [(False, 'Improvement ... below threshold')]. *)
Theorem same_metrics_never_deploy (metrics : MetricsReport float) (threshold : float) :
  (calculate_composite_score metrics >? f0) = true ->
  (threshold >? f0) = true ->
  should_deploy (compare_models metrics metrics threshold) = false /\
  reason (compare_models metrics metrics threshold) = ImprovementBelowThreshold.
Proof.
  intros Hpos Ht. unfold compare_models.
  rewrite (@leb_positive_zero_or_nan threshold _ Ht
             (@improvement_of_same_score (calculate_composite_score metrics) Hpos)).
  split; reflexivity.
Qed.

(** X22.  When the composite score of the existing model is not positive
    (zero, negative or NaN), the improvement is fixed to [1.0] (reported as
    100 percent) whatever the new model is, so for a threshold of at most 1
    the new model is deployed unless its accuracy dropped by more than
    0.02. *)
Theorem no_positive_score_forces_improvement
  (new_metrics existing_metrics : MetricsReport float) (threshold : float) :
  (calculate_composite_score existing_metrics >? f0) = false ->
  (threshold <=? f1) = true ->
  lookup "improvement_pct" (comparison (compare_models new_metrics existing_metrics threshold))
    = Some (PyFloat 100%float) /\
  should_deploy (compare_models new_metrics existing_metrics threshold) =
    negb (pyval_num (dict_get existing_metrics "accuracy" (PyInt 0))
          - pyval_num (dict_get new_metrics "accuracy" (PyInt 0)) >? lit_0_02).
Proof.
  intros Hex Ht. unfold compare_models, improvement. rewrite Hex, Ht.
  split; destruct (_ >? lit_0_02); reflexivity.
Qed.

Lemma nan_sharpe_nan_score (metrics : MetricsReport float) :
  lookup "sharpe_ratio" metrics = Some (PyFloat nan) ->
  isnan (calculate_composite_score metrics) = true.
Proof.
  intros Hl. unfold calculate_composite_score, normalized, dict_get. rewrite Hl.
  cbn [map2 weights fold_left].
  do 4 apply (@isnan_add_l float _ float_NanLaws). reflexivity.
Qed.

(** X23.  A new model whose [sharpe_ratio] is NaN is never deployed over
    an existing model with a positive composite score: the NaN reaches the
    new score and the improvement, and [NaN >= threshold] is false. *)
Theorem nan_sharpe_never_deploys (new_metrics existing_metrics : MetricsReport float)
  (threshold : float) :
  lookup "sharpe_ratio" new_metrics = Some (PyFloat nan) ->
  (calculate_composite_score existing_metrics >? f0) = true ->
  should_deploy (compare_models new_metrics existing_metrics threshold) = false.
Proof.
  intros Hl Hpos. unfold compare_models, improvement. rewrite Hpos.
  assert (Hn : isnan ((calculate_composite_score new_metrics
                       - calculate_composite_score existing_metrics)
                      / calculate_composite_score existing_metrics) = true).
  { apply (@isnan_div_l float _ float_NanLaws), (@isnan_sub_l float _ float_NanLaws).
    apply nan_sharpe_nan_score. exact Hl. }
  rewrite (@leb_nan_r threshold _ Hn). reflexivity.
Qed.
End CompareFloat.

Lemma same_metrics_never_deploy_witness :
  should_deploy
    (compare_models [("sharpe_ratio", PyFloat 1.5%float); ("accuracy", PyFloat 0.55%float)]%string
       [("sharpe_ratio", PyFloat 1.5%float); ("accuracy", PyFloat 0.55%float)]%string
       lit_0_005) = false.
Proof.
  apply (@same_metrics_never_deploy
           [("sharpe_ratio", PyFloat 1.5%float); ("accuracy", PyFloat 0.55%float)]%string
           lit_0_005); reflexivity.
Defined.

Lemma no_positive_score_forces_improvement_witness :
  should_deploy
    (compare_models
       [("sharpe_ratio", PyFloat (-2)%float); ("accuracy", PyInt 0);
        ("profit_factor", PyInt 0); ("win_rate", PyInt 0)]%string
       [("sharpe_ratio", PyFloat (-1)%float); ("accuracy", PyInt 0);
        ("profit_factor", PyInt 0); ("win_rate", PyInt 0)]%string
       lit_0_005) = true.
Proof.
  apply (@no_positive_score_forces_improvement
           [("sharpe_ratio", PyFloat (-2)%float); ("accuracy", PyInt 0);
            ("profit_factor", PyInt 0); ("win_rate", PyInt 0)]%string
           [("sharpe_ratio", PyFloat (-1)%float); ("accuracy", PyInt 0);
            ("profit_factor", PyInt 0); ("win_rate", PyInt 0)]%string
           lit_0_005); reflexivity.
Defined.

Lemma nan_sharpe_never_deploys_witness :
  should_deploy
    (compare_models [("sharpe_ratio", PyFloat nan); ("accuracy", PyFloat 0.9%float)]%string
       [("sharpe_ratio", PyFloat 0.1%float); ("accuracy", PyFloat 0.5%float)]%string
       lit_0_005) = false.
Proof.
  apply (@nan_sharpe_never_deploys
           [("sharpe_ratio", PyFloat nan); ("accuracy", PyFloat 0.9%float)]%string
           [("sharpe_ratio", PyFloat 0.1%float); ("accuracy", PyFloat 0.5%float)]%string
           lit_0_005); reflexivity.
Defined.

Section CompareExact.
Local Open Scope string_scope.
Local Open Scope num_scope.

(** [min(max(v, 0), hi) / hi] lies in [[0, 1]]. *)
Lemma clamp_exact (v : pyval xq) (q : Q) (hi : Z) :
  pyval_num v = XFin q -> (0 < hi)%Z ->
  exists r,
    pyval_num (pyval_min (pyval_max v (PyInt 0)) (PyInt hi)) / f_of_Z hi = XFin r /\
    (0 <= r <= 1)%Q.
Proof.
  intros Hv Hhi.
  assert (Hhq : (0 < inject_Z hi)%Q).
  { change 0%Q with (inject_Z 0). rewrite <- Zlt_Qlt. exact Hhi. }
  assert (Hh0 : ~ (inject_Z hi == 0)%Q) by lra.
  assert (Hclamp : exists c, pyval_num (pyval_min (pyval_max v (PyInt 0)) (PyInt hi)) = XFin c
                             /\ (0 <= c <= inject_Z hi)%Q).
  { destruct v as [z|x].
    - cbn [pyval_num] in Hv. unfold pyval_max, pyval_min, pyval_ltb.
      destruct (Z.ltb_spec z 0) as [Hz|Hz].
      + destruct (Z.ltb_spec hi 0) as [Hc|_]; [lia|].
        cbn [pyval_num]. exists (inject_Z 0). split; [reflexivity|].
        change (inject_Z 0) with 0%Q. lra.
      + destruct (Z.ltb_spec hi z) as [Hc|Hc]; cbn [pyval_num].
        * exists (inject_Z hi). split; [reflexivity|]. lra.
        * exists (inject_Z z). split; [reflexivity|]. split.
          -- change 0%Q with (inject_Z 0). rewrite <- Zle_Qle. exact Hz.
          -- rewrite <- Zle_Qle. exact Hc.
    - cbn [pyval_num] in Hv. subst x. unfold pyval_max, pyval_min, pyval_ltb.
      cbn [pyval_num].
      change (@f_of_Z xq _ 0) with (XFin (inject_Z 0)).
      change (@f_of_Z xq _ hi) with (XFin (inject_Z hi)).
      destruct (XFin q <? XFin (inject_Z 0)) eqn:E1.
      + destruct (Z.ltb_spec hi 0) as [Hc|_]; [lia|].
        cbn [pyval_num]. exists (inject_Z 0). split; [reflexivity|].
        change (inject_Z 0) with 0%Q. lra.
      + assert (H0 : (0 <= q)%Q).
        { destruct (Qlt_le_dec q 0) as [Hlt|Hge]; [|exact Hge].
          apply (proj2 (xltb_fin q (inject_Z 0))) in Hlt. rewrite Hlt in E1. discriminate E1. }
        cbn [pyval_num].
        destruct (XFin (inject_Z hi) <? XFin q) eqn:E2; cbn [pyval_num].
        * exists (inject_Z hi). split; [reflexivity|]. lra.
        * exists q. split; [reflexivity|]. split; [exact H0|].
          destruct (Qlt_le_dec (inject_Z hi) q) as [Hlt|Hge]; [|exact Hge].
          apply (proj2 (xltb_fin (inject_Z hi) q)) in Hlt. rewrite Hlt in E2. discriminate E2. }
  destruct Hclamp as [c [Ec [Hc0 Hc1]]]. rewrite Ec.
  change (@f_of_Z xq _ hi) with (XFin (inject_Z hi)). rewrite (xdiv_fin _ Hh0).
  exists (c / inject_Z hi)%Q. split; [reflexivity|]. split.
  - apply Qle_shift_div_l; [exact Hhq|]. lra.
  - apply Qle_shift_div_r; [exact Hhq|]. lra.
Qed.

(** X24.  In exact arithmetic the composite score is a weighted mean with
    weights summing to 1: for finite metrics with [accuracy] and [win_rate]
    in [[0, 1]] it lies in [[0, 1]]. *)
Theorem composite_score_exact_bounds (metrics : MetricsReport xq) (s a p w o : Q) :
  pyval_num (dict_get metrics "sharpe_ratio" (PyInt 0)) = XFin s ->
  pyval_num (dict_get metrics "accuracy" (PyFloat lit_0_5)) = XFin a ->
  pyval_num (dict_get metrics "profit_factor" (PyInt 1)) = XFin p ->
  pyval_num (dict_get metrics "win_rate" (PyFloat lit_0_5)) = XFin w ->
  pyval_num (dict_get metrics "sortino_ratio" (PyInt 0)) = XFin o ->
  (0 <= a <= 1)%Q -> (0 <= w <= 1)%Q ->
  exists q, calculate_composite_score metrics = XFin q /\ (0 <= q <= 1)%Q.
Proof.
  intros Hs Ha Hp Hw Ho Ha01 Hw01.
  destruct (@clamp_exact _ s 5 Hs ltac:(lia)) as [rs [Es Hrs]].
  destruct (@clamp_exact _ p 3 Hp ltac:(lia)) as [rp [Ep Hrp]].
  destruct (@clamp_exact _ o 5 Ho ltac:(lia)) as [ro [Eo Hro]].
  unfold calculate_composite_score, normalized.
  cbn [map2 weights fold_left pyval_num]. rewrite Es, Ep, Eo, Ha, Hw.
  assert (H10 : ~ (inject_Z 10 == 0)%Q) by (change (inject_Z 10) with 10%Q; lra).
  unfold lit_0_4, lit_0_2, lit_0_1.
  change (@f_of_Z xq _ 4) with (XFin (inject_Z 4)).
  change (@f_of_Z xq _ 2) with (XFin (inject_Z 2)).
  change (@f_of_Z xq _ 10) with (XFin (inject_Z 10)).
  change (@f1 xq _) with (XFin (inject_Z 1)).
  change (@f0 xq _) with (XFin (inject_Z 0)).
  rewrite !(xdiv_fin _ H10), !xmul_fin, !xadd_fin.
  eexists. split; [reflexivity|].
  change (inject_Z 0) with 0%Q. change (inject_Z 1) with 1%Q.
  change (inject_Z 2) with 2%Q. change (inject_Z 4) with 4%Q.
  change (inject_Z 10) with 10%Q.
  assert (E4 : (4 / 10 == 2 # 5)%Q) by reflexivity.
  assert (E2 : (2 / 10 == 1 # 5)%Q) by reflexivity.
  assert (E1 : (1 / 10 == 1 # 10)%Q) by reflexivity.
  rewrite E4, E2, E1. lra.
Qed.
End CompareExact.

Lemma composite_score_exact_bounds_witness :
  exists q,
    calculate_composite_score
      [("sharpe_ratio", PyFloat (XFin 7)); ("accuracy", PyFloat (XFin (1 # 2)));
       ("win_rate", PyInt 1)]%string = XFin q /\ (0 <= q <= 1)%Q.
Proof.
  apply (@composite_score_exact_bounds
           [("sharpe_ratio", PyFloat (XFin 7)); ("accuracy", PyFloat (XFin (1 # 2)));
            ("win_rate", PyInt 1)]%string 7 (1 # 2) 1 1 0);
    try reflexivity; split; discriminate.
Defined.

(** ** Training data *)

Section SequenceFacts.
Context {A B : Type}.

Lemma sequence_length (xs : list (option A)) (vs : list A) :
  sequence xs = Some vs -> length vs = length xs.
Proof.
  revert vs. induction xs as [|x xs IH]; intros vs; cbn [sequence].
  - intros [= <-]. reflexivity.
  - destruct x as [v|]; [|discriminate]. destruct (sequence xs) as [vs'|]; [|discriminate].
    intros [= <-]. cbn [length]. f_equal. apply IH. reflexivity.
Qed.

Lemma sequence_map (f : B -> option A) (xs : list B) (vs : list A) :
  sequence (map f xs) = Some vs -> Forall2 (fun x v => f x = Some v) xs vs.
Proof.
  revert vs. induction xs as [|x xs IH]; intros vs; cbn [map sequence].
  - intros [= <-]. constructor.
  - destruct (f x) as [v|] eqn:E; [|discriminate].
    destruct (sequence (map f xs)) as [vs'|]; [|discriminate].
    intros [= <-]. constructor; [exact E|]. apply IH. reflexivity.
Qed.

Lemma take_length (order : list nat) (xs ys : list A) :
  take order xs = Some ys -> length ys = length order.
Proof.
  unfold take. intros E. apply sequence_length in E. rewrite length_map in E. exact E.
Qed.

Lemma slice_to_from (k : Z) (xs : list A) : slice_to k xs ++ slice_from k xs = xs.
Proof. unfold slice_to, slice_from. apply firstn_skipn. Qed.

Lemma slice_index_le (n : nat) (k : Z) : (slice_index n k <= n)%nat.
Proof. unfold slice_index. destruct (Z.ltb_spec k 0); lia. Qed.

Lemma length_slice_to (k : Z) (xs : list A) :
  length (slice_to k xs) = slice_index (length xs) k.
Proof.
  unfold slice_to. rewrite length_firstn. pose proof (slice_index_le (length xs) k). lia.
Qed.

Lemma length_slice_from (k : Z) (xs : list A) :
  length (slice_from k xs) = (length xs - slice_index (length xs) k)%nat.
Proof. unfold slice_from. apply length_skipn. Qed.
End SequenceFacts.

Section PrepareDataFacts.
Context {F : Type} `{Num F} `{ToInt F}.
Local Open Scope string_scope.
Local Open Scope num_scope.
Variable argsort : list Z -> list nat.
Variable Scaler : Type.
Variable fit_transform : list (list F) -> option (Scaler * list (list F)).
Variable transform : Scaler -> list (list F) -> option (list (list F)).

Lemma sort_values_by_date_inv (df sorted : DataFrame F) :
  sort_values_by_date argsort df = Some sorted ->
  map fst (df_columns sorted) = map fst (df_columns df) /\
  forall name col, In (name, col) (df_columns sorted) -> length col = nrows sorted.
Proof.
  unfold sort_values_by_date.
  destruct (lookup "date" (df_columns df)) as [date_col|]; [|discriminate].
  destruct (sequence (map cell_date date_col)) as [dates|]; [|discriminate].
  destruct (sequence _) as [columns|] eqn:Ec; [|discriminate].
  intros [= <-]. cbn [df_columns df_index]. unfold nrows. cbn [df_index].
  rewrite length_map, length_seq.
  apply sequence_map in Ec.
  split.
  - induction Ec as [|col out cols outs Hc _ IH]; [reflexivity|].
    cbn [map]. rewrite IH. f_equal.
    destruct (take (argsort dates) (snd col)); [|discriminate Hc].
    injection Hc as <-. reflexivity.
  - intros name col Hin.
    induction Ec as [|col0 out cols outs Hc _ IH]; [contradiction|].
    destruct Hin as [->|Hin]; [|exact (IH Hin)].
    destruct (take (argsort dates) (snd col0)) as [cells|] eqn:Et; [|discriminate Hc].
    injection Hc as _ <-. exact (take_length _ _ Et).
Qed.

(** What a successful call has computed. *)
Lemma prepare_data_inv (df : DataFrame F) (test_ratio : F) (pd : PreparedData F) :
  prepare_data argsort fit_transform transform df test_ratio = Some pd ->
  exists sorted target_col return_col y returns k,
    sort_values_by_date argsort df = Some sorted /\
    lookup "target" (df_columns sorted) = Some target_col /\
    lookup "target_return" (df_columns sorted) = Some return_col /\
    sequence (map nan_to_num_cell target_col) = Some y /\
    sequence (map cell_num return_col) = Some returns /\
    y_train pd = slice_to k y /\ y_test pd = slice_from k y /\
    returns_train pd = slice_to k (map (np_nan_to_num_kw f0 f0 f0) returns) /\
    returns_test pd = slice_from k (map (np_nan_to_num_kw f0 f0 f0) returns) /\
    feature_names pd = filter (not_in EXCLUDE_COLS) (map fst (df_columns sorted)).
Proof.
  unfold prepare_data.
  destruct (sort_values_by_date argsort df) as [sorted|]; [|discriminate].
  destruct (sequence (map _ (filter _ _))) as [X_columns|]; [|discriminate].
  destruct (matrix_rows X_columns (nrows sorted)) as [X|]; [|discriminate].
  destruct (lookup "target" (df_columns sorted)) as [target_col|] eqn:Et; [|discriminate].
  destruct (lookup "target_return" (df_columns sorted)) as [return_col|] eqn:Er;
    [|discriminate].
  destruct (sequence (map cell_num return_col)) as [returns|] eqn:Ers; [|discriminate].
  destruct (sequence (map nan_to_num_cell target_col)) as [y|] eqn:Ey; [|discriminate].
  destruct (py_int _) as [k|]; [|discriminate].
  destruct (fit_transform _) as [[scaler Xt]|]; [|discriminate].
  destruct (transform scaler _) as [Xs|]; [|discriminate].
  intros [= <-]. cbn [y_train y_test returns_train returns_test feature_names].
  exists sorted, target_col, return_col, y, returns, k.
  repeat split; try reflexivity; assumption.
Qed.

(** X26.  The train/test split loses, repeats and reorders nothing: the
    train part followed by the test part is the whole date-sorted column,
    for the labels and for the returns, and the two have matching sizes. *)
Theorem split_keeps_every_row_in_order (df : DataFrame F) (test_ratio : F)
  (pd : PreparedData F) :
  prepare_data argsort fit_transform transform df test_ratio = Some pd ->
  exists sorted target_col return_col y returns,
    sort_values_by_date argsort df = Some sorted /\
    lookup "target" (df_columns sorted) = Some target_col /\
    lookup "target_return" (df_columns sorted) = Some return_col /\
    sequence (map nan_to_num_cell target_col) = Some y /\
    sequence (map cell_num return_col) = Some returns /\
    (y_train pd ++ y_test pd)%list = y /\
    (returns_train pd ++ returns_test pd)%list = map (np_nan_to_num_kw f0 f0 f0) returns /\
    length (y_train pd) = length (returns_train pd) /\
    length (y_test pd) = length (returns_test pd) /\
    (length (y_train pd) + length (y_test pd) = nrows sorted)%nat.
Proof.
  intros E. destruct (prepare_data_inv _ _ E)
    as [sorted [tc [rc [y [returns [k [Es [Ht [Hr [Hy [Hrs [Y1 [Y2 [R1 [R2 _]]]]]]]]]]]]]]].
  exists sorted, tc, rc, y, returns.
  destruct (sort_values_by_date_inv _ Es) as [_ Hlen].
  assert (Ly : length y = nrows sorted).
  { apply sequence_length in Hy. rewrite length_map in Hy. rewrite Hy.
    apply (Hlen "target"). apply lookup_In. exact Ht. }
  assert (Lr : length returns = nrows sorted).
  { apply sequence_length in Hrs. rewrite length_map in Hrs. rewrite Hrs.
    apply (Hlen "target_return"). apply lookup_In. exact Hr. }
  rewrite Y1, Y2, R1, R2, !slice_to_from, !length_slice_to, !length_slice_from, length_map.
  rewrite Ly, Lr. pose proof (slice_index_le (nrows sorted) k).
  repeat split; try assumption; try reflexivity; lia.
Qed.
End PrepareDataFacts.

Section PrepareDataFloat.
Local Open Scope string_scope.
Local Open Scope num_scope.
Variable argsort : list Z -> list nat.
Variable Scaler : Type.
Variable fit_transform : list (list float) -> option (Scaler * list (list float)).
Variable transform : Scaler -> list (list float) -> option (list (list float)).

(** With all three replacements 0, [np.nan_to_num] zeroes exactly the
    entries that are not finite. *)
Lemma np_nan_to_num_kw_zero (x : float) :
  np_nan_to_num_kw f0 f0 f0 x = zero_if_not_finite x.
Proof.
  unfold np_nan_to_num_kw, zero_if_not_finite, isfinite, isinf.
  destruct (isnan x) eqn:En; [reflexivity|]. cbn [orb].
  cbn [feqb fabs fopp finf float_Num]. rewrite !FloatAxioms.eqb_spec, FloatAxioms.abs_spec.
  change (Prim2SF infinity) with (S754_infinity false).
  change (Prim2SF (- infinity)%float) with (S754_infinity true).
  destruct (Prim2SF x) as [s|s| |s m e]; simpl; try reflexivity;
    destruct s; reflexivity.
Qed.

Lemma zero_if_not_finite_isfinite (x : float) : isfinite (zero_if_not_finite x) = true.
Proof.
  unfold zero_if_not_finite. destruct (isfinite x) eqn:E; [exact E|reflexivity].
Qed.

(** X27.  The returns [prepare_data] hands on are finite: with the keyword
    form [np.nan_to_num(.., nan=0.0, posinf=0.0, neginf=0.0)] every NaN and
    every infinity of [target_return] becomes 0 and every other value is
    kept. *)
Theorem prepared_returns_are_finite (df : DataFrame float) (test_ratio : float)
  (pd : PreparedData float) :
  prepare_data argsort fit_transform transform df test_ratio = Some pd ->
  exists sorted return_col returns,
    sort_values_by_date argsort df = Some sorted /\
    lookup "target_return" (df_columns sorted) = Some return_col /\
    sequence (map cell_num return_col) = Some returns /\
    (returns_train pd ++ returns_test pd)%list = map zero_if_not_finite returns /\
    forall r, In r (returns_train pd ++ returns_test pd)%list -> isfinite r = true.
Proof.
  intros E. destruct (prepare_data_inv _ _ _ _ _ E)
    as [sorted [tc [rc [y [returns [k [Es [_ [Hr [_ [Hrs [_ [_ [R1 [R2 _]]]]]]]]]]]]]]].
  exists sorted, rc, returns.
  assert (Hcat : (returns_train pd ++ returns_test pd)%list = map zero_if_not_finite returns).
  { rewrite R1, R2, slice_to_from. apply map_ext. exact np_nan_to_num_kw_zero. }
  repeat split; try assumption.
  intros r Hin. rewrite Hcat in Hin. apply in_map_iff in Hin.
  destruct Hin as [x [<- _]]. apply zero_if_not_finite_isfinite.
Qed.

Context {L : PandasLib float}.

Lemma process_all_symbols_columns (bars : list (Bar float)) (table : DataFrame float) :
  process_all_symbols bars = Some table ->
  map fst (df_columns table) = feature_table_columns.
Proof.
  destruct bars as [|b bars]; [discriminate|].
  destruct (@combined_frame L (b :: bars)) as [all_features [combined [Ef [Ec [_ Hc]]]]];
    [discriminate|].
  unfold process_all_symbols. rewrite Ef, Ec. intros [= <-].
  rewrite dropna_columns. exact Hc.
Qed.

(** X28.  On a table made by [process_all_symbols], [prepare_data] trains
    on 55 features: the 72 columns without the 17 of [EXCLUDE_COLS]. *)
Theorem pipeline_trains_on_55_features (bars : list (Bar float)) (table : DataFrame float)
  (test_ratio : float) (pd : PreparedData float) :
  process_all_symbols bars = Some table ->
  prepare_data argsort fit_transform transform table test_ratio = Some pd ->
  length (feature_names pd) = 55%nat /\
  feature_names pd = filter (not_in EXCLUDE_COLS) feature_table_columns /\
  ~ In "target" (feature_names pd) /\ ~ In "target_return" (feature_names pd) /\
  ~ In "close" (feature_names pd).
Proof.
  intros Ep E. destruct (prepare_data_inv _ _ _ _ _ E)
    as [sorted [tc [rc [y [returns [k [Es [_ [_ [_ [_ [_ [_ [_ [_ Hf]]]]]]]]]]]]]]].
  destruct (sort_values_by_date_inv _ _ Es) as [Hnames _].
  pose proof (@process_all_symbols_columns bars table Ep) as Hc.
  rewrite Hnames, Hc in Hf. rewrite Hf.
  split; [reflexivity|]. split; [reflexivity|].
  repeat split; intros Hin; apply filter_In in Hin; destruct Hin as [_ Hn];
    discriminate Hn.
Qed.
End PrepareDataFloat.

Lemma split_keeps_every_row_in_order_witness :
  exists pd,
    prepare_data identity_order identity_fit_transform identity_transform
      example_table 0.2%float = Some pd /\
    (y_train pd ++ y_test pd)%list = [CInt 1; CInt 1; CInt 0; CInt 1; CInt 0] /\
    length (y_train pd) = 4%nat.
Proof.
  destruct (prepare_data identity_order identity_fit_transform identity_transform
              example_table 0.2%float) as [pd|] eqn:E; [|vm_compute in E; discriminate E].
  exists pd. split; [reflexivity|].
  destruct (@split_keeps_every_row_in_order float _ _ identity_order unit
              identity_fit_transform identity_transform example_table 0.2%float pd E)
    as [sorted [tc [rc [y [returns [Es [Ht [_ [Hy [_ [Hcat _]]]]]]]]]]].
  split.
  - rewrite Hcat. vm_compute in Es. injection Es as <-.
    vm_compute in Ht. injection Ht as <-. vm_compute in Hy. injection Hy as <-.
    reflexivity.
  - vm_compute in E. injection E as <-. reflexivity.
Defined.

Lemma prepared_returns_are_finite_witness :
  exists pd,
    prepare_data identity_order identity_fit_transform identity_transform
      example_table 0.2%float = Some pd /\
    returns_train pd = [0.01; 0; 0; 0.02]%float /\ returns_test pd = [0%float] /\
    forall r, In r (returns_train pd ++ returns_test pd) -> isfinite r = true.
Proof.
  destruct (prepare_data identity_order identity_fit_transform identity_transform
              example_table 0.2%float) as [pd|] eqn:E; [|vm_compute in E; discriminate E].
  exists pd. split; [reflexivity|].
  destruct (@prepared_returns_are_finite identity_order unit
              identity_fit_transform identity_transform example_table 0.2%float pd E)
    as [sorted [rc [returns [_ [_ [_ [_ Hfin]]]]]]].
  vm_compute in E. injection E as <-.
  split; [reflexivity|]. split; [reflexivity|]. exact Hfin.
Defined.

Lemma pipeline_trains_on_55_features_witness :
  exists table pd,
    @process_all_symbols float _ _ identity_lib (firstn 30 rising_bars) = Some table /\
    prepare_data identity_order identity_fit_transform identity_transform
      table 0.2%float = Some pd /\
    length (feature_names pd) = 55%nat /\ length (y_train pd) = 7%nat.
Proof.
  destruct (@process_all_symbols float _ _ identity_lib (firstn 30 rising_bars))
    as [table|] eqn:Ep; [|vm_compute in Ep; discriminate Ep].
  destruct (prepare_data identity_order identity_fit_transform identity_transform
              table 0.2%float) as [pd|] eqn:E.
  2:{ exfalso. revert E. vm_compute in Ep. injection Ep as <-. vm_compute. discriminate. }
  exists table, pd. split; [reflexivity|]. split; [exact E|].
  destruct (@pipeline_trains_on_55_features identity_order unit identity_fit_transform
              identity_transform identity_lib (firstn 30 rising_bars) table 0.2%float pd
              Ep E) as [Hlen _].
  split; [exact Hlen|].
  revert E. vm_compute in Ep. injection Ep as <-. vm_compute. intros [= <-]. reflexivity.
Defined.

Section PrepareDataSplit.
Context {F : Type} `{Num F} `{ToInt F}.
Local Open Scope string_scope.
Local Open Scope num_scope.
Variable argsort : list Z -> list nat.
Variable Scaler : Type.
Variable fit_transform : list (list F) -> option (Scaler * list (list F)).
Variable transform : Scaler -> list (list F) -> option (list (list F)).

Lemma matrix_rows_length (columns : list (list F)) (n : nat) (X : list (list F)) :
  matrix_rows columns n = Some X -> length X = n.
Proof.
  unfold matrix_rows. intros E. apply sequence_length in E.
  rewrite length_map, length_seq in E. exact E.
Qed.

Lemma prepare_data_split_idx (df : DataFrame F) (test_ratio : F) (pd : PreparedData F) :
  prepare_data argsort fit_transform transform df test_ratio = Some pd ->
  exists sorted k,
    sort_values_by_date argsort df = Some sorted /\
    py_int (f_of_Z (Z.of_nat (nrows sorted)) * (f1 - test_ratio)) = Some k /\
    length (y_train pd) = slice_index (nrows sorted) k /\
    length (y_test pd) = (nrows sorted - slice_index (nrows sorted) k)%nat.
Proof.
  unfold prepare_data.
  destruct (sort_values_by_date argsort df) as [sorted|] eqn:Es; [|discriminate].
  destruct (sequence (map _ (filter _ _))) as [X_columns|]; [|discriminate].
  destruct (matrix_rows X_columns (nrows sorted)) as [X|] eqn:EX; [|discriminate].
  destruct (lookup "target" (df_columns sorted)) as [target_col|] eqn:Et; [|discriminate].
  destruct (lookup "target_return" (df_columns sorted)) as [return_col|]; [|discriminate].
  destruct (sequence (map cell_num return_col)) as [returns|]; [|discriminate].
  destruct (sequence (map nan_to_num_cell target_col)) as [y|] eqn:Ey; [|discriminate].
  rewrite !length_map, (matrix_rows_length _ _ EX).
  destruct (py_int _) as [k|] eqn:Ek; [|discriminate].
  destruct (fit_transform _) as [[scaler Xt]|]; [|discriminate].
  destruct (transform scaler _) as [Xs|]; [|discriminate].
  intros [= <-]. cbn [y_train y_test].
  exists sorted, k. split; [reflexivity|]. split; [exact Ek|].
  destruct (sort_values_by_date_inv _ _ Es) as [_ Hlen].
  assert (Ly : length y = nrows sorted).
  { apply sequence_length in Ey. rewrite length_map in Ey. rewrite Ey.
    apply (Hlen "target"). apply lookup_In. exact Et. }
  rewrite length_slice_to, length_slice_from, Ly. split; reflexivity.
Qed.
End PrepareDataSplit.

Section PrepareDataDefault.
Local Open Scope string_scope.
Variable argsort : list Z -> list nat.
Variable Scaler : Type.
Variable fit_transform : list (list float) -> option (Scaler * list (list float)).
Variable transform : Scaler -> list (list float) -> option (list (list float)).

Lemma range_all_spec (check : Z -> bool) (depth : nat) (lo n : Z) :
  range_all check depth lo = true ->
  (lo <= n < lo + 2 ^ Z.of_nat depth)%Z -> check n = true.
Proof.
  revert lo. induction depth as [|d IH]; intros lo Hr Hn.
  - cbn in Hn. assert (n = lo) by lia. subst. exact Hr.
  - cbn [range_all] in Hr. apply andb_true_iff in Hr. destruct Hr as [H1 H2].
    rewrite Nat2Z.inj_succ, Z.pow_succ_r in Hn by lia.
    destruct (Z_lt_ge_dec n (lo + 2 ^ Z.of_nat d)).
    + apply (IH lo H1). lia.
    + apply (IH _ H2). lia.
Qed.

(** Every row count below [2^18] is checked by evaluation. *)
Lemma default_split_checked : range_all default_split_ok 18 0 = true.
Proof. vm_compute. reflexivity. Qed.

Lemma default_split_idx (n : Z) :
  (0 <= n < 2 ^ 18)%Z ->
  py_int (f_of_Z n * (f1 - 0.2%float))%num = Some (4 * n / 5)%Z.
Proof.
  intros Hn. pose proof (@range_all_spec default_split_ok 18 0 n default_split_checked) as Hc.
  specialize (Hc ltac:(cbn [Z.of_nat]; lia)).
  unfold default_split_ok in Hc.
  change (py_int (f_of_Z n * (f1 - 0.2%float))%num)
    with (float_to_Z (float_of_Z n * (1 - 0.2))%float).
  destruct (float_to_Z (float_of_Z n * (1 - 0.2))%float) as [k|]; [|discriminate Hc].
  apply Z.eqb_eq in Hc. rewrite Hc. reflexivity.
Qed.

(** X29.  In binary64 and with the default [test_ratio = 0.2] (the one call
    of [prepare_data] passes no ratio), on a table of [n < 2^18 = 262144]
    rows the train part has [floor(4n/5)] rows and the test part the rest;
    the test part is not empty when the table has a row. *)
Theorem split_sizes_default_ratio (df : DataFrame float) (pd : PreparedData float) :
  prepare_data argsort fit_transform transform df 0.2%float = Some pd ->
  exists sorted,
    sort_values_by_date argsort df = Some sorted /\
    (length (y_train pd) + length (y_test pd) = nrows sorted)%nat /\
    ((Z.of_nat (nrows sorted) < 2 ^ 18)%Z ->
     Z.of_nat (length (y_train pd)) = (4 * Z.of_nat (nrows sorted) / 5)%Z /\
     ((0 < nrows sorted)%nat -> (0 < length (y_test pd))%nat)).
Proof.
  intros E.
  destruct (prepare_data_split_idx _ _ _ _ _ E) as [sorted [k [Es [Ek [L1 L2]]]]].
  exists sorted. split; [exact Es|].
  set (n := nrows sorted) in *.
  split.
  - rewrite L1, L2. pose proof (slice_index_le n k). lia.
  - intros Hn.
    rewrite (@default_split_idx (Z.of_nat n) ltac:(lia)) in Ek.
    assert (Hk : k = (4 * Z.of_nat n / 5)%Z) by congruence. subst k.
    assert (Hq : (0 <= 4 * Z.of_nat n / 5 <= Z.of_nat n)%Z).
    { split; [apply Z.div_pos; lia|]. apply Z.div_le_upper_bound; lia. }
    assert (Hidx : slice_index n (4 * Z.of_nat n / 5) = Z.to_nat (4 * Z.of_nat n / 5)).
    { unfold slice_index. destruct (Z.ltb_spec (4 * Z.of_nat n / 5) 0); lia. }
    rewrite L1, L2, Hidx. split; [lia|].
    intros Hpos.
    assert (4 * Z.of_nat n / 5 < Z.of_nat n)%Z by (apply Z.div_lt_upper_bound; lia).
    lia.
Qed.

(** For another ratio the index need not be the floor of the exact product:
    [1 - 0.8] is [0.19999999999999996], so 10 rows at [test_ratio = 0.8]
    leave 1 row for training, not 2; and [1 - 1e-17] is 1, so the test part
    of 5 rows is empty. *)
Example split_index_other_ratios :
  py_int (f_of_Z 10 * (f1 - 0.8%float))%num = Some 1%Z /\
  py_int (f_of_Z 5 * (f1 - 1e-17%float))%num = Some 5%Z.
Proof. vm_compute. split; reflexivity. Qed.
End PrepareDataDefault.

Lemma split_sizes_default_ratio_witness :
  exists pd,
    prepare_data identity_order identity_fit_transform identity_transform
      example_table 0.2%float = Some pd /\
    length (y_train pd) = 4%nat /\ length (y_test pd) = 1%nat.
Proof.
  destruct (prepare_data identity_order identity_fit_transform identity_transform
              example_table 0.2%float) as [pd|] eqn:E; [|vm_compute in E; discriminate E].
  exists pd. split; [reflexivity|].
  destruct (@split_sizes_default_ratio identity_order unit identity_fit_transform
              identity_transform example_table pd E)
    as [sorted [Es [Hsum Hsize]]].
  vm_compute in Es. injection Es as <-.
  destruct (Hsize ltac:(vm_compute; reflexivity)) as [Htrain _].
  assert (Ht : length (y_train pd) = 4%nat).
  { apply Nat2Z.inj. rewrite Htrain. reflexivity. }
  split; [exact Ht|]. rewrite Ht in Hsum. cbn in Hsum. lia.
Defined.

(** ** The two labels *)

Section LabelExact.
Local Open Scope num_scope.

(** X30.  In exact arithmetic and for positive closes, the two label
    columns agree at every bar that has a successor: [target] is 1 exactly
    when [target_return] is positive, and 0 exactly when it is not;
    [target_return] is [(close[i+1] - close[i]) / close[i+1]]. *)
Theorem label_agrees_with_return_sign (closes : list Q) (i : nat) (c c' : Q) :
  (forall q, In q closes -> (0 < q)%Q) ->
  nth_error closes i = Some c ->
  nth_error closes (S i) = Some c' ->
  exists t r,
    nth_error (target (map XFin closes)) i = Some t /\
    nth_error (target_return (map XFin closes)) i = Some (XFin r) /\
    (r == (c' - c) / c')%Q /\
    (t = 1%Z <-> (0 < r)%Q) /\ (t = 0%Z <-> (r <= 0)%Q).
Proof.
  intros Hpos Hc Hc'.
  assert (Hcp : (0 < c)%Q) by (apply Hpos; eapply nth_error_In; exact Hc).
  assert (Hcp' : (0 < c')%Q) by (apply Hpos; eapply nth_error_In; exact Hc').
  assert (Hn0 : ~ (c' == 0)%Q) by lra.
  destruct (@target_at xq _ (map XFin closes) i (XFin c) (XFin c')) as [Ht Hr].
  { rewrite nth_error_map, Hc. reflexivity. }
  { rewrite nth_error_map, Hc'. reflexivity. }
  rewrite Ht, Hr.
  change (@f1 xq _) with (XFin 1). change (@f_of_Z xq _ (-1)) with (XFin (inject_Z (-1))).
  rewrite (xdiv_fin _ Hn0), xsub_fin, xmul_fin.
  eexists. eexists. split; [reflexivity|]. split; [reflexivity|].
  assert (Hr' : ((c / c' + - (1)) * inject_Z (-1) == (c' - c) / c')%Q).
  { change (inject_Z (-1)) with (-1)%Q. field. exact Hn0. }
  split; [exact Hr'|].
  assert (Hsign : (0 < (c' - c) / c' <-> c < c')%Q).
  { split; intros Hlt.
    - destruct (Qlt_le_dec c c') as [|Hge]; [assumption|]. exfalso.
      assert ((c' - c) / c' <= 0)%Q; [|lra].
      apply Qle_shift_div_r; [exact Hcp'|]. lra.
    - apply Qlt_shift_div_l; [exact Hcp'|]. lra. }
  rewrite Hr'.
  destruct (XFin c' >? XFin c) eqn:E.
  - apply xltb_fin in E. split; split; intros; try reflexivity; try discriminate.
    + apply Hsign. exact E.
    + apply Hsign in E. lra.
  - assert (Hge : (c' <= c)%Q).
    { destruct (Qlt_le_dec c c') as [Hlt|Hge]; [|exact Hge].
      apply (proj2 (xltb_fin c c')) in Hlt. rewrite Hlt in E. discriminate E. }
    split; split; intros Hx; try reflexivity; try discriminate Hx.
    + apply Hsign in Hx. lra.
    + destruct (Qlt_le_dec 0 ((c' - c) / c')) as [Hlt|Hle]; [|exact Hle].
      apply Hsign in Hlt. lra.
Qed.
End LabelExact.

Lemma label_agrees_with_return_sign_witness :
  exists t r,
    nth_error (target [XFin 100; XFin 110]) 0 = Some t /\
    nth_error (target_return [XFin 100; XFin 110]) 0 = Some (XFin r) /\
    (r == 1 # 11)%Q /\ t = 1%Z.
Proof.
  destruct (@label_agrees_with_return_sign [100; 110]%Q 0 100 110)
    as [t [r [Ht [Hr [Hv [H1 _]]]]]]; try reflexivity.
  { intros q [<-|[<-|[]]]; reflexivity. }
  exists t, r. split; [exact Ht|]. split; [exact Hr|]. split.
  - rewrite Hv. reflexivity.
  - apply H1. rewrite Hv. reflexivity.
Defined.

(** ** The simple moving average, in exact arithmetic *)

Section RollExact.
Local Open Scope num_scope.









End RollExact.

Section SmaExact.
Local Open Scope num_scope.




End SmaExact.


